(** * muSR_Visualization (BEAMS): the numeric pipeline and the fit engine

    A shallow embedding of [BeamsModel.py] (class [RunData]) and of
    [beams/app/model/fit.py], and the properties of the specification
    checked against it.

    Conventions of the embedding:
    - a Python [float] / numpy [float64] is a binary64 value: Rocq's
      primitive [float], with its NaN, infinities and signed zeros;
    - a Python [str] is the list of its code points ([pystr]);
    - a Python [dict] keeps insertion order: an association list ([dict]);
    - a raised exception is the [Raise] branch of [result];
    - routines of numpy, scipy, sympy and the Unicode tables of [str] are
      not code of this repository: they are fields of the interfaces
      [Numpy], [NumpyFFT], [Linalg], [Scipy], [Sympy], [Unicode] and
      [Domain], and every statement holds for all their implementations. *)

From Stdlib Require Import ZArith List Bool Lia Floats String Ascii DecimalString.
From stdpp Require Import base option list gmap.

Local Open Scope Z_scope.

(* ===================================================================== *)
(** * Part I.  The embedding *)
(* ===================================================================== *)

(** ** Python values *)

Module Py.

(** Exceptions raised by the modelled code. *)
Inductive exn : Type :=
| ValueError
| KeyError
| IndexError
| TypeError
| ZeroDivisionError
| OverflowError
| LinAlgError.

Inductive result (A : Type) : Type :=
| Ok (a : A)
| Raise (e : exn).
Arguments Ok {A} a.
Arguments Raise {A} e.

Definition bind {A B : Type} (m : result A) (k : A -> result B) : result B :=
  match m with
  | Ok a => k a
  | Raise e => Raise e
  end.

(** [d[k]] on something that may miss the key, [l[i]] out of range, ... *)
Definition or_raise {A : Type} (e : exn) (o : option A) : result A :=
  match o with
  | Some a => Ok a
  | None => Raise e
  end.

(** A [for] loop whose body may raise: left to right, stopping at the first
    exception. *)
Fixpoint for_each {A S : Type} (body : S -> A -> result S) (l : list A) (s : S)
  : result S :=
  match l with
  | [] => Ok s
  | x :: l' => bind (body s x) (for_each body l')
  end.

(** A list comprehension whose element expression may raise. *)
Fixpoint comprehension {A B : Type} (f : A -> result B) (l : list A)
  : result (list B) :=
  match l with
  | [] => Ok []
  | x :: l' =>
      bind (f x) (fun y => bind (comprehension f l') (fun ys => Ok (y :: ys)))
  end.

(** A string is the list of its code points. *)
Abbreviation pystr := (list N).

(** The code points of an ASCII literal. *)
Definition u (s : string) : pystr :=
  map N_of_ascii (list_ascii_of_string s).

(** [s[a:b]] on a sequence, with Python's treatment of negative and
    out-of-range bounds. *)
Definition clamp_index (n i : Z) : Z :=
  if i <? 0 then Z.max 0 (i + n) else Z.min i n.

Definition slice {A : Type} (l : list A) (a b : Z) : list A :=
  let n := Z.of_nat (length l) in
  let a' := clamp_index n a in
  let b' := clamp_index n b in
  take (Z.to_nat (b' - a')) (drop (Z.to_nat a') l).

(** An insertion-ordered dictionary. *)
Abbreviation dict K V := (list (K * V)).

Section Dict.
Context {K V : Type} `{EqDecision K}.

Fixpoint dict_get (d : dict K V) (k : K) : option V :=
  match d with
  | [] => None
  | (k', v) :: d' => if decide (k' = k) then Some v else dict_get d' k
  end.

(** [d[k] = v]: an existing key keeps its place, a new one goes last. *)
Fixpoint dict_set (d : dict K V) (k : K) (v : V) : dict K V :=
  match d with
  | [] => [(k, v)]
  | (k', v') :: d' =>
      if decide (k' = k) then (k', v) :: d' else (k', v') :: dict_set d' k v
  end.

Definition dict_keys (d : dict K V) : list K := map fst d.
Definition dict_values (d : dict K V) : list V := map snd d.
End Dict.

End Py.

Export Py.

(** [x ← m; k] runs [m] and continues with [k] unless [m] raised. *)
#[global] Instance result_mbind : MBind result :=
  fun (A B : Type) (k : A -> result B) (m : result A) => bind m k.

(** ** binary64 helpers *)

Module F64.

(** Conversion of a Python [int] to a float, rounding to nearest even. *)
Definition of_Z (z : Z) : float :=
  SF2Prim (binary_normalize prec emax z 0 false).

(** [int(np.floor(x))]: [None] on NaN and the infinities, where Python's
    [int] raises. *)
Definition floor (x : float) : option Z :=
  match Prim2SF x with
  | S754_zero _ => Some 0
  | S754_finite s m e => Some (Z.shiftl (if s then Z.neg m else Z.pos m) e)
  | S754_infinity _ => None
  | S754_nan => None
  end.

Definition square (x : float) : float := (x * x)%float.

(** [fillna(0.0)] / the NaN part of [nan_to_num] on one value. *)
Definition fillna0 (x : float) : float :=
  if PrimFloat.is_nan x then 0%float else x.

End F64.

(** ** External numeric routines *)

(** numpy's reductions and allocation. The order in which [np.sum] adds
    its terms and the contents of a fresh [np.empty] array are numpy's
    affair. *)
Class Numpy : Type := {
  np_sum : list float -> float;
  np_empty_cell : nat -> float;
  np_min : list float -> float;
  np_max : list float -> float;
  (** [np.linspace(start, stop, num)] *)
  np_linspace : float -> float -> nat -> list float;
  np_linspace_length :
    forall (start stop : float) (num : nat),
      length (np_linspace start stop num) = num
}.

(** numpy's complex arithmetic: [np.fft.fft] of one row, a complex value
    (real, imaginary) per sample; a complex value divided by a real one;
    the modulus of a complex value. *)
Class NumpyFFT : Type := {
  np_fft : list float -> list (float * float);
  np_fft_length : forall l : list float, length (np_fft l) = length l;
  np_cdiv : float * float -> float -> float * float;
  np_cabs : float * float -> float
}.

(** [np.empty(n)]: [n] cells of unspecified content. *)
Definition np_empty `{Numpy} (n : nat) : list float :=
  map np_empty_cell (seq 0 n).

(** [np.mean] of a numpy array. *)
Definition np_mean `{Numpy} (l : list float) : float :=
  (np_sum l / F64.of_Z (Z.of_nat (length l)))%float.

(** [np.mean] of a pandas Series, which dispatches to [Series.mean]:
    missing values (NaN) count as zero in the sum and are left out of the
    count; the mean of no value is NaN. *)
Definition series_mean `{Numpy} (l : list float) : float :=
  let count := length (filter (fun x => PrimFloat.is_nan x = false) l) in
  if (count =? 0)%nat then PrimFloat.nan
  else (np_sum (map F64.fillna0 l) / F64.of_Z (Z.of_nat count))%float.

(** scipy: the zero-smoothing-factor [UnivariateSpline] through the points
    [(xs, ys)] evaluated at the points [q] (it raises on input it cannot
    fit), and the bounded [least_squares] solver, given the residual as a
    function of the unknown vector, the initial guesses and the two bound
    vectors; it returns [opt.x]. *)
Class Scipy : Type := {
  spline_s0 : list float -> list float -> list float -> result (list float);
  spline_s0_length :
    forall (xs ys q out : list float),
      spline_s0 xs ys q = Ok out -> length out = length q;
  least_squares :
    (list float -> result (list float)) -> list float ->
    list float * list float -> result (list float)
}.

(** [x / y] on two Python floats. *)
Definition py_div (x y : float) : result float :=
  if PrimFloat.is_zero y then Raise ZeroDivisionError else Ok (x / y)%float.

(** [int(np.floor(x))]. *)
Definition py_int_floor (x : float) : result Z :=
  match F64.floor x with
  | Some z => Ok z
  | None => Raise (if PrimFloat.is_nan x then ValueError else OverflowError)
  end.

(** ** BeamsModel.py: class RunData *)

Module BeamsModel.

(** A pandas Series: its values with their index labels. *)
Abbreviation Series := (list (Z * float)).

(** A column of the histogram DataFrame, indexed [0 .. n-1]. *)
Definition column_series (c : list float) : Series :=
  imap (fun i x => (Z.of_nat i, x)) c.

(** [.loc[start:end]]: label-based, both ends included. *)
Definition loc (start_bin end_bin : Z) (s : Series) : Series :=
  filter (fun p => start_bin <= p.1 <= end_bin) s.

(** [series - scalar]. *)
Definition series_sub_scalar (s : Series) (b : float) : Series :=
  map (fun p => (p.1, (p.2 - b)%float)) s.

(** A binary operation on two Series carrying the same labels, as the two
    [.loc] slices of one DataFrame do: element by element. *)
Definition series_binop (f : float -> float -> float) (s1 s2 : Series) : Series :=
  zip_with (fun p q => (p.1, f p.2 q.2)) s1 s2.

(** [series.fillna(0.0, inplace=True)]. *)
Definition fillna (s : Series) : Series :=
  map (fun p => (p.1, F64.fillna0 p.2)) s.

(** The value of a Series at a label. *)
Definition series_at (s : Series) (i : Z) : option float :=
  dict_get s i.

(** The part of [f_formats] that the modelled methods read; the bin
    numbers are stored after their [int(...)] conversion. The histogram
    counts are stored as the float64 values that the arithmetic with the
    float background promotes them to. *)
Record f_format : Type := {
  GoodBinOne : gmap pystr Z;
  GoodBinTwo : gmap pystr Z;
  binsize : float
}.

(** [RunData.calculate_asymmetry]. *)
Definition calculate_asymmetry (f_formats : f_format)
    (histogram_data : gmap pystr (list float))
    (hist_one hist_two : pystr) (bkg_one bkg_two : float) : result Series :=
  start_bin ← or_raise KeyError (GoodBinOne f_formats !! hist_one);
  good_one_two ← or_raise KeyError (GoodBinOne f_formats !! hist_two);
  let start_bin := if start_bin <? good_one_two then good_one_two else start_bin in
  end_bin ← or_raise KeyError (GoodBinTwo f_formats !! hist_one);
  good_two_two ← or_raise KeyError (GoodBinTwo f_formats !! hist_two);
  let end_bin := if end_bin >? good_two_two then good_two_two else end_bin in
  col_one ← or_raise KeyError (histogram_data !! hist_one);
  col_two ← or_raise KeyError (histogram_data !! hist_two);
  let h1 := series_sub_scalar (loc start_bin end_bin (column_series col_one)) bkg_one in
  let h2 := series_sub_scalar (loc start_bin end_bin (column_series col_two)) bkg_two in
  let asymmetry :=
    series_binop PrimFloat.div
      (series_binop PrimFloat.sub h1 h2)
      (series_binop PrimFloat.add h2 h1) in
  Ok (fillna asymmetry).

(** State of the rebinning loop: the two pre-allocated arrays and the
    running source position [binned_bins]. *)
Record bin_state : Type := {
  binned_asymmetry : list float;
  binned_uncertainty : list float;
  binned_bins : Z
}.

(** One turn of the loop of [bin_data] when the slider is moving. *)
Definition bin_step_fast `{Numpy} (asymmetry : list float) (per_bin : Z)
    (st : bin_state) (new_index : nat) : bin_state :=
  {| binned_asymmetry :=
       <[new_index := series_mean
           (slice asymmetry (binned_bins st) (binned_bins st + per_bin))]>
         (binned_asymmetry st);
     binned_uncertainty := binned_uncertainty st;
     binned_bins := binned_bins st + per_bin |}.

(** One turn of the loop of [bin_data] otherwise. *)
Definition bin_step_full `{Numpy} (asymmetry uncertainty : list float) (per_bin : Z)
    (st : bin_state) (new_index : nat) : bin_state :=
  {| binned_asymmetry :=
       <[new_index := series_mean
           (slice asymmetry (binned_bins st) (binned_bins st + per_bin))]>
         (binned_asymmetry st);
     binned_uncertainty :=
       <[new_index :=
           (PrimFloat.sqrt
              (np_sum (map F64.square
                         (slice uncertainty (binned_bins st) (binned_bins st + per_bin))))
            / F64.of_Z per_bin)%float]>
         (binned_uncertainty st);
     binned_bins := binned_bins st + per_bin |}.

(** The three integers [bin_data] derives from its arguments:
    [initial_bin], [binned_indices_per_bin], [binned_indices_total]. *)
Definition bin_layout (binsize final_bin_size begin_time end_time : float)
  : result (Z * Z * Z) :=
  let bin_full := (binsize / 1000)%float in
  let bin_binned := (final_bin_size / 1000)%float in
  q ← py_div begin_time bin_full;
  initial_bin ← py_int_floor q;
  q ← py_div bin_binned bin_full;
  binned_indices_per_bin ← py_int_floor q;
  q ← py_div (end_time - begin_time)%float bin_binned;
  binned_indices_total ← py_int_floor q;
  Ok (initial_bin, binned_indices_per_bin, binned_indices_total).

(** [RunData.bin_data]; [self.asymmetry] is read by position,
    [self.uncertainty] is a numpy array and the times are Python floats.
    Returns
    [[binned_asymmetry, binned_time, binned_uncertainty]]. *)
Definition bin_data `{Numpy} (f_formats : f_format)
    (asymmetry uncertainty : list float)
    (final_bin_size begin_time end_time : float) (slider_moving : bool)
  : result (list float * list float * list float) :=
  '(initial_bin, binned_indices_per_bin, binned_indices_total) ←
    bin_layout (binsize f_formats) final_bin_size begin_time end_time;
  if binned_indices_total <? 0 then Raise ValueError else
  let total := Z.to_nat binned_indices_total in
  let bin_binned := (final_bin_size / 1000)%float in
  let asymmetry0 := np_empty total in
  let binned_time :=
    map (fun index => (begin_time + F64.of_Z (Z.of_nat index) * bin_binned)%float)
        (seq 0 total) in
  if slider_moving then
    let st := fold_left (bin_step_fast asymmetry binned_indices_per_bin)
                (seq 0 total)
                {| binned_asymmetry := asymmetry0;
                   binned_uncertainty := [];
                   binned_bins := initial_bin |} in
    Ok (binned_asymmetry st, binned_time, binned_uncertainty st)
  else
    let st := fold_left (bin_step_full asymmetry uncertainty binned_indices_per_bin)
                (seq 0 total)
                {| binned_asymmetry := asymmetry0;
                   binned_uncertainty := np_empty total;
                   binned_bins := initial_bin |} in
    Ok (binned_asymmetry st, binned_time, binned_uncertainty st).

(** The frequency axis of [calculate_fft]: the first [int(n/2)] entries of
    [k / (n * bin_size / 1000)]. *)
Definition frequencies_of (bin_size : float) (n : nat) : list float :=
  take (n / 2)%nat
    (map (fun k => (F64.of_Z (Z.of_nat k)
                    / (F64.of_Z (Z.of_nat n) * bin_size / 1000))%float)
         (seq 0 n)).

(** [abs(y_values[0, range(int(n/2))])] for [y_values = fft(...) / n]: the
    magnitude of the first half of the spectrum of the asymmetry. *)
Definition magnitudes_of `{NumpyFFT} (asymmetry : list float) : list float :=
  let n := length asymmetry in
  map np_cabs
    (take (n / 2)%nat
       (map (fun c => np_cdiv c (F64.of_Z (Z.of_nat n))) (np_fft asymmetry))).

(** [y_values[0] = 0] on a numpy array. *)
Definition set_first_zero (y_values : list float) : result (list float) :=
  match y_values with
  | [] => Raise IndexError
  | _ :: _ => Ok (<[0%nat := 0%float]> y_values)
  end.

(** [RunData.calculate_fft]; returns [[x_smooth, y_smooth]]. [np.fft.fft]
    raises on no sample and on rows of different lengths. The result of
    [np.insert(x_smooth, 0, 0)] is dropped by the code. *)
Definition calculate_fft `{Numpy} `{NumpyFFT} `{Scipy} (bin_size : float)
    (asymmetry times : list float) : result (list float * list float) :=
  let n := length asymmetry in
  let frequencies := frequencies_of bin_size n in
  if (n =? 0)%nat || negb (length times =? n)%nat then Raise ValueError else
  y_values ← set_first_zero (magnitudes_of asymmetry);
  let x_smooth := np_linspace (np_min frequencies) (np_max frequencies) 300 in
  y_smooth ← spline_s0 frequencies y_values x_smooth;
  Ok (x_smooth, y_smooth).

(** [np.nan_to_num] on one value: NaN becomes 0.0 and an infinity the
    largest finite float of its sign. *)
Definition max_float : float :=
  SF2Prim (S754_finite false 9007199254740991 971).

Definition nan_to_num (x : float) : float :=
  match Prim2SF x with
  | S754_nan => 0%float
  | S754_infinity false => max_float
  | S754_infinity true => (- max_float)%float
  | _ => x
  end.

(** The uncertainty of one bin from its two counts: [h1] of [hist_one]
    and [h2] of [hist_two], with [d_front = sqrt(h2)] and
    [d_back = sqrt(h1)]. *)
Definition bin_uncertainty (h1 h2 : float) : float :=
  let d_front := PrimFloat.sqrt h2 in
  let d_back := PrimFloat.sqrt h1 in
  PrimFloat.sqrt
    (F64.square (2 * h1 / F64.square (h2 + h1) * d_front)
     + F64.square (2 * h2 / F64.square (h2 + h1) * d_back))%float.

(** [RunData.calculate_uncertainty], on the counts as float64 values; the
    two columns of one DataFrame have one length. *)
Definition calculate_uncertainty (histogram_data : gmap pystr (list float))
    (hist_one hist_two : pystr) : result (list float) :=
  col_two ← or_raise KeyError (histogram_data !! hist_two);
  col_one ← or_raise KeyError (histogram_data !! hist_one);
  Ok (map nan_to_num (zip_with bin_uncertainty col_one col_two)).

End BeamsModel.


(** ** beams/app/model/fit.py *)

(** Python's [str] methods that depend on the Unicode tables, per code
    point, and [str(x)] of a float. *)
Class Unicode : Type := {
  isspace : N -> bool;
  isalpha : N -> bool;
  isdigit : N -> bool;
  (** [c.lower()] *)
  lower : N -> N;
  str_float : float -> pystr
}.

(** sympy: whether [sp.sympify] accepts a string, and
    [sp.lambdify(var_names, sp.sympify(s), "numpy")], which raises when
    [sympify] does; the compiled function takes the value of the first
    name and the values of the others in order. *)
Class Sympy : Type := {
  sympify_ok : pystr -> bool;
  sp_lambdify : list pystr -> pystr -> result (float -> list float -> result float)
}.

(** [app.model.domain]: the title of a run,
    [RunService().get_runs_by_ids([run_id])[0].meta['Title']]. *)
Class Domain : Type := {
  run_title : pystr -> result pystr
}.

(** numpy's linear algebra on matrices given by rows: [np.dot] and
    [np.linalg.inv], which raises [LinAlgError] on a singular matrix. *)
Class Linalg : Type := {
  np_dot : list (list float) -> list (list float) -> list (list float);
  np_linalg_inv : list (list float) -> result (list (list float))
}.

Module Fit.

Definition INDEPENDENT_VARIABLE : pystr := u "t".
Definition ALPHA : N := 945.
Definition PI : N := 960.
Definition NAUGHT : N := 8320.

(** [ALPHA_CORRECTION.format(f, f)]. *)
Definition ALPHA_CORRECTION (f : pystr) : pystr :=
  u "((1-" ++ [ALPHA] ++ u ")+((1+" ++ [ALPHA] ++ u ")*(" ++ f
    ++ u ")))/((1+" ++ [ALPHA] ++ u ")+((1-" ++ [ALPHA] ++ u ")*(" ++ f ++ u ")))".

Inductive FitOptions : Type := GLOBAL | LEAST_SQUARES | ALPHA_CORRECT.

Record FitVar : Type := {
  symbol : pystr;
  name : pystr;
  value : float;
  is_fixed : bool;
  lower_bound : float;
  upper_bound : float;
  is_global : bool;
  independent : bool
}.

(** [var.value = x] *)
Definition with_value (v : FitVar) (x : float) : FitVar :=
  {| symbol := symbol v; name := name v; value := x; is_fixed := is_fixed v;
     lower_bound := lower_bound v; upper_bound := upper_bound v;
     is_global := is_global v; independent := independent v |}.

(** A dataset handed to the fit ([domain.Asymmetry]): the asymmetry
    values with their [time], [uncertainty] and [bin_size] attributes. *)
Record Asymmetry : Type := {
  asymmetry : list float;
  time : list float;
  uncertainty : list float;
  bin_size : float
}.

Record FitSpec : Type := {
  function : pystr;
  variables : dict pystr FitVar;
  asymmetries : dict pystr Asymmetry;
  options : FitOptions -> bool
}.

(** [run_id.split('-')[0]] *)
Fixpoint _shortened_run_id (run_id : pystr) : pystr :=
  match run_id with
  | [] => []
  | c :: rest => if (c =? 45)%N then [] else c :: _shortened_run_id rest
  end.

Section FitSpecMethods.
Variable spec : FitSpec.

Definition get_fixed_symbols : list pystr :=
  map symbol (filter (fun v => is_fixed v = true) (dict_values (variables spec))).

Definition get_fixed_guesses : list float :=
  map value (filter (fun v => is_fixed v = true) (dict_values (variables spec))).

Definition get_unfixed_symbols : list pystr :=
  map symbol (filter (fun v => is_fixed v = false) (dict_values (variables spec))).

Definition get_unfixed_lower_bounds : list float :=
  map lower_bound (filter (fun v => is_fixed v = false) (dict_values (variables spec))).

Definition get_unfixed_upper_bounds : list float :=
  map upper_bound (filter (fun v => is_fixed v = false) (dict_values (variables spec))).

Definition get_unfixed_guesses : list float :=
  map value (filter (fun v => is_fixed v = false) (dict_values (variables spec))).

Definition get_non_global_symbols : list pystr :=
  map symbol (filter (fun v => is_global v = false) (dict_values (variables spec))).

(** One entry per unknown of the global fit: a non-fixed variable that is
    not global is expanded once per run, a global one appears once. The
    four [get_global_fit_*] methods share this loop and differ in what
    they append. *)
Definition global_fit_expand {A : Type}
    (per_run : pystr -> FitVar -> pystr -> A) (shared : pystr -> FitVar -> A)
  : list A :=
  flat_map
    (fun kv : pystr * FitVar =>
       if is_fixed kv.2 then []
       else if negb (is_global kv.2)
            then map (fun ra : pystr * Asymmetry => per_run kv.1 kv.2 ra.1)
                     (asymmetries spec)
            else [shared kv.1 kv.2])
    (variables spec).

Definition get_global_fit_symbols : list pystr :=
  global_fit_expand (fun k _ run_id => k ++ _shortened_run_id run_id) (fun k _ => k).

Definition get_global_fit_guesses : list float :=
  global_fit_expand (fun _ v _ => value v) (fun _ v => value v).

Definition get_global_fit_lowers : list float :=
  global_fit_expand (fun _ v _ => lower_bound v) (fun _ v => lower_bound v).

Definition get_global_fit_uppers : list float :=
  global_fit_expand (fun _ v _ => upper_bound v) (fun _ v => upper_bound v).

Definition get_data : dict pystr Asymmetry := asymmetries spec.

(** [len(list(self.asymmetries.values())[0])] *)
Definition get_data_length : result nat :=
  match dict_values (asymmetries spec) with
  | [] => Raise IndexError
  | a :: _ => Ok (length (asymmetry a))
  end.
End FitSpecMethods.

(** A compiled expression: the names it was compiled with (the independent
    variable first) and the function of their values. *)
Record Lambda : Type := {
  lam_names : list pystr;
  lam_fun : float -> list float -> result float
}.

(** A call of [f] on [x] and the unpacked [pars], positional: one value
    per name. *)
Definition call_positional (f : Lambda) (x : float) (pars : list float) : result float :=
  if (S (length pars) =? length (lam_names f))%nat then lam_fun f x pars
  else Raise TypeError.

(** The parameters of a call of [f] with the unpacked [kwargs]: every
    keyword must be a name of [f] other than the first, and every such name
    must be given. *)
Definition bind_keywords (f : Lambda) (kwargs : dict pystr float)
  : result (list float) :=
  if forallb (fun k => bool_decide (k ∈ tail (lam_names f))) (dict_keys kwargs) then
    comprehension (fun n => or_raise TypeError (dict_get kwargs n))
                  (tail (lam_names f))
  else Raise TypeError.

(** The compiled function applied to a numpy array: element by element. *)
Definition call_array (f : Lambda) (a : list float) (pars : list float)
  : result (list float) :=
  comprehension (fun x => lam_fun f x pars) a.

(** A call of [f] on an array and the unpacked [pars], positional. *)
Definition call_array_positional (f : Lambda) (a : list float) (pars : list float)
  : result (list float) :=
  if (S (length pars) =? length (lam_names f))%nat then call_array f a pars
  else Raise TypeError.

Record Fit : Type := {
  fit_variables : dict pystr FitVar;
  kwargs : dict pystr float;
  expression_as_string : option pystr;
  expression_as_lambda : option Lambda;
  title : option pystr;
  run_id : option pystr
}.

(** [Fit()] *)
Definition new_Fit : Fit :=
  {| fit_variables := []; kwargs := []; expression_as_string := None;
     expression_as_lambda := None; title := None; run_id := None |}.

(** The setter of [Fit.variables]: [kwargs] is rebuilt from the variables
    that are not fixed. *)
Definition set_variables (f : Fit) (vars : dict pystr FitVar) : Fit :=
  {| fit_variables := vars;
     kwargs := fold_left
                 (fun kw v => if is_fixed v then kw else dict_set kw (symbol v) (value v))
                 (dict_values vars) [];
     expression_as_string := expression_as_string f;
     expression_as_lambda := expression_as_lambda f;
     title := title f;
     run_id := run_id f |}.

(** The kinds of object a caller can pass; only the first is of type
    [np.ndarray]. *)
Inductive pyobj : Type :=
| Ndarray (a : list float)
| PyFloat (x : float)
| PyList (l : list float)
| PyNone.

(** [Fit.__call__]: its positional arguments are [args]; the keyword
    arguments of the call are not read. *)
Definition Fit_call (self : Fit) (args : list pyobj) : result (list float) :=
  match args with
  | Ndarray a :: _ =>
      match expression_as_lambda self with
      | Some f => pars ← bind_keywords f (kwargs self); call_array f a pars
      | None => Raise TypeError
      end
  | _ => Raise ValueError
  end.

(** *** String rewriting *)

Fixpoint starts_with (p s : pystr) : bool :=
  match p, s with
  | [], _ => true
  | _ :: _, [] => false
  | a :: p', b :: s' => (a =? b)%N && starts_with p' s'
  end.

(** The scan of [str.replace] for a non-empty [old]: left to right, the
    occurrences replaced do not overlap; [skip] counts the characters of a
    replaced occurrence still to pass over. *)
Fixpoint str_replace_scan (old new s : pystr) (skip : nat) : pystr :=
  match s with
  | [] => []
  | c :: rest =>
      match skip with
      | S k => str_replace_scan old new rest k
      | O =>
          if starts_with old s
          then new ++ str_replace_scan old new rest (length old - 1)
          else c :: str_replace_scan old new rest 0
      end
  end.

(** [s.replace(old, new)] *)
Definition str_replace (s old new : pystr) : pystr :=
  match old with
  | [] => new ++ flat_map (fun c => c :: new) s
  | _ :: _ => str_replace_scan old new s 0
  end.

(** [FitEngine._replace_fixed]; [zip] stops at the shorter list. *)
Fixpoint _replace_fixed `{Unicode} (function : pystr) (symbols : list pystr)
    (values : list float) : pystr :=
  match symbols, values with
  | symbol :: symbols', value :: values' =>
      _replace_fixed (str_replace function symbol (str_float value)) symbols' values'
  | _, _ => function
  end.

(** [FitEngine._replace_var_with] *)
Definition _replace_var_with (function old_symbol new_symbol : pystr) : pystr :=
  str_replace function old_symbol new_symbol.

(** [replace_symbols] *)
Definition replace_symbols (expression : pystr) : pystr :=
  flat_map
    (fun c =>
       if (c =? PI)%N then u "pi"
       else if (c =? 94)%N then u "**"
       else if (c =? NAUGHT)%N then u "0"
       else [c])
    expression.

(** [lambdify]; [variables] is a list at every call site, on which
    [variables.pop(independent_variable)] raises. *)
Definition lambdify `{Sympy} (expression : pystr) (variables : list pystr)
    (independent_variable : pystr) : result Lambda :=
  let expression_string := replace_symbols expression in
  if bool_decide (independent_variable ∈ variables) then Raise TypeError else
  let var_names := independent_variable :: map replace_symbols variables in
  f ← sp_lambdify var_names expression_string;
  Ok {| lam_names := var_names; lam_fun := f |}.

(** *** The expression parser *)

Definition operator_set : list N :=
  [43; 45; 47; 42; 40; 41; 91; 93; 123; 125; 94; 33]%N.
Definition key_1_char_set : list pystr := [u "e"; u "i"; [PI]].
(** [('pi')] is the string ['pi'], not a tuple: [x in key_2_char_set] is a
    substring test. *)
Definition key_2_char_set : pystr := u "pi".
Definition key_3_char_set : list pystr := [u "sin"; u "cos"; u "tan"; u "exp"].
Definition key_4_char_set : list pystr := [u "sinh"; u "cosh"; u "tanh"].

Definition in_operator_set (c : N) : bool := bool_decide (c ∈ operator_set).

(** [x in 'pi'] for a string [x] *)
Definition in_key_2 (x : pystr) : bool :=
  bool_decide (x ∈ [[]; u "p"; u "i"; u "pi"]).

(** [s.lower()], code point by code point. *)
Definition str_lower `{Unicode} (s : pystr) : pystr := map lower s.

Record parse_state : Type := {
  free_set : gset pystr;
  free_variable : list N;
  skip_chars : nat
}.

(** What the alphabetic branch of the loop of [parse] does at position [i],
    where [s] is [s[i:]], the input from the current character on. *)
Inductive alpha_action : Type := SkipNext (n : nat) | Continue | Append.

Definition alpha_branch `{Unicode} (s : pystr) (character : N) (st : parse_state)
  : alpha_action :=
  if bool_decide (str_lower (take 4 s) ∈ key_4_char_set) then SkipNext 3
  else if bool_decide (str_lower (take 3 s) ∈ key_3_char_set) then SkipNext 2
  else if in_key_2 (str_lower (take 2 s)) then SkipNext 1
  else if (length (free_variable st) =? 0)%nat
          && (bool_decide ([character] ∈ key_1_char_set)
              || bool_decide ([lower character] ∈ key_1_char_set))
          && match tail s with
             | [] => true
             | next :: _ => in_operator_set next || isspace next
             end
       then Continue
       else Append.

(** The loop of [parse] from position [i] on; [s] is [s[i:]]. The loop only
    ever looks forward of [i]. *)
Fixpoint parse_loop `{Unicode} (s : pystr) (st : parse_state) : parse_state :=
  match s with
  | [] => st
  | character :: rest =>
      match skip_chars st with
      | S k =>
          parse_loop rest
            {| free_set := free_set st; free_variable := free_variable st;
               skip_chars := k |}
      | O =>
          if isspace character || in_operator_set character then
            parse_loop rest
              {| free_set := free_set st ∪ {[ free_variable st ]};
                 free_variable := []; skip_chars := 0 |}
          else if isalpha character then
            match alpha_branch s character st with
            | SkipNext n =>
                parse_loop rest
                  {| free_set := free_set st; free_variable := free_variable st;
                     skip_chars := n |}
            | Continue => parse_loop rest st
            | Append =>
                parse_loop rest
                  {| free_set := free_set st;
                     free_variable := free_variable st ++ [character];
                     skip_chars := 0 |}
            end
          else if isdigit character then
            match free_variable st with
            | [] => parse_loop rest st
            | _ :: _ =>
                parse_loop rest
                  {| free_set := free_set st;
                     free_variable := free_variable st ++ [character];
                     skip_chars := 0 |}
            end
          else parse_loop rest st
      end
  end.

(** [parse]; [free_set.remove('')] raises when the empty string was never
    added. *)
Definition parse `{Unicode} (s : pystr) : result (gset pystr) :=
  let st := parse_loop s {| free_set := ∅; free_variable := []; skip_chars := 0 |} in
  let free_set := free_set st ∪ {[ free_variable st ]} in
  if bool_decide ([] ∈ free_set) then Ok (free_set ∖ {[ [] ]}) else Raise KeyError.

(** *** Model-string validation *)

(** [expression[j+1:]] for the first [j] with [expression[j] == "="]. *)
Fixpoint after_first_equals (expression : pystr) : option pystr :=
  match expression with
  | [] => None
  | k :: rest => if (k =? 61)%N then Some rest else after_first_equals rest
  end.

(** The outer loop of [is_valid_expression] from the current character on;
    the [else] of the [for] returns [False]. *)
Fixpoint valid_loop `{Sympy} (expression s independent_variable : pystr)
    (open_paren : bool) : bool :=
  match s with
  | [] => false
  | c :: rest =>
      let next_open := open_paren || (c =? 40)%N in
      if open_paren then
        if (c =? 61)%N then false
        else if (c =? 41)%N then
          if (length independent_variable =? 0)%nat then false
          else match after_first_equals expression with
               | Some rhs => sympify_ok rhs
               | None => valid_loop expression rest independent_variable next_open
               end
        else valid_loop expression rest (independent_variable ++ [c]) next_open
      else valid_loop expression rest independent_variable next_open
  end.

(** [is_valid_expression] *)
Definition is_valid_expression `{Sympy} (expression : pystr) : bool :=
  if negb (bool_decide (61%N ∈ expression)) then false
  else valid_loop expression expression [] false.

(** *** The fit engine *)

Record FitDataset : Type := {
  fits : dict pystr Fit;
  dataset_options : FitOptions -> bool;
  dataset_function : option pystr
}.

(** [l[i]] with Python's negative indices. *)
Definition py_index {A : Type} (l : list A) (i : Z) : result A :=
  let n := Z.of_nat (length l) in
  if (0 <=? i) && (i <? n) then or_raise IndexError (l !! Z.to_nat i)
  else if (- n <=? i) && (i <? 0) then or_raise IndexError (l !! Z.to_nat (i + n))
  else Raise IndexError.

(** [int(i // y)] for an [int] [i >= 0] and a float [y]: the floor of the
    exact quotient. *)
Definition floordiv_index (i : Z) (y : float) : result Z :=
  match Prim2SF y with
  | S754_zero _ => Raise ZeroDivisionError
  | S754_nan => Raise ValueError
  | S754_infinity _ => Ok 0
  | S754_finite s m e =>
      let d := if s then Z.neg m else Z.pos m in
      Ok (if 0 <=? e then i / (d * 2 ^ e) else (i * 2 ^ (- e)) / d)
  end.

(** An elementwise operation on two numpy arrays of one shape. *)
Definition elementwise (f : float -> float -> float) (a b : list float)
  : result (list float) :=
  if (length a =? length b)%nat then Ok (zip_with f a b) else Raise ValueError.

(** [FitEngine._residual]: the closure [residual(pars, x, y_data, dy_data)],
    for a [lambda_expression] already applied to arrays. *)
Definition _residual
    (lambda_expression : list float -> list float -> result (list float))
    (pars x y_data dy_data : list float) : result (list float) :=
  y_calc ← lambda_expression x pars;
  d ← elementwise PrimFloat.sub y_data y_calc;
  elementwise PrimFloat.div d dy_data.

(** [d[k].value = x] *)
Definition set_value (d : dict pystr FitVar) (k : pystr) (x : float)
  : result (dict pystr FitVar) :=
  v ← or_raise KeyError (dict_get d k);
  Ok (dict_set d k (with_value v x)).

(** The copy [{k: FitVar(v.symbol, ..., v.independent) for k, v in ...}]. *)
Definition copy_variables (vars : dict pystr FitVar) : dict pystr FitVar :=
  map (fun kv : pystr * FitVar => (kv.1, with_value kv.2 (value kv.2))) vars.

(** [for i, symbol in enumerate(symbols): target[symbol] = x[i]], for the
    assignment [assign]. *)
Definition scatter {T : Type} (assign : T -> pystr -> float -> result T)
    (symbols : list pystr) (x : list float) (target : T) : result T :=
  for_each
    (fun t (p : nat * pystr) =>
       xi ← or_raise IndexError (x !! p.1);
       assign t p.2 xi)
    (imap (fun i s => (i, s)) symbols) target.

(** The function being fitted: alpha-corrected if asked, fixed parameters
    replaced by their values. *)
Definition fitted_function `{Unicode} (spec : FitSpec) : pystr :=
  if options spec ALPHA_CORRECT then
    _replace_fixed (ALPHA_CORRECTION (function spec))
      (get_fixed_symbols spec) (get_fixed_guesses spec)
  else
    _replace_fixed (function spec) (get_fixed_symbols spec) (get_fixed_guesses spec).

(** The closure [_lambda_expression(arr, *pars)] built by
    [_lambdify_global]. *)
Definition _lambda_expression (lambdas : dict pystr Lambda)
    (run_id_order : list pystr) (arr pars : list float) : result (list float) :=
  let length_ := F64.of_Z (Z.of_nat (length arr)) in
  section_length ← py_div length_ (F64.of_Z (Z.of_nat (length lambdas)));
  comprehension
    (fun ix : nat * float =>
       n ← floordiv_index (Z.of_nat ix.1) section_length;
       rid ← py_index run_id_order n;
       f ← or_raise KeyError (dict_get lambdas rid);
       call_positional f ix.2 pars)
    (imap (fun i x => (i, x)) arr).

(** [FitEngine._lambdify_global]; the [print] calls are kept for what they
    evaluate. *)
Definition _lambdify_global `{Unicode} `{Sympy} (spec : FitSpec)
    (concatenated_time : list float)
  : result (list float -> list float -> result (list float)) :=
  let function := fitted_function spec in
  '(lambdas, run_id_order) ←
    for_each
      (fun (acc : dict pystr Lambda * list pystr) (ira : nat * (pystr * Asymmetry)) =>
         let i := ira.1 in
         let run_id := ira.2.1 in
         let new_function :=
           fold_left
             (fun f var => _replace_var_with f var (var ++ _shortened_run_id run_id))
             (get_non_global_symbols spec) function in
         new_lambda_expression ←
           lambdify new_function (get_global_fit_symbols spec) INDEPENDENT_VARIABLE;
         data_length ← get_data_length spec;
         _ ← py_index concatenated_time
               ((Z.of_nat i + 1) * Z.of_nat data_length - 1);
         Ok (dict_set acc.1 run_id new_lambda_expression, acc.2 ++ [run_id]))
      (imap (fun i ra => (i, ra)) (get_data spec)) ([], []);
  Ok (_lambda_expression lambdas run_id_order).

(** The body of the loop over the variables in [_least_squares_fit_global]. *)
Definition global_scatter_step (values : dict pystr float) (run_id : pystr)
    (final_variables : dict pystr FitVar) (sv : pystr * FitVar)
  : result (dict pystr FitVar) :=
  if negb (is_global sv.2) then
    x ← or_raise KeyError (dict_get values (sv.1 ++ _shortened_run_id run_id));
    set_value final_variables sv.1 x
  else
    x ← or_raise KeyError (dict_get values sv.1);
    set_value final_variables sv.1 x.

(** [FitEngine._least_squares_fit_global] *)
Definition _least_squares_fit_global `{Unicode} `{Sympy} `{Scipy} `{Domain}
    (spec : FitSpec) : result FitDataset :=
  let guesses := get_global_fit_guesses spec in
  let lowers := get_global_fit_lowers spec in
  let uppers := get_global_fit_uppers spec in
  let concatenated_asymmetry := flat_map (fun ra => asymmetry ra.2) (get_data spec) in
  let concatenated_uncertainty := flat_map (fun ra => uncertainty ra.2) (get_data spec) in
  let concatenated_time := flat_map (fun ra => time ra.2) (get_data spec) in
  global_lambda_expression ← _lambdify_global spec concatenated_time;
  let residual := _residual global_lambda_expression in
  opt_x ← least_squares
             (fun pars => residual pars concatenated_time concatenated_asymmetry
                            concatenated_uncertainty)
             guesses (lowers, uppers);
  values ← scatter (fun vs s x => Ok (dict_set vs s x))
             (get_global_fit_symbols spec) opt_x [];
  fits ← for_each
      (fun (fits : dict pystr Fit) (ra : pystr * Asymmetry) =>
         let run_id := ra.1 in
         let final_variables := copy_variables (variables spec) in
         final_variables ←
           for_each (global_scatter_step values run_id) final_variables final_variables;
         let new_fit := set_variables new_Fit final_variables in
         f ← lambdify (function spec) (dict_keys final_variables) INDEPENDENT_VARIABLE;
         t ← run_title run_id;
         Ok (dict_set fits run_id
               {| fit_variables := fit_variables new_fit;
                  kwargs := kwargs new_fit;
                  expression_as_string := Some (function spec);
                  expression_as_lambda := Some f;
                  title := Some t;
                  run_id := Some run_id |}))
      (get_data spec) [];
  Ok {| fits := fits; dataset_options := options spec;
        dataset_function := Some (function spec) |}.

(** [FitEngine._least_squares_fit_non_global] *)
Definition _least_squares_fit_non_global `{Unicode} `{Sympy} `{Scipy} `{Domain}
    (spec : FitSpec) : result FitDataset :=
  let function_ := fitted_function spec in
  lambda_expression ← lambdify function_ (get_unfixed_symbols spec) INDEPENDENT_VARIABLE;
  let residual := _residual (call_array_positional lambda_expression) in
  let guesses := get_unfixed_guesses spec in
  let lowers := get_unfixed_lower_bounds spec in
  let uppers := get_unfixed_upper_bounds spec in
  fits ← for_each
      (fun (fits : dict pystr Fit) (ra : pystr * Asymmetry) =>
         let run_id := ra.1 in
         let final_variables := copy_variables (variables spec) in
         final_variables ←
           (if negb (length (get_unfixed_symbols spec) =? 0)%nat then
              opt_x ← least_squares
                        (fun pars => residual pars (time ra.2) (asymmetry ra.2)
                                       (uncertainty ra.2))
                        guesses (lowers, uppers);
              scatter set_value (get_unfixed_symbols spec) opt_x final_variables
            else Ok final_variables);
         lambda_expression_without_alpha ←
           lambdify (_replace_fixed (function spec) (get_fixed_symbols spec)
                       (get_fixed_guesses spec))
                    (get_unfixed_symbols spec) INDEPENDENT_VARIABLE;
         let new_fit := set_variables new_Fit final_variables in
         t ← run_title run_id;
         Ok (dict_set fits run_id
               {| fit_variables := fit_variables new_fit;
                  kwargs := kwargs new_fit;
                  expression_as_string := Some (function spec);
                  expression_as_lambda := Some lambda_expression_without_alpha;
                  title := Some t;
                  run_id := Some run_id |}))
      (get_data spec) [];
  Ok {| fits := fits; dataset_options := options spec;
        dataset_function := Some (function spec) |}.

(** The test at the head of [FitEngine.fit]: iterating [spec.get_data()], a
    dictionary, yields its keys, so [len(asymmetry)] is the length of a run
    identifier. *)
Definition lengths_seen (spec : FitSpec) : gset nat :=
  list_to_set (map (fun run_id : pystr => length run_id) (dict_keys (get_data spec))).

(** [FitEngine.fit]; [None] is the result of falling off the end. *)
Definition fit `{Unicode} `{Sympy} `{Scipy} `{Domain} (spec : FitSpec)
  : result (option FitDataset) :=
  if negb (size (lengths_seen spec) =? 1)%nat then Raise ValueError
  else if bool_decide (function spec = []) then Raise ValueError
  else if options spec GLOBAL then
    if options spec LEAST_SQUARES
    then d ← _least_squares_fit_global spec; Ok (Some d)
    else Ok None
  else
    if options spec LEAST_SQUARES
    then d ← _least_squares_fit_non_global spec; Ok (Some d)
    else Ok None.

(** *** The uncertainty estimator *)

(** What [get_std_unc] reads of the result of [least_squares]. *)
Record OptimizeResult : Type := {
  opt_x : list float;
  opt_fun : list float;
  opt_jac : list (list float)
}.

(** [m.transpose()] of a matrix with [n] columns. *)
Definition transpose (n : nat) (m : list (list float)) : list (list float) :=
  map (fun j => omap (fun row : list float => row !! j) m) (seq 0 n).

(** [m.diagonal()] *)
Fixpoint diagonal_from (i : nat) (m : list (list float)) : list float :=
  match m with
  | [] => []
  | row :: m' =>
      match row !! i with
      | Some x => x :: diagonal_from (S i) m'
      | None => []
      end
  end.

Definition diagonal (m : list (list float)) : list float := diagonal_from 0 m.

(** [get_std_unc(result, data, error, num_constraints)]; [error] is [None]
    when it is not given. The powers [** 2] are squares. *)
Definition get_std_unc `{Numpy} `{Linalg} (result_ : OptimizeResult) (data : list float)
    (error : option (list float)) (num_constraints : Z)
  : result (list float * float) :=
  let error :=
    match error with
    | None => map (fun _ => 1%float) data
    | Some e => e
    end in
  let weights := map (fun e => (1 / F64.square e)%float) error in
  weighted ← elementwise PrimFloat.mul (map F64.square data) weights;
  let rw :=
    PrimFloat.sqrt (np_sum (map F64.square (opt_fun result_)) / np_sum weighted) in
  let num_params := Z.of_nat (length (opt_x result_)) in
  let r_exp :=
    PrimFloat.sqrt
      (F64.of_Z (Z.of_nat (length data) - num_params + num_constraints)
       / np_sum weighted) in
  let j := opt_jac result_ in
  let jac := np_dot (transpose (length (opt_x result_)) j) j in
  inverse ← np_linalg_inv jac;
  let cov :=
    map (map (fun c => (c * F64.square rw / F64.square r_exp)%float)) inverse in
  let p_unc := map PrimFloat.sqrt (diagonal cov) in
  let chisq := (F64.square rw / F64.square r_exp)%float in
  Ok (p_unc, chisq).

(** *** Further methods of FitSpec *)

Definition get_lower_bounds (spec : FitSpec) : list float :=
  map lower_bound (dict_values (variables spec)).

Definition get_upper_bounds (spec : FitSpec) : list float :=
  map upper_bound (dict_values (variables spec)).

Definition get_symbols (spec : FitSpec) : list pystr :=
  map symbol (dict_values (variables spec)).

Definition get_guesses (spec : FitSpec) : list float :=
  map value (dict_values (variables spec)).

Definition get_global_symbols (spec : FitSpec) : list pystr :=
  map symbol
    (filter (fun v => is_global v = true /\ is_fixed v = false)
            (dict_values (variables spec))).

(** [FitSpec.get_global_fit_variable_set]; [self.variables[var]] looks a
    symbol up among the keys. *)
Definition get_global_fit_variable_set (spec : FitSpec) : result (gset pystr) :=
  symbols ←
    for_each
      (fun (symbols : gset pystr) (var : pystr) =>
         v ← or_raise KeyError (dict_get (variables spec) var);
         if is_fixed v then Ok symbols
         else Ok (symbols
                  ∪ list_to_set
                      (map (fun ra : pystr * Asymmetry => var ++ _shortened_run_id ra.1)
                           (asymmetries spec))))
      (get_non_global_symbols spec) ∅;
  Ok (symbols ∪ list_to_set (get_global_symbols spec)).

Definition get_num_datasets (spec : FitSpec) : nat := length (asymmetries spec).

(** [list(self.asymmetries.values())[0].bin_size] *)
Definition get_bin_size (spec : FitSpec) : result float :=
  match dict_values (asymmetries spec) with
  | [] => Raise IndexError
  | a :: _ => Ok (bin_size a)
  end.

(** [list(self.asymmetries.values())[0].time[0]] *)
Definition get_time_zero (spec : FitSpec) : result float :=
  match dict_values (asymmetries spec) with
  | [] => Raise IndexError
  | a :: _ => or_raise IndexError (head (time a))
  end.

(** *** split_expression *)

(** The loop of [split_expression] from the current character on; the
    [else] of the [for] returns [None]. *)
Fixpoint split_loop `{Sympy} (expression s independent_variable : pystr)
    (open_paren : bool) : option (pystr * pystr) :=
  match s with
  | [] => None
  | c :: rest =>
      let next_open := open_paren || (c =? 40)%N in
      if open_paren then
        if (c =? 61)%N then None
        else if (c =? 41)%N then
          if (length independent_variable =? 0)%nat then None
          else match after_first_equals expression with
               | Some rhs =>
                   if sympify_ok rhs then Some (independent_variable, rhs) else None
               | None => split_loop expression rest independent_variable next_open
               end
        else split_loop expression rest (independent_variable ++ [c]) next_open
      else split_loop expression rest independent_variable next_open
  end.

(** [split_expression]: [None], or the pair of the independent variable
    and the text after the first ["="]. *)
Definition split_expression `{Sympy} (expression : pystr) : option (pystr * pystr) :=
  split_loop expression expression [] false.

End Fit.


(** ** More of Python's containers *)

Module Container.

(** [l.remove(x)]: the first occurrence goes; the callers test [x in l]
    first. *)
Fixpoint list_remove {A : Type} `{EqDecision A} (x : A) (l : list A) : list A :=
  match l with
  | [] => []
  | y :: l' => if decide (y = x) then l' else y :: list_remove x l'
  end.

(** The dictionary after [d.pop(k)]. *)
Definition dict_del {K V : Type} `{EqDecision K} (d : dict K V) (k : K) : dict K V :=
  filter (fun kv => kv.1 <> k) d.

End Container.

(** ** BeamsModel.py: class BEAMSModel *)

Module BEAMS.
Import Container.

(** A colour, or [None]. *)
Abbreviation pycolor := (option pystr).

Section Model.
(** The format dictionary of a file, and what [RunData.__init__] reads and
    computes from the file. *)
Context {Format Data : Type}.

Record RunData : Type := {
  filename : pystr;
  f_formats : Format;
  visibility : bool;
  color : pycolor;
  run_data : Data
}.

(** The attributes of the model that its methods change; the observers
    are told of a change after it is made. *)
Record BEAMSModel : Type := {
  all_full_filepaths : dict pystr pystr;
  used_colors : list pycolor;
  color_options : list pycolor;
  run_list : list RunData;
  current_formats : dict pystr Format
}.

Definition with_colors (m : BEAMSModel) (options used : list pycolor) : BEAMSModel :=
  {| all_full_filepaths := all_full_filepaths m;
     used_colors := used;
     color_options := options;
     run_list := run_list m;
     current_formats := current_formats m |}.

Definition with_run_list (m : BEAMSModel) (runs : list RunData) : BEAMSModel :=
  {| all_full_filepaths := all_full_filepaths m;
     used_colors := used_colors m;
     color_options := color_options m;
     run_list := runs;
     current_formats := current_formats m |}.

Definition with_current_formats (m : BEAMSModel) (formats : dict pystr Format)
  : BEAMSModel :=
  {| all_full_filepaths := all_full_filepaths m;
     used_colors := used_colors m;
     color_options := color_options m;
     run_list := run_list m;
     current_formats := formats |}.

Definition with_all_full_filepaths (m : BEAMSModel) (paths : dict pystr pystr)
  : BEAMSModel :=
  {| all_full_filepaths := paths;
     used_colors := used_colors m;
     color_options := color_options m;
     run_list := run_list m;
     current_formats := current_formats m |}.

(** [run.color = color] *)
Definition set_color (run : RunData) (c : pycolor) : RunData :=
  {| filename := filename run; f_formats := f_formats run;
     visibility := visibility run; color := c; run_data := run_data run |}.

(** [run.visibility = v] *)
Definition set_visibility (run : RunData) (v : bool) : RunData :=
  {| filename := filename run; f_formats := f_formats run;
     visibility := v; color := color run; run_data := run_data run |}.

(** [BEAMSModel.update_colors]; it always returns [True]. *)
Definition update_colors (m : BEAMSModel) (c : pycolor) (used custom : bool)
  : BEAMSModel :=
  if negb custom then
    if used then
      let options :=
        if bool_decide (c ∈ color_options m) then list_remove c (color_options m)
        else color_options m in
      let used_ :=
        if bool_decide (c ∉ used_colors m) then used_colors m ++ [c]
        else used_colors m in
      with_colors m options used_
    else
      let used_ :=
        if bool_decide (c ∈ used_colors m) then list_remove c (used_colors m)
        else used_colors m in
      let options :=
        if bool_decide (c ∉ color_options m) then color_options m ++ [c]
        else color_options m in
      with_colors m options used_
  else m.

(** One turn of the loop of [update_run_color]; the runs of the list are
    changed in place. *)
Definition recolor_step (file : pystr) (c : pycolor)
    (acc : BEAMSModel * list RunData) (run : RunData) : BEAMSModel * list RunData :=
  if decide (filename run = file) then
    let m :=
      if bool_decide (color run ∈ used_colors acc.1)
      then update_colors acc.1 (color run) false false
      else acc.1 in
    (m, acc.2 ++ [set_color run c])
  else (acc.1, acc.2 ++ [run]).

(** [BEAMSModel.update_run_color] *)
Definition update_run_color (m : BEAMSModel) (file : pystr) (c : pycolor)
  : BEAMSModel :=
  let m := if bool_decide (c ∈ color_options m) then update_colors m c true false
           else m in
  let '(m, runs) := fold_left (recolor_step file c) (run_list m) (m, []) in
  with_run_list m runs.

(** [BEAMSModel.update_visibilities] *)
Definition update_visibilities (m : BEAMSModel) (file : pystr) (isolate : bool)
  : BEAMSModel :=
  if isolate then
    with_run_list m
      (map (fun run => set_visibility run (bool_decide (filename run = file)))
           (run_list m))
  else with_run_list m (map (fun run => set_visibility run true) (run_list m)).

(** The tag of a file that is not reachable. *)
Definition NOT_FOUND : pystr := u " (Not Found) ".

(** [BEAMSModel.update_file_list], for [BeamsUtility.is_found] answering
    [found] on the path. *)
Definition update_file_list (m : BEAMSModel) (found : bool)
    (file_name file_path : pystr) : BEAMSModel :=
  if negb found then
    with_all_full_filepaths m
      (dict_set (all_full_filepaths m) (file_name ++ NOT_FOUND) file_path)
  else if bool_decide (file_name ++ NOT_FOUND ∈ dict_keys (all_full_filepaths m)) then
    with_all_full_filepaths m
      (dict_set (dict_del (all_full_filepaths m) (file_name ++ NOT_FOUND))
         file_name file_path)
  else
    with_all_full_filepaths m (dict_set (all_full_filepaths m) file_name file_path).

(** The loop [for run in self.run_list] of [update_runs] with its
    [self.run_list.remove(run)]: the iterator keeps a position in the
    list, and a removal moves the rest of the list one place to the
    front, so that the run after a removed one is passed over. [kept] are
    the runs before the position, [rest] those from the position on. The
    runs of the list are distinct objects: [remove] takes out the run the
    iterator is at. *)
Fixpoint remove_runs (file : pystr) (m : BEAMSModel) (kept rest : list RunData)
  : BEAMSModel * list RunData :=
  match rest with
  | [] => (m, kept)
  | run :: rest' =>
      if decide (filename run = file) then
        let m := update_colors m (color run) false false in
        match rest' with
        | [] => (m, kept)
        | next :: rest'' => remove_runs file m (kept ++ [next]) rest''
        end
      else remove_runs file m (kept ++ [run]) rest'
  end.

(** The first loop of [update_runs]: the files that are current and not
    asked for any more. *)
Definition drop_file (formats : dict pystr Format) (m : BEAMSModel) (file : pystr)
  : BEAMSModel :=
  if bool_decide (file ∉ dict_keys formats) then
    let '(m, runs) := remove_runs file m [] (run_list m) in
    with_current_formats (with_run_list m runs) (dict_del (current_formats m) file)
  else m.

(** The second loop: the files asked for that are not current.
    [load] is [RunData.__init__] reading the file. *)
Definition add_file (load : pystr -> Format -> result Data)
    (formats : dict pystr Format) (m : BEAMSModel) (file : pystr)
  : result BEAMSModel :=
  if bool_decide (file ∉ dict_keys (current_formats m)) then
    format ← or_raise KeyError (dict_get formats file);
    c ← or_raise IndexError (color_options m !! 0%nat);
    data ← load file format;
    let run := {| filename := file; f_formats := format; visibility := true;
                  color := c; run_data := data |} in
    let m := with_run_list m (run_list m ++ [run]) in
    c ← or_raise IndexError (color_options m !! 0%nat);
    let m := update_colors m c true false in
    format ← or_raise KeyError (dict_get formats file);
    Ok (with_current_formats m (dict_set (current_formats m) file format))
  else Ok m.

(** [BEAMSModel.update_runs] *)
Definition update_runs (load : pystr -> Format -> result Data)
    (m : BEAMSModel) (formats : dict pystr Format) : result BEAMSModel :=
  let current_files := dict_keys (current_formats m) in
  let m := fold_left (drop_file formats) current_files m in
  for_each (add_file load formats) (dict_keys formats) m.

End Model.

Arguments RunData : clear implicits.
Arguments BEAMSModel : clear implicits.

(** The colours of a new model. *)
Definition initial_color_options : list pycolor :=
  map (fun s => Some (u s))
    ["blue"; "red"; "green"; "orange"; "purple"; "brown"; "yellow"; "gray";
     "olive"; "cyan"; "pink"]%string.

(** [BEAMSModel.__init__] *)
Definition new_BEAMSModel {Format Data : Type} : BEAMSModel Format Data :=
  {| all_full_filepaths := []; used_colors := [];
     color_options := initial_color_options;
     run_list := []; current_formats := [] |}.

End BEAMS.

(** ** data_access.py *)

Module DataAccess.
Import Container.

(** What the methods of the data access objects raise. *)
Inductive raised : Type :=
| AttributeError
| Builtin (e : exn).

Inductive attempt (A : Type) : Type :=
| Returned (a : A)
| Raised (e : raised).
Arguments Returned {A} a.
Arguments Raised {A} e.

(** The one [Database] object: the tables that [__new__] creates and that
    a method reads or writes, and the attributes [runs], [fits] and
    [files], which do not exist until a [clear] assigns them. The ids are
    of type [K]; a path is looked up as an id by [remove_files_by_paths]. *)
Record Database (K Run Fit File : Type) : Type := {
  run_table : dict K Run;
  fit_table : dict K Fit;
  file_table : dict K File;
  runs : option (dict K Run);
  fits : option (dict K Fit);
  files : option (dict K File)
}.
Arguments run_table {K Run Fit File} d.
Arguments fit_table {K Run Fit File} d.
Arguments file_table {K Run Fit File} d.
Arguments runs {K Run Fit File} d.
Arguments fits {K Run Fit File} d.
Arguments files {K Run Fit File} d.

(** [Database()] for the first time. *)
Definition new_Database {K Run Fit File : Type} : Database K Run Fit File :=
  {| run_table := []; fit_table := []; file_table := [];
     runs := None; fits := None; files := None |}.

Section Setters.
Context {K Run Fit File : Type}.
Implicit Types db : Database K Run Fit File.

Definition with_run_table db (t : dict K Run) : Database K Run Fit File :=
  {| run_table := t; fit_table := fit_table db; file_table := file_table db;
     runs := runs db; fits := fits db; files := files db |}.

Definition with_runs db (t : dict K Run) : Database K Run Fit File :=
  {| run_table := run_table db; fit_table := fit_table db; file_table := file_table db;
     runs := Some t; fits := fits db; files := files db |}.

Definition with_fits db (t : dict K Fit) : Database K Run Fit File :=
  {| run_table := run_table db; fit_table := fit_table db; file_table := file_table db;
     runs := runs db; fits := Some t; files := files db |}.

Definition with_files db (t : dict K File) : Database K Run Fit File :=
  {| run_table := run_table db; fit_table := fit_table db; file_table := file_table db;
     runs := runs db; fits := fits db; files := Some t |}.

End Setters.

(** *** class RunDAO *)

Module RunDAO.
Section Methods.
Context {K Run Fit File : Type} `{EqDecision K}.
Implicit Types db : Database K Run Fit File.
(** [run.id] *)
Variable id : Run -> K.

Definition get_runs db : list Run := dict_values (run_table db).

Fixpoint get_runs_by_ids db (ids : list K) : attempt (list Run) :=
  match ids with
  | [] => Returned []
  | rid :: ids' =>
      match dict_get (run_table db) rid with
      | None => Raised (Builtin KeyError)
      | Some run =>
          match get_runs_by_ids db ids' with
          | Returned l => Returned (run :: l)
          | Raised e => Raised e
          end
      end
  end.

Definition add_runs db (new_runs : list Run) : Database K Run Fit File :=
  fold_left (fun db run => with_run_table db (dict_set (run_table db) (id run) run))
    new_runs db.

(** What is removed before an exception stays removed. *)
Fixpoint remove_runs_by_ids db (ids : list K)
  : Database K Run Fit File * option raised :=
  match ids with
  | [] => (db, None)
  | rid :: ids' =>
      match dict_get (run_table db) rid with
      | None => (db, Some (Builtin KeyError))
      | Some _ => remove_runs_by_ids (with_run_table db (dict_del (run_table db) rid)) ids'
      end
  end.

(** [zip] stops at the end of the shorter list. *)
Definition update_runs_by_id db (ids : list K) (new_runs : list Run)
  : Database K Run Fit File :=
  fold_left
    (fun db (p : K * Run) => with_run_table db (dict_set (run_table db) p.1 p.2))
    (zip ids new_runs) db.

(** [self.__database.runs = {}] *)
Definition clear db : Database K Run Fit File := with_runs db [].

End Methods.
End RunDAO.

(** *** class FitDAO *)

Module FitDAO.
Section Methods.
Context {K Run Fit File : Type} `{EqDecision K}.
Implicit Types db : Database K Run Fit File.
(** [fit.id] *)
Variable id : Fit -> K.

Definition get_fits db : attempt (list Fit) :=
  match fits db with
  | None => Raised AttributeError
  | Some t => Returned (dict_values t)
  end.

Fixpoint get_fits_by_ids db (ids : list K) : attempt (list Fit) :=
  match ids with
  | [] => Returned []
  | fid :: ids' =>
      match fits db with
      | None => Raised AttributeError
      | Some t =>
          match dict_get t fid with
          | None => Raised (Builtin KeyError)
          | Some fit =>
              match get_fits_by_ids db ids' with
              | Returned l => Returned (fit :: l)
              | Raised e => Raised e
              end
          end
      end
  end.

Fixpoint add_fits db (new_fits : list Fit) : Database K Run Fit File * option raised :=
  match new_fits with
  | [] => (db, None)
  | fit :: new_fits' =>
      match fits db with
      | None => (db, Some AttributeError)
      | Some t => add_fits (with_fits db (dict_set t (id fit) fit)) new_fits'
      end
  end.

Fixpoint remove_runs_by_ids db (ids : list K)
  : Database K Run Fit File * option raised :=
  match ids with
  | [] => (db, None)
  | fid :: ids' =>
      match fits db with
      | None => (db, Some AttributeError)
      | Some t =>
          match dict_get t fid with
          | None => (db, Some (Builtin KeyError))
          | Some _ => remove_runs_by_ids (with_fits db (dict_del t fid)) ids'
          end
      end
  end.

Definition clear db : Database K Run Fit File := with_fits db [].

End Methods.
End FitDAO.

(** *** class FileDAO *)

Module FileDAO.
Section Methods.
Context {K Run Fit File : Type} `{EqDecision K}.
Implicit Types db : Database K Run Fit File.
(** [dataset.id] and [file.file_path] *)
Variables (id : File -> K) (file_path : File -> K).

Definition get_files db : attempt (list File) :=
  match files db with
  | None => Raised AttributeError
  | Some t => Returned (dict_values t)
  end.

Fixpoint get_files_by_ids db (ids : list K) : attempt (list File) :=
  match ids with
  | [] => Returned []
  | file_id :: ids' =>
      match files db with
      | None => Raised AttributeError
      | Some t =>
          match dict_get t file_id with
          | None => Raised (Builtin KeyError)
          | Some file =>
              match get_files_by_ids db ids' with
              | Returned l => Returned (file :: l)
              | Raised e => Raised e
              end
          end
      end
  end.


Fixpoint add_files db (file_datasets : list File)
  : Database K Run Fit File * option raised :=
  match file_datasets with
  | [] => (db, None)
  | dataset :: file_datasets' =>
      match files db with
      | None => (db, Some AttributeError)
      | Some t => add_files (with_files db (dict_set t (id dataset) dataset)) file_datasets'
      end
  end.


Definition remove_files_by_id db (fid : K) : Database K Run Fit File * option raised :=
  match files db with
  | None => (db, Some AttributeError)
  | Some t =>
      match dict_get t fid with
      | None => (db, Some (Builtin KeyError))
      | Some _ => (with_files db (dict_del t fid), None)
      end
  end.

Definition clear db : Database K Run Fit File := with_files db [].

End Methods.
End FileDAO.

End DataAccess.

(* ===================================================================== *)
(** * Part II.  Terms of the statements, library implementations, inputs *)
(* ===================================================================== *)

(** ** Terms used to state the properties *)

Module Terms.
Import BeamsModel Fit.

(** A column indexed from [k] on. *)
Definition column_from (k : nat) (c : list float) : Series :=
  imap (fun i x => (Z.of_nat (k + i), x)) c.

(** The value the code computes at one bin. *)
Definition asymmetry_at (bkg_one bkg_two x1 x2 : float) : float :=
  F64.fillna0 (((x1 - bkg_one) - (x2 - bkg_two)) / ((x2 - bkg_two) + (x1 - bkg_one)))%float.

(** The [j]-th group of source samples: [a[initial_bin + j*k : initial_bin + (j+1)*k]]. *)
Definition group (a : list float) (initial_bin per_bin : Z) (j : nat) : list float :=
  slice a (initial_bin + Z.of_nat j * per_bin) (initial_bin + (Z.of_nat j + 1) * per_bin).

(** The uncertainty the code stores for a group. *)
Definition group_uncertainty `{Numpy} (g : list float) (per_bin : Z) : float :=
  (PrimFloat.sqrt (np_sum (map F64.square g)) / F64.of_Z per_bin)%float.



(** The state [parse] starts its loop in. *)
Definition start_state : parse_state :=
  {| free_set := ∅; free_variable := []; skip_chars := 0 |}.

(** The magnitude spectrum of the first half of the transform with its
    zero-frequency bin forced to 0: the array [y_values] after
    [y_values[0] = 0]. *)
Definition unsmoothed_spectrum `{NumpyFFT} (asymmetry : list float) : list float :=
  <[0%nat := 0%float]> (magnitudes_of asymmetry).

(** The per-point errors of [get_std_unc]: all ones when none are given. *)
Definition errors (data : list float) (error : option (list float)) : list float :=
  match error with
  | None => map (fun _ => 1%float) data
  | Some e => e
  end.

(** The weighted sum of the squared data, sum(data² · 1/error²). *)
Definition weighted_sum `{Numpy} (data : list float) (error : option (list float))
  : float :=
  np_sum (zip_with PrimFloat.mul (map F64.square data)
            (map (fun e => (1 / F64.square e)%float) (errors data error))).

(** The weighted residual ratio and the expected ratio. *)
Definition rw `{Numpy} (result_ : OptimizeResult) (data : list float)
    (error : option (list float)) : float :=
  PrimFloat.sqrt
    (np_sum (map F64.square (opt_fun result_)) / weighted_sum data error).

Definition r_exp `{Numpy} (result_ : OptimizeResult) (data : list float)
    (error : option (list float)) (num_constraints : Z) : float :=
  PrimFloat.sqrt
    (F64.of_Z (Z.of_nat (length data) - Z.of_nat (length (opt_x result_))
               + num_constraints)
     / weighted_sum data error).

(** JᵗJ *)
Definition normal_matrix `{Linalg} (result_ : OptimizeResult) : list (list float) :=
  np_dot (transpose (length (opt_x result_)) (opt_jac result_)) (opt_jac result_).

(** The names that a free per-run variable contributes. *)
Definition per_run_names (spec : FitSpec) (v : FitVar) : list pystr :=
  if is_fixed v then []
  else map (fun ra : pystr * Asymmetry => symbol v ++ _shortened_run_id ra.1)
           (asymmetries spec).

(** A value that is NaN or carries the sign [s]. *)
Definition signed (s : bool) (f : spec_float) : Prop :=
  match f with
  | S754_nan => True
  | S754_zero s' | S754_infinity s' | S754_finite s' _ _ => s' = s
  end.

(** What [update_run_color] does to one run. *)
Definition recoloured {Format Data : Type} (file : pystr) (c : BEAMS.pycolor)
    (run : BEAMS.RunData Format Data) : BEAMS.RunData Format Data :=
  if decide (BEAMS.filename run = file) then BEAMS.set_color run c else run.

(** The state of the model between two files of [update_runs]: no file
    twice among the runs, and the file of every run current. *)
Definition consistent {Format Data : Type} (m : BEAMS.BEAMSModel Format Data) : Prop :=
  NoDup (map BEAMS.filename (BEAMS.run_list m))
  /\ forall r, r ∈ BEAMS.run_list m ->
       BEAMS.filename r ∈ dict_keys (BEAMS.current_formats m).

(** A run as [update_runs] makes it for a file: visible, with the format of
    the file. *)
Definition made_for {Format Data : Type} (formats : dict pystr Format) (file : pystr)
    (r : BEAMS.RunData Format Data) : Prop :=
  BEAMS.filename r = file /\ BEAMS.visibility r = true
  /\ dict_get formats file = Some (BEAMS.f_formats r).

(** A name under construction in [parse]: made of letters and digits of
    the input [w], and starting with a letter. *)
Definition wellformed `{Unicode} (w n : pystr) : Prop :=
  Forall (fun d => d ∈ w) n
  /\ Forall (fun d => isalpha d = true \/ isdigit d = true) n
  /\ forall c rest, n = c :: rest -> isalpha c = true.

End Terms.

(** ** An implementation of the numpy interface

    Used to run the definitions on concrete inputs: the sum taken left to
    right from 0.0, fresh arrays filled with zeros, evenly spaced samples
    computed from the step. *)

Module Reference.

(** The sum taken left to right from 0.0. *)
Definition sequential_sum (l : list float) : float :=
  fold_left PrimFloat.add l 0%float.

(** The least and the greatest element. *)
Definition least (l : list float) : float :=
  match l with
  | [] => PrimFloat.nan
  | x :: l' => fold_left (fun m y => if (y <? m)%float then y else m) l' x
  end.

Definition greatest (l : list float) : float :=
  match l with
  | [] => PrimFloat.nan
  | x :: l' => fold_left (fun m y => if (m <? y)%float then y else m) l' x
  end.

(** [num] samples from [start] in steps of [(stop - start) / (num - 1)]. *)
Definition linspace (start stop : float) (num : nat) : list float :=
  map (fun i => (start + F64.of_Z (Z.of_nat i)
                         * ((stop - start) / F64.of_Z (Z.of_nat num - 1)))%float)
      (seq 0 num).

(** The law of [np_linspace]. *)
Definition linspace_length (start stop : float) (num : nat) :
  length (linspace start stop num) = num.
Proof. unfold linspace. rewrite length_map, length_seq. reflexivity. Qed.

Definition numpy : Numpy :=
  {| np_sum := sequential_sum;
     np_empty_cell := fun _ => 0%float;
     np_min := least;
     np_max := greatest;
     np_linspace := linspace;
     np_linspace_length := linspace_length |}.

End Reference.

(** ** Implementations of the other interfaces

    Stand-ins used to run the definitions on concrete inputs; no statement
    about the code depends on them. *)

Module Standin.
Import Fit.

(** [lo <= c <= hi] on code points. *)
Definition between (lo hi c : N) : bool := ((lo <=? c) && (c <=? hi))%N.

(** The decimal digits of a natural number. *)
Definition decimal (n : N) : pystr :=
  u (NilEmpty.string_of_uint (N.to_uint n)).

(** [str] of a float, given for the integer-valued floats, as [2.0]. *)
Definition str_of_float (x : float) : pystr :=
  match Prim2SF x with
  | S754_zero s => (if s then u "-" else []) ++ u "0.0"
  | S754_finite s m e =>
      (if s then u "-" else [])
        ++ (if (0 <=? e)%Z then decimal (Z.to_N (Z.pos m * 2 ^ e)) ++ u ".0"
            else if (Z.pos m mod 2 ^ (- e) =? 0)%Z
                 then decimal (Z.to_N (Z.pos m / 2 ^ (- e))) ++ u ".0"
                 else u "?")
  | S754_infinity s => (if s then u "-" else []) ++ u "inf"
  | S754_nan => u "nan"
  end.

(** The classification of the ASCII and Greek letters, the ASCII and
    subscript digits and the ASCII blanks, as in Python. *)
Definition unicode : Unicode :=
  {| isspace := fun c => between 9 13 c || between 28 32 c;
     isalpha := fun c =>
       between 65 90 c || between 97 122 c
       || between 913 929 c || between 931 937 c || between 945 969 c;
     isdigit := fun c => between 48 57 c || between 8320 8329 c;
     lower := fun c =>
       if between 65 90 c || between 913 929 c || between 931 937 c
       then (c + 32)%N else c;
     str_float := str_of_float |}.

(** A compiler that accepts every non-empty text and compiles it to
    [t + p1 + ... + pn], the value of the models [t + a + b + ...] of the
    examples. *)
Definition sympy : Sympy :=
  {| sympify_ok := fun s => negb (bool_decide (s = []));
     sp_lambdify := fun _ s =>
       if bool_decide (s = []) then Raise ValueError
       else Ok (fun t pars => Ok (fold_left PrimFloat.add pars t)) |}.

(** A solver that returns the midpoint of the bounds, and a spline that is
    constantly zero. *)
Definition zero_spline (xs ys q : list float) : result (list float) :=
  Ok (map (fun _ => 0%float) q).

(** The law of [spline_s0]. *)
Definition zero_spline_length (xs ys q out : list float) :
  zero_spline xs ys q = Ok out -> length out = length q.
Proof.
  unfold zero_spline. intros Hq. injection Hq as <-.
  rewrite length_map. reflexivity.
Qed.

Definition scipy : Scipy :=
  {| spline_s0 := zero_spline;
     spline_s0_length := zero_spline_length;
     least_squares := fun _ _ bounds =>
       Ok (zip_with (fun l h => ((l + h) / 2)%float) bounds.1 bounds.2) |}.

(** Every run is titled by its identifier. *)
Definition domain : Domain := {| run_title := fun run_id => Ok run_id |}.

(** A transform stand-in that returns its input as the real parts; the
    statements only use the length of what a transform returns. *)
Definition real_parts (l : list float) : list (float * float) :=
  map (fun x => (x, 0%float)) l.

(** The law of [np_fft]. *)
Definition real_parts_length (l : list float) : length (real_parts l) = length l.
Proof. unfold real_parts. apply length_map. Qed.

Definition fft : NumpyFFT :=
  {| np_fft := real_parts;
     np_fft_length := real_parts_length;
     np_cdiv := fun c n => ((c.1 / n)%float, (c.2 / n)%float);
     np_cabs := fun c => PrimFloat.sqrt (c.1 * c.1 + c.2 * c.2)%float |}.

(** A linear algebra that multiplies matrices with sequential sums and
    inverts the matrices of one entry, used to run the example. *)
Definition matrix_product (a b : list (list float)) : list (list float) :=
  map (fun row : list float =>
         map (fun j =>
                Reference.sequential_sum
                  (zip_with PrimFloat.mul row
                     (omap (fun brow : list float => brow !! j) b)))
             (seq 0 (length (hd [] b))))
      a.

Definition inverse_of_one_entry (m : list (list float)) : result (list (list float)) :=
  match m with
  | [[a]] => if PrimFloat.is_zero a then Raise LinAlgError else Ok [[(1 / a)%float]]
  | _ => Raise LinAlgError
  end.

Definition linalg : Linalg :=
  {| np_dot := matrix_product; np_linalg_inv := inverse_of_one_entry |}.

(** A solver that refuses every problem. *)
Definition refusing_scipy : Scipy :=
  {| spline_s0 := zero_spline;
     spline_s0_length := zero_spline_length;
     least_squares := fun _ _ _ => Raise ValueError |}.

(** A reader of files for formats and data without content. *)
Definition read_nothing (file : pystr) (format : unit) : result unit := Ok tt.

End Standin.

(** ** Inputs of the examples *)

Module Examples.
Import BeamsModel Fit.

(** A run with histograms "F" = 10, 5, 5, 7 and "B" = 4, 5, 5, 3, good
    bins 1..3 and 0..2, background 5 for both. *)
Definition example_format : f_format :=
  {| GoodBinOne := {[ u "F" := 1; u "B" := 0 ]};
     GoodBinTwo := {[ u "F" := 3; u "B" := 2 ]};
     binsize := 0.5%float |}.

Definition example_histograms : gmap pystr (list float) :=
  {[ u "F" := [10; 5; 5; 7]%float; u "B" := [4; 5; 5; 3]%float ]}.

(** Six samples of width 1000 rebinned to width 2000 over the window
    [0, 6): three bins of two samples each. *)
Definition example_bins : f_format :=
  {| GoodBinOne := ∅; GoodBinTwo := ∅; binsize := 1000%float |}.

(** The model [a*t + b] with [a] free at 2 and [b] fixed, compiled for the
    free parameter only as the per-run fit does: [b] is 1 in the compiled
    text. *)
Definition example_variables : dict pystr FitVar :=
  [ (u "a", {| symbol := u "a"; name := u "a"; value := 2; is_fixed := false;
               lower_bound := 0; upper_bound := 4; is_global := true;
               independent := false |});
    (u "b", {| symbol := u "b"; name := u "b"; value := 1; is_fixed := true;
               lower_bound := 0; upper_bound := 4; is_global := true;
               independent := false |}) ].

Definition example_lambda : Lambda :=
  {| lam_names := [u "t"; u "a"];
     lam_fun := fun t pars =>
       match pars with
       | [a] => Ok (a * t + 1)%float
       | _ => Raise TypeError
       end |}.

Definition example_fit : Fit :=
  set_variables
    {| fit_variables := []; kwargs := []; expression_as_string := Some (u "a*t + b");
       expression_as_lambda := Some example_lambda; title := None; run_id := None |}
    example_variables.

Definition free_variable_a : FitVar :=
  {| symbol := u "a"; name := u "a"; value := 1; is_fixed := false;
     lower_bound := 0; upper_bound := 4; is_global := false; independent := false |}.

Definition dataset (values : list float) : Asymmetry :=
  {| asymmetry := values; time := map (fun _ => 0%float) values;
     uncertainty := map (fun _ => 1%float) values; bin_size := 1 |}.

Definition per_run_options (o : FitOptions) : bool :=
  match o with
  | GLOBAL => false
  | LEAST_SQUARES => true
  | ALPHA_CORRECT => false
  end.

Definition global_options (o : FitOptions) : bool :=
  match o with
  | GLOBAL => true
  | LEAST_SQUARES => true
  | ALPHA_CORRECT => false
  end.

(** Two runs, of three and of two samples, under identifiers of one
    length. *)
Definition unequal_spec : FitSpec :=
  {| function := u "t + a";
     variables := [(u "a", free_variable_a)];
     asymmetries := [(u "r1", dataset [1; 2; 3]%float); (u "r2", dataset [1; 2]%float)];
     options := per_run_options |}.

(** Two runs of three samples each, under identifiers of different
    lengths. *)
Definition equal_spec : FitSpec :=
  {| function := u "t + a";
     variables := [(u "a", free_variable_a)];
     asymmetries := [(u "r1", dataset [1; 2; 3]%float); (u "r10", dataset [1; 2; 3]%float)];
     options := per_run_options |}.

Definition fixed_variable_c : FitVar :=
  {| symbol := u "c"; name := u "c"; value := 3; is_fixed := true;
     lower_bound := 0; upper_bound := 4; is_global := true; independent := false |}.

(** A global fit of [t + a + c] with [c] fixed at 3. *)
Definition fixed_global_spec : FitSpec :=
  {| function := u "t + a + c";
     variables := [(u "a", free_variable_a); (u "c", fixed_variable_c)];
     asymmetries := [(u "r1", dataset [1; 2; 3]%float)];
     options := global_options |}.

Definition fixed_per_run_spec : FitSpec :=
  {| function := function fixed_global_spec;
     variables := variables fixed_global_spec;
     asymmetries := asymmetries fixed_global_spec;
     options := per_run_options |}.

(** A fixed variable whose symbol, [a1], is the name of the unknown of the
    per-run variable [a] for the run [1]. *)
Definition fixed_variable_a1 : FitVar :=
  {| symbol := u "a1"; name := u "a1"; value := 3; is_fixed := true;
     lower_bound := 0; upper_bound := 4; is_global := true; independent := false |}.

Definition colliding_spec : FitSpec :=
  {| function := u "t + a + a1";
     variables := [(u "a", free_variable_a); (u "a1", fixed_variable_a1)];
     asymmetries := [(u "1", dataset [1; 2; 3]%float)];
     options := global_options |}.

Definition eight_samples : list float := [1; 2; 3; 4; 5; 6; 7; 8]%float.

(** The data 2, 4, 6 at the times 1, 2, 3 fitted exactly by [p*t] with
    [p = 2]: zero residual, Jacobian column 1, 2, 3. *)
Definition perfect_fit : OptimizeResult :=
  {| opt_x := [2]%float;
     opt_fun := [0; 0; 0]%float;
     opt_jac := [[1]; [2]; [3]]%float |}.

(** Every variable fixed: the model [t + c] with [c] fixed at 3. *)
Definition all_fixed_spec : FitSpec :=
  {| function := u "t + c";
     variables := [(u "c", fixed_variable_c)];
     asymmetries := [(u "r1", dataset [1; 2; 3]%float)];
     options := per_run_options |}.

Definition free_global_g : FitVar :=
  {| symbol := u "g"; name := u "g"; value := 1; is_fixed := false;
     lower_bound := 2; upper_bound := 4; is_global := true; independent := false |}.

(** A global fit of [t + a + g] over two runs, [a] per run and [g] shared. *)
Definition shared_spec : FitSpec :=
  {| function := u "t + a + g";
     variables := [(u "a", free_variable_a); (u "g", free_global_g)];
     asymmetries := [(u "r1", dataset [1; 2; 3]%float); (u "r2", dataset [4; 5; 6]%float)];
     options := global_options |}.

(** The independent variable as a free global variable. *)
Definition free_variable_t : FitVar :=
  {| symbol := u "t"; name := u "t"; value := 1; is_fixed := false;
     lower_bound := 0; upper_bound := 4; is_global := true; independent := true |}.

Definition independent_spec (o : FitOptions -> bool) : FitSpec :=
  {| function := u "t + a";
     variables := [(u "a", free_variable_a); (u "t", free_variable_t)];
     asymmetries := [(u "r1", dataset [1; 2; 3]%float)];
     options := o |}.

(** Two detectors that counted the same. *)
Definition equal_histograms : gmap pystr (list float) :=
  {[ u "F" := [10; 5; 5; 7]%float; u "B" := [10; 5; 5; 7]%float ]}.

(** A model that shows the file [a.dat] in blue. *)
Definition example_run : BEAMS.RunData unit unit :=
  {| BEAMS.filename := u "a.dat"; BEAMS.f_formats := tt; BEAMS.visibility := true;
     BEAMS.color := Some (u "blue"); BEAMS.run_data := tt |}.

Definition example_model : BEAMS.BEAMSModel unit unit :=
  {| BEAMS.all_full_filepaths := [];
     BEAMS.used_colors := [Some (u "blue")];
     BEAMS.color_options := tail BEAMS.initial_color_options;
     BEAMS.run_list := [example_run];
     BEAMS.current_formats := [(u "a.dat", tt)] |}.

(** A model that has no colour left. *)
Definition colourless_model : BEAMS.BEAMSModel unit unit :=
  BEAMS.with_colors BEAMS.new_BEAMSModel [] BEAMS.initial_color_options.

(** A database of runs, fits and files that are an id with a number or a
    path. *)
Definition empty_database
  : DataAccess.Database pystr (pystr * Z) (pystr * Z) (pystr * pystr) :=
  DataAccess.new_Database.

Definition two_runs : list (pystr * Z) := [(u "r1", 1); (u "r2", 2)].


(** Twelve samples with unit uncertainties, in a file of bin width 100 and
    in one of bin width 0.390625. *)
Definition twelve_samples : list float :=
  [1; 2; 3; 4; 5; 6; 7; 8; 9; 10; 11; 12]%float.

Definition unit_uncertainties : list float := map (fun _ => 1%float) twelve_samples.

Definition bins_of_100 : f_format :=
  {| GoodBinOne := ∅; GoodBinTwo := ∅; binsize := 100%float |}.

Definition bins_of_0_390625 : f_format :=
  {| GoodBinOne := ∅; GoodBinTwo := ∅; binsize := 0.390625%float |}.

(** The datum 2 at the time 1 fitted exactly by [p*t] with [p = 2]: as
    many parameters as points. *)
Definition exact_fit : OptimizeResult :=
  {| opt_x := [2]%float; opt_fun := [0]%float; opt_jac := [[1]]%float |}.

End Examples.

(* ===================================================================== *)
(** * Part III.  Properties *)
(* ===================================================================== *)

(** ** Facts about binary64 arithmetic *)

Module F64Facts.

Lemma add_comm (x y : float) : (x + y)%float = (y + x)%float.
Proof.
  apply Prim2SF_inj. rewrite !FloatAxioms.add_spec. unfold SF64add.
  destruct (Prim2SF x) as [sx|sx| |sx mx ex], (Prim2SF y) as [sy|sy| |sy my ey];
    simpl; try reflexivity; try (destruct sx, sy; reflexivity).
  rewrite (Z.min_comm ey ex).
  rewrite (Z.add_comm (cond_Zopp sy _)). reflexivity.
Qed.

(** A float that compares equal to zero is one of the two zeros. *)
Lemma is_zero_cases (x : float) :
  PrimFloat.is_zero x = true -> x = 0%float \/ x = (-0)%float.
Proof.
  unfold PrimFloat.is_zero. rewrite FloatAxioms.eqb_spec. intro Hx.
  rewrite <- (SF2Prim_Prim2SF x).
  destruct (Prim2SF x) as [s|s| |s m e]; try destruct s;
    vm_compute in Hx; try discriminate.
  - right; reflexivity.
  - left; reflexivity.
Qed.

(** 0/0 is NaN whatever the signs of the zeros, and [fillna] turns it into
    +0.0. *)
Lemma fillna0_zero_div_zero (x y : float) :
  PrimFloat.is_zero x = true -> PrimFloat.is_zero y = true ->
  PrimFloat.is_nan (x / y) = true /\ F64.fillna0 (x / y) = 0%float.
Proof.
  intros Hx Hy.
  destruct (is_zero_cases x Hx) as [-> | ->], (is_zero_cases y Hy) as [-> | ->];
    split; reflexivity.
Qed.

Lemma fillna0_not_nan (x : float) : PrimFloat.is_nan (F64.fillna0 x) = false.
Proof.
  unfold F64.fillna0. destruct (PrimFloat.is_nan x) eqn:E; [reflexivity | exact E].
Qed.

Lemma fillna0_id (x : float) : PrimFloat.is_nan x = false -> F64.fillna0 x = x.
Proof. unfold F64.fillna0. intros ->. reflexivity. Qed.

End F64Facts.

(** ** The asymmetry of a histogram pair *)

Module AsymmetryFacts.
Import BeamsModel.
Import Terms Examples.

Lemma column_series_from (c : list float) : column_series c = column_from 0 c.
Proof. reflexivity. Qed.

Lemma column_from_cons (k : nat) (x : float) (c : list float) :
  column_from k (x :: c) = (Z.of_nat k, x) :: column_from (S k) c.
Proof.
  unfold column_from. simpl. rewrite Nat.add_0_r. f_equal.
  apply imap_ext. intros i y _. simpl. do 2 f_equal. lia.
Qed.

(** The chain of Series operations of [calculate_asymmetry] is the slice of
    the column of per-bin values. *)
Lemma asymmetry_pipeline (a b : Z) (b1 b2 : float) (c1 c2 : list float) (k : nat) :
  length c1 = length c2 ->
  fillna
    (series_binop PrimFloat.div
       (series_binop PrimFloat.sub
          (series_sub_scalar (loc a b (column_from k c1)) b1)
          (series_sub_scalar (loc a b (column_from k c2)) b2))
       (series_binop PrimFloat.add
          (series_sub_scalar (loc a b (column_from k c2)) b2)
          (series_sub_scalar (loc a b (column_from k c1)) b1)))
  = loc a b (column_from k (zip_with (asymmetry_at b1 b2) c1 c2)).
Proof.
  revert c2 k. induction c1 as [|x1 c1 IH]; intros [|x2 c2] k Hlen;
    try discriminate; [reflexivity|].
  simpl in Hlen. injection Hlen as Hlen.
  simpl zip_with. rewrite !column_from_cons. unfold loc in *.
  rewrite !filter_cons. simpl.
  destruct (decide (a <= Z.of_nat k <= b)) as [Hin|Hout].
  - simpl. unfold fillna, series_binop, series_sub_scalar in *. simpl.
    f_equal. apply IH. exact Hlen.
  - apply IH. exact Hlen.
Qed.

(** No row of a column indexed from [k] on carries a label below [k]. *)
Lemma series_at_loc_below (a b : Z) (c : list float) (k : nat) (j : Z) :
  j < Z.of_nat k -> series_at (loc a b (column_from k c)) j = None.
Proof.
  revert k. induction c as [|x c IH]; intros k Hj; [reflexivity|].
  rewrite column_from_cons. unfold loc, series_at in *. rewrite filter_cons.
  destruct (decide _) as [Hin|Hout]; simpl.
  - destruct (decide (Z.of_nat k = j)); [lia|]. apply IH. lia.
  - apply IH. lia.
Qed.

(** Reading the slice of a column at a label. *)
Lemma series_at_loc_column (a b : Z) (c : list float) (k i : nat) :
  series_at (loc a b (column_from k c)) (Z.of_nat (k + i)) =
  if decide (a <= Z.of_nat (k + i) <= b) then c !! i else None.
Proof.
  revert k i. induction c as [|x c IH]; intros k i.
  - simpl. destruct (decide _); [destruct i|]; reflexivity.
  - rewrite column_from_cons. destruct i as [|i].
    + rewrite Nat.add_0_r. unfold loc, series_at. rewrite filter_cons. simpl.
      destruct (decide (a <= Z.of_nat k <= b)) as [Hin|Hout].
      * simpl. destruct (decide (Z.of_nat k = Z.of_nat k)); [reflexivity|contradiction].
      * apply (series_at_loc_below a b c (S k)). lia.
    + replace (k + S i)%nat with (S k + i)%nat by lia.
      change ((x :: c) !! S i) with (c !! i).
      rewrite <- (IH (S k) i). unfold loc, series_at. rewrite filter_cons. simpl.
      destruct (decide (a <= Z.of_nat k <= b)) as [Hin|Hout]; [|reflexivity].
      simpl. destruct (decide (Z.of_nat k = Z.of_nat (S (k + i)))); [lia|reflexivity].
Qed.

(** C1. Over the intersection of the two good regions the asymmetry is
    ((H1(i)-bkg1)-(H2(i)-bkg2)) / ((H1(i)-bkg1)+(H2(i)-bkg2)) with every
    NaN replaced by 0.0: it is that quotient wherever the quotient is a
    number, and exactly 0.0 wherever numerator and denominator are both
    zero; bins outside the intersection are not part of the result. *)
Theorem calculate_asymmetry_formula
    (f_formats : f_format) (histogram_data : gmap pystr (list float))
    (hist_one hist_two : pystr) (bkg_one bkg_two : float)
    (s1 s2 e1 e2 : Z) (c1 c2 : list float) :
  GoodBinOne f_formats !! hist_one = Some s1 ->
  GoodBinOne f_formats !! hist_two = Some s2 ->
  GoodBinTwo f_formats !! hist_one = Some e1 ->
  GoodBinTwo f_formats !! hist_two = Some e2 ->
  histogram_data !! hist_one = Some c1 ->
  histogram_data !! hist_two = Some c2 ->
  length c1 = length c2 ->
  exists out : Series,
    calculate_asymmetry f_formats histogram_data hist_one hist_two bkg_one bkg_two
      = Ok out
    /\ forall (i : nat) (x1 x2 : float),
         c1 !! i = Some x1 -> c2 !! i = Some x2 ->
         let num := ((x1 - bkg_one) - (x2 - bkg_two))%float in
         let den := ((x1 - bkg_one) + (x2 - bkg_two))%float in
         (Z.max s1 s2 <= Z.of_nat i <= Z.min e1 e2 ->
            series_at out (Z.of_nat i) = Some (F64.fillna0 (num / den))
            /\ (PrimFloat.is_nan (num / den) = false ->
                series_at out (Z.of_nat i) = Some (num / den)%float)
            /\ (PrimFloat.is_zero num = true -> PrimFloat.is_zero den = true ->
                series_at out (Z.of_nat i) = Some 0%float))
         /\ (~ (Z.max s1 s2 <= Z.of_nat i <= Z.min e1 e2) ->
             series_at out (Z.of_nat i) = None).
Proof.
  intros Hs1 Hs2 He1 He2 Hc1 Hc2 Hlen.
  set (start_bin := if s1 <? s2 then s2 else s1).
  set (end_bin := if e1 >? e2 then e2 else e1).
  assert (Hstart : start_bin = Z.max s1 s2).
  { unfold start_bin. destruct (Z.ltb_spec s1 s2); lia. }
  assert (Hend : end_bin = Z.min e1 e2).
  { unfold end_bin. rewrite Z.gtb_ltb. destruct (Z.ltb_spec e2 e1); lia. }
  exists (loc start_bin end_bin
            (column_from 0 (zip_with (asymmetry_at bkg_one bkg_two) c1 c2))).
  split.
  - unfold calculate_asymmetry. rewrite Hs1, Hs2, He1, He2, Hc1, Hc2. simpl.
    fold start_bin end_bin. f_equal. rewrite !column_series_from.
    apply asymmetry_pipeline. exact Hlen.
  - intros i x1 x2 Hx1 Hx2 num den.
    pose proof (series_at_loc_column start_bin end_bin
                  (zip_with (asymmetry_at bkg_one bkg_two) c1 c2) 0 i) as Hat.
    simpl in Hat. rewrite lookup_zip_with, Hx1, Hx2 in Hat. simpl in Hat.
    assert (Hval : asymmetry_at bkg_one bkg_two x1 x2 = F64.fillna0 (num / den)).
    { unfold asymmetry_at, num, den.
      rewrite (F64Facts.add_comm (x2 - bkg_two) (x1 - bkg_one)). reflexivity. }
    rewrite Hval, Hstart, Hend in Hat. rewrite Hstart, Hend.
    split.
    + intros Hin. destruct (decide _) as [_|Hno]; [|contradiction].
      split; [exact Hat|]. split.
      * intros Hnan. rewrite Hat, F64Facts.fillna0_id by exact Hnan. reflexivity.
      * intros Hn Hd. rewrite Hat.
        destruct (F64Facts.fillna0_zero_div_zero num den Hn Hd) as [_ ->]. reflexivity.
    + intros Hout. destruct (decide _) as [Hin|_]; [contradiction|exact Hat].
Qed.

Example calculate_asymmetry_example :
  calculate_asymmetry example_format example_histograms (u "F") (u "B") 5 5
  = Ok [(1, 0%float); (2, 0%float)].
Proof. vm_compute. reflexivity. Qed.

(** C1 on the run of the example: bin 1 is a 0/0 position and holds 0.0,
    bin 3 lies outside the intersection of the good regions. *)
Lemma calculate_asymmetry_formula_witness :
  exists out : Series,
    calculate_asymmetry example_format example_histograms (u "F") (u "B") 5 5 = Ok out
    /\ series_at out 1 = Some 0%float
    /\ series_at out 3 = None.
Proof.
  destruct (calculate_asymmetry_formula example_format example_histograms
              (u "F") (u "B") 5 5 1 0 3 2 [10; 5; 5; 7]%float [4; 5; 5; 3]%float)
    as [out [Hout Hat]]; try (vm_compute; reflexivity).
  exists out. split; [exact Hout|]. split.
  - apply (Hat 1%nat 5%float 5%float); try reflexivity. vm_compute.
    split; discriminate.
  - apply (Hat 3%nat 7%float 3%float); try reflexivity. vm_compute.
    intros [_ H]. apply H. reflexivity.
Defined.

End AsymmetryFacts.

(** ** Rebinning *)

Module RebinFacts.
Import BeamsModel.
Import Terms Examples.

Lemma length_np_empty `{Numpy} (n : nat) : length (np_empty n) = n.
Proof. unfold np_empty. rewrite length_map, length_seq. reflexivity. Qed.

(** A slice that lies inside the sequence has the length asked for. *)
Lemma length_slice_inside {A : Type} (l : list A) (a b : Z) :
  0 <= a -> a <= b -> b <= Z.of_nat (length l) ->
  length (slice l a b) = Z.to_nat (b - a).
Proof.
  intros Ha Hab Hb. unfold slice, clamp_index.
  destruct (Z.ltb_spec a 0); [lia|]. destruct (Z.ltb_spec b 0); [lia|].
  rewrite length_take, length_drop. lia.
Qed.

(** On a series without NaN, pandas' mean is the sum over the count. *)
Lemma series_mean_no_nan `{Numpy} (l : list float) :
  Forall (fun x => PrimFloat.is_nan x = false) l ->
  l <> [] ->
  series_mean l = np_mean l.
Proof.
  intros Hl Hne. unfold series_mean, np_mean.
  assert (Hf : filter (fun x => PrimFloat.is_nan x = false) l = l).
  { induction Hl as [|x l Hx Hl IH]; [reflexivity|].
    rewrite filter_cons. destruct (decide _); [|contradiction].
    destruct l as [|y l]; [reflexivity|]. f_equal. apply IH. discriminate. }
  assert (Hm : map F64.fillna0 l = l).
  { clear Hf Hne. induction Hl as [|x l Hx Hl IH]; [reflexivity|].
    simpl. rewrite IH, F64Facts.fillna0_id by exact Hx. reflexivity. }
  rewrite Hf, Hm. destruct l; [contradiction|reflexivity].
Qed.

Section Loop.
Context `{Numpy}.
Variables (asymmetry uncertainty : list float) (initial_bin per_bin : Z).

(** The loop with uncertainties, after [m] turns: the first [m] cells of
    both arrays hold the values of their groups, the lengths are those of
    the allocation, and [binned_bins] has advanced by [m] groups. *)
Lemma full_loop_invariant (st0 : bin_state) (m : nat) :
  binned_bins st0 = initial_bin ->
  (m <= length (binned_asymmetry st0))%nat ->
  length (binned_uncertainty st0) = length (binned_asymmetry st0) ->
  let st := fold_left (bin_step_full asymmetry uncertainty per_bin) (seq 0 m) st0 in
  binned_bins st = initial_bin + Z.of_nat m * per_bin
  /\ length (binned_asymmetry st) = length (binned_asymmetry st0)
  /\ length (binned_uncertainty st) = length (binned_asymmetry st0)
  /\ forall j : nat, (j < m)%nat ->
       binned_asymmetry st !! j
         = Some (series_mean (group asymmetry initial_bin per_bin j))
       /\ binned_uncertainty st !! j
         = Some (group_uncertainty (group uncertainty initial_bin per_bin j) per_bin).
Proof.
  intros Hb0 Hm Hlen. induction m as [|m IH].
  - simpl. split; [lia|]. split; [reflexivity|]. split; [assumption|].
    intros j Hj. lia.
  - rewrite seq_S, fold_left_app. simpl.
    destruct IH as (Hb & Hla & Hlu & Hcells); [lia|].
    set (st := fold_left (bin_step_full asymmetry uncertainty per_bin) (seq 0 m) st0) in *.
    unfold bin_step_full. simpl. rewrite !length_insert.
    split; [lia|]. split; [assumption|]. split; [assumption|].
    intros j Hj. destruct (decide (j = m)) as [->|Hne].
    + rewrite !list_lookup_insert_eq by lia. rewrite Hb.
      unfold group_uncertainty, group.
      replace (initial_bin + Z.of_nat m * per_bin + per_bin)
        with (initial_bin + (Z.of_nat m + 1) * per_bin) by lia.
      split; reflexivity.
    + rewrite !list_lookup_insert_ne by congruence. apply Hcells. lia.
Qed.

(** The loop of the slider-moving mode: the asymmetry cells as above, the
    uncertainty left as it was. *)
Lemma fast_loop_invariant (st0 : bin_state) (m : nat) :
  binned_bins st0 = initial_bin ->
  (m <= length (binned_asymmetry st0))%nat ->
  let st := fold_left (bin_step_fast asymmetry per_bin) (seq 0 m) st0 in
  binned_bins st = initial_bin + Z.of_nat m * per_bin
  /\ length (binned_asymmetry st) = length (binned_asymmetry st0)
  /\ binned_uncertainty st = binned_uncertainty st0
  /\ forall j : nat, (j < m)%nat ->
       binned_asymmetry st !! j
         = Some (series_mean (group asymmetry initial_bin per_bin j)).
Proof.
  intros Hb0 Hm. induction m as [|m IH].
  - simpl. split; [lia|]. split; [reflexivity|]. split; [reflexivity|].
    intros j Hj. lia.
  - rewrite seq_S, fold_left_app. simpl.
    destruct IH as (Hb & Hla & Hu & Hcells); [lia|].
    set (st := fold_left (bin_step_fast asymmetry per_bin) (seq 0 m) st0) in *.
    unfold bin_step_fast. simpl. rewrite !length_insert.
    split; [lia|]. split; [assumption|]. split; [assumption|].
    intros j Hj. destruct (decide (j = m)) as [->|Hne].
    + rewrite list_lookup_insert_eq by lia. rewrite Hb. unfold group.
      replace (initial_bin + Z.of_nat m * per_bin + per_bin)
        with (initial_bin + (Z.of_nat m + 1) * per_bin) by lia.
      reflexivity.
    + rewrite list_lookup_insert_ne by congruence. apply Hcells. lia.
Qed.

End Loop.

(** What a successful [bin_layout] says about its three integers. *)
Lemma bin_layout_ok (binsize final_bin_size begin_time end_time : float)
    (initial_bin per_bin total : Z) :
  bin_layout binsize final_bin_size begin_time end_time = Ok (initial_bin, per_bin, total) ->
  py_int_floor (begin_time / (binsize / 1000))%float = Ok initial_bin
  /\ py_int_floor ((final_bin_size / 1000) / (binsize / 1000))%float = Ok per_bin
  /\ py_int_floor ((end_time - begin_time) / (final_bin_size / 1000))%float = Ok total.
Proof.
  unfold bin_layout, py_div. intros Hl.
  destruct (PrimFloat.is_zero (binsize / 1000));
    cbn [mbind result_mbind bind] in Hl; [discriminate|].
  destruct (py_int_floor (begin_time / (binsize / 1000))) as [i|];
    cbn [mbind result_mbind bind] in Hl; [|discriminate].
  destruct (py_int_floor (final_bin_size / 1000 / (binsize / 1000))) as [k|];
    cbn [mbind result_mbind bind] in Hl; [|discriminate].
  destruct (PrimFloat.is_zero (final_bin_size / 1000));
    cbn [mbind result_mbind bind] in Hl; [discriminate|].
  destruct (py_int_floor ((end_time - begin_time) / (final_bin_size / 1000))) as [t|];
    cbn [mbind result_mbind bind] in Hl; [|discriminate].
  injection Hl as -> -> ->. repeat split; reflexivity.
Qed.

(** The rebinning loop for the group size that the code computes. With
    k = floor(target width / source width) taken in binary64 after both
    widths are divided by 1000, and a non-negative number of output bins,
    [bin_data] returns; output bin j of the asymmetry is the mean of the
    j-th group of source samples (for a group without NaN, as
    [calculate_asymmetry] produces them: the sum of the group over its
    size, and the size is k when the group lies inside the data); the
    uncertainty of bin j is sqrt(sum of the squared uncertainties of the
    j-th group) / k, except when the slider is moving, where the
    uncertainty returned is the empty list. *)
Theorem bin_data_rebins `{Numpy} (f_formats : f_format)
    (asymmetry uncertainty : list float)
    (final_bin_size begin_time end_time : float) (slider_moving : bool)
    (initial_bin k total : Z) :
  bin_layout (binsize f_formats) final_bin_size begin_time end_time
    = Ok (initial_bin, k, total) ->
  0 <= total ->
  exists binned_asymmetry binned_time binned_uncertainty : list float,
    bin_data f_formats asymmetry uncertainty final_bin_size begin_time end_time
      slider_moving
      = Ok (binned_asymmetry, binned_time, binned_uncertainty)
    /\ py_int_floor ((final_bin_size / 1000) / (binsize f_formats / 1000))%float = Ok k
    /\ length binned_asymmetry = Z.to_nat total
    /\ (forall j : nat, (j < Z.to_nat total)%nat ->
          let g := group asymmetry initial_bin k j in
          binned_asymmetry !! j = Some (series_mean g)
          /\ (Forall (fun x => PrimFloat.is_nan x = false) g -> g <> [] ->
              binned_asymmetry !! j
                = Some (np_sum g / F64.of_Z (Z.of_nat (length g)))%float)
          /\ (0 <= initial_bin -> 0 <= k ->
              initial_bin + (Z.of_nat j + 1) * k <= Z.of_nat (length asymmetry) ->
              length g = Z.to_nat k))
    /\ (slider_moving = true -> binned_uncertainty = [])
    /\ (slider_moving = false ->
          length binned_uncertainty = Z.to_nat total
          /\ forall j : nat, (j < Z.to_nat total)%nat ->
               binned_uncertainty !! j
                 = Some (PrimFloat.sqrt
                           (np_sum (map F64.square (group uncertainty initial_bin k j)))
                         / F64.of_Z k)%float).
Proof.
  intros Hlayout Htotal.
  destruct (bin_layout_ok _ _ _ _ _ _ _ Hlayout) as (_ & Hk & _).
  assert (Hgroup : forall j : nat,
             let g := group asymmetry initial_bin k j in
             (Forall (fun x => PrimFloat.is_nan x = false) g -> g <> [] ->
              series_mean g = (np_sum g / F64.of_Z (Z.of_nat (length g)))%float)
             /\ (0 <= initial_bin -> 0 <= k ->
                 initial_bin + (Z.of_nat j + 1) * k <= Z.of_nat (length asymmetry) ->
                 length g = Z.to_nat k)).
  { intros j g. split.
    - intros Hg Hne. apply series_mean_no_nan; assumption.
    - intros Hi Hk0 Hin. unfold g, group. rewrite length_slice_inside by nia.
      f_equal. lia. }
  unfold bin_data. rewrite Hlayout. cbn [mbind result_mbind bind].
  destruct (Z.ltb_spec total 0) as [Hneg|_]; [lia|].
  destruct slider_moving.
  - destruct (fast_loop_invariant asymmetry initial_bin k
                {| binned_asymmetry := np_empty (Z.to_nat total);
                   binned_uncertainty := [];
                   binned_bins := initial_bin |} (Z.to_nat total))
      as (_ & Hla & Hu & Hcells); [reflexivity | simpl; rewrite length_np_empty; lia |].
    simpl in Hla, Hu. rewrite length_np_empty in Hla.
    eexists _, _, _. split; [reflexivity|].
    split; [exact Hk|]. split; [exact Hla|]. split.
    + intros j Hj. destruct (Hgroup j) as [Hmean Hlen].
      split; [apply Hcells; exact Hj|]. split; [|exact Hlen].
      intros Hg Hne. rewrite (Hcells j Hj). f_equal. apply Hmean; assumption.
    + split; [intros _; exact Hu | discriminate].
  - destruct (full_loop_invariant asymmetry uncertainty initial_bin k
                {| binned_asymmetry := np_empty (Z.to_nat total);
                   binned_uncertainty := np_empty (Z.to_nat total);
                   binned_bins := initial_bin |} (Z.to_nat total))
      as (_ & Hla & Hlu & Hcells);
      [reflexivity | simpl; rewrite length_np_empty; lia | reflexivity |].
    simpl in Hla, Hlu. rewrite length_np_empty in Hla, Hlu.
    eexists _, _, _. split; [reflexivity|].
    split; [exact Hk|]. split; [exact Hla|]. split.
    + intros j Hj. destruct (Hgroup j) as [Hmean Hlen].
      split; [apply Hcells; exact Hj|]. split; [|exact Hlen].
      intros Hg Hne. destruct (Hcells j Hj) as [-> _]. f_equal. apply Hmean; assumption.
    + split; [discriminate|]. intros _. split; [exact Hlu|].
      intros j Hj. apply Hcells. exact Hj.
Qed.

Example bin_data_example :
  bin_data (H := Reference.numpy) example_bins
    [1; 3; 5; 7; 2; 4]%float [3; 4; 0; 0; 6; 8]%float 2000 0 6 false
  = Ok ([2; 6; 3]%float, [0; 2; 4]%float, [2.5; 0; 5]%float).
Proof. vm_compute. reflexivity. Qed.

Example bin_data_example_slider :
  bin_data (H := Reference.numpy) example_bins
    [1; 3; 5; 7; 2; 4]%float [3; 4; 0; 0; 6; 8]%float 2000 0 6 true
  = Ok ([2; 6; 3]%float, [0; 2; 4]%float, []).
Proof. vm_compute. reflexivity. Qed.

(** The six samples of the example. *)
Lemma bin_data_rebins_witness :
  exists binned_asymmetry binned_time binned_uncertainty : list float,
    bin_data (H := Reference.numpy) example_bins
      [1; 3; 5; 7; 2; 4]%float [3; 4; 0; 0; 6; 8]%float 2000 0 6 false
      = Ok (binned_asymmetry, binned_time, binned_uncertainty)
    /\ binned_asymmetry !! 1%nat = Some 6%float
    /\ binned_uncertainty !! 0%nat = Some 2.5%float.
Proof.
  destruct (bin_data_rebins (H := Reference.numpy) example_bins
              [1; 3; 5; 7; 2; 4]%float [3; 4; 0; 0; 6; 8]%float 2000 0 6 false
              0 2 3)
    as (ba & bt & bu & Hrun & _ & _ & Hmean & _ & Hunc);
    [vm_compute; reflexivity | lia |].
  exists ba, bt, bu. split; [exact Hrun|]. split.
  - destruct (Hmean 1%nat) as (_ & Hsum & _); [vm_compute; lia|].
    rewrite Hsum; [vm_compute; reflexivity | | vm_compute; discriminate].
    vm_compute. repeat constructor.
  - destruct (Hunc eq_refl) as [_ Hcell].
    rewrite (Hcell 0%nat); [vm_compute; reflexivity | vm_compute; lia].
Defined.

End RebinFacts.

(** ** Model-string validation *)

Module ValidationFacts.
Import Fit.
Import Terms Examples.

Section Validation.
Context `{Sympy}.

(** Without an ["="] the string is invalid. *)
Lemma invalid_without_equals (expression : pystr) :
  61%N ∉ expression -> is_valid_expression expression = false.
Proof.
  intros Hno. unfold is_valid_expression.
  rewrite bool_decide_eq_false_2 by exact Hno. reflexivity.
Qed.

(** The loop answers [True] only through [sympify] accepting the text after
    the first ["="]. *)
Lemma valid_loop_true (expression s independent_variable : pystr) (open_paren : bool) :
  valid_loop expression s independent_variable open_paren = true ->
  exists rhs : pystr,
    after_first_equals expression = Some rhs /\ sympify_ok rhs = true.
Proof.
  revert independent_variable open_paren.
  induction s as [|c rest IH]; intros iv op Hv; [discriminate|].
  simpl in Hv. destruct op; simpl in Hv.
  - destruct (c =? 61)%N; [discriminate|].
    destruct (c =? 41)%N.
    + destruct (length iv =? 0)%nat; [discriminate|].
      destruct (after_first_equals expression) as [rhs|] eqn:Hrhs.
      * exists rhs. split; [reflexivity | exact Hv].
      * apply IH in Hv. exact Hv.
    + apply IH in Hv. exact Hv.
  - apply IH in Hv. exact Hv.
Qed.

(** Before the first ["("] nothing is decided; an empty declaration, ["("]
    directly followed by [")"], is rejected. *)
Lemma valid_loop_empty_declaration (expression before rest : pystr) :
  40%N ∉ before ->
  valid_loop expression (before ++ 40%N :: 41%N :: rest) [] false = false.
Proof.
  induction before as [|c before IH]; intros Hno.
  - reflexivity.
  - simpl. destruct (c =? 40)%N eqn:Hc.
    + apply N.eqb_eq in Hc. subst c. exfalso. apply Hno. left.
    + apply IH. intros Hin. apply Hno. right. exact Hin.
Qed.

End Validation.

(** C7. [is_valid_expression] is false for a string without ["="], for a
    string whose first ["("] is directly followed by [")"] (an empty
    independent-variable name), and for a string whose text after the first
    ["="] is not accepted by [sympify]; ["A(t)=a*t+b"] is valid when
    [sympify] accepts ["a*t+b"], and ["a*t+b"] is not valid. *)
Theorem is_valid_expression_fails_closed `{Sympy} :
  (forall expression : pystr,
      61%N ∉ expression -> is_valid_expression expression = false)
  /\ (forall before rest : pystr,
        40%N ∉ before ->
        is_valid_expression (before ++ 40%N :: 41%N :: rest) = false)
  /\ (forall expression rhs : pystr,
        after_first_equals expression = Some rhs ->
        sympify_ok rhs = false ->
        is_valid_expression expression = false)
  /\ (sympify_ok (u "a*t+b") = true -> is_valid_expression (u "A(t)=a*t+b") = true)
  /\ is_valid_expression (u "a*t+b") = false.
Proof.
  split; [exact invalid_without_equals|].
  split.
  { intros before rest Hno. unfold is_valid_expression.
    destruct (negb _); [reflexivity|]. apply valid_loop_empty_declaration. exact Hno. }
  split.
  { intros expression rhs Hrhs Hbad.
    destruct (is_valid_expression expression) eqn:Hv; [|reflexivity].
    unfold is_valid_expression in Hv. destruct (negb _); [discriminate|].
    apply valid_loop_true in Hv. destruct Hv as (rhs' & Hrhs' & Hok).
    congruence. }
  split.
  { intros Hok. vm_compute. vm_compute in Hok. exact Hok. }
  reflexivity.
Qed.

(** C7 on [A(t)=a*t+b], [A()=a*t+b] and [A(t)=]. *)
Lemma is_valid_expression_fails_closed_witness :
  is_valid_expression (H := Standin.sympy) (u "A(t)=a*t+b") = true
  /\ is_valid_expression (H := Standin.sympy) (u "A()=a*t+b") = false
  /\ is_valid_expression (H := Standin.sympy) (u "A(t)=") = false.
Proof.
  destruct (is_valid_expression_fails_closed (H := Standin.sympy))
    as (_ & Hempty & Hrhs & Hgood & _).
  split; [apply Hgood; reflexivity|]. split.
  - apply (Hempty (u "A") (u "=a*t+b")). vm_compute.
    intros Hin. apply list_elem_of_In in Hin. simpl in Hin.
    destruct Hin as [Heq|[]]. discriminate.
  - apply (Hrhs (u "A(t)=") []); reflexivity.
Defined.

End ValidationFacts.

(** ** Dictionaries *)

Module DictFacts.

Section Dict.
Context {K V : Type} `{EqDecision K}.

Lemma dict_get_set (d : dict K V) (k k' : K) (v : V) :
  dict_get (dict_set d k v) k' = if decide (k = k') then Some v else dict_get d k'.
Proof.
  induction d as [|[k0 v0] d IH]; simpl.
  - destruct (decide (k = k')); reflexivity.
  - destruct (decide (k0 = k)) as [->|Hne]; simpl.
    + destruct (decide (k = k')); reflexivity.
    + destruct (decide (k0 = k')) as [->|Hne'].
      * destruct (decide (k = k')); [congruence|reflexivity].
      * exact IH.
Qed.

Lemma dict_get_set_eq (d : dict K V) (k : K) (v : V) :
  dict_get (dict_set d k v) k = Some v.
Proof. rewrite dict_get_set. destruct (decide (k = k)); [reflexivity|contradiction]. Qed.

Lemma dict_get_set_ne (d : dict K V) (k k' : K) (v : V) :
  k <> k' -> dict_get (dict_set d k v) k' = dict_get d k'.
Proof. intros Hne. rewrite dict_get_set. destruct (decide (k = k')); [contradiction|reflexivity]. Qed.

Lemma dict_keys_set_present (d : dict K V) (k : K) (v v0 : V) :
  dict_get d k = Some v0 -> dict_keys (dict_set d k v) = dict_keys d.
Proof.
  induction d as [|[k0 w] d IH]; simpl; [discriminate|].
  destruct (decide (k0 = k)) as [->|Hne]; simpl; [reflexivity|].
  intros Hget. f_equal. apply IH. exact Hget.
Qed.

End Dict.

End DictFacts.

(** ** Calling a fit *)

Module FitCallFacts.
Import Fit.
Import Terms Examples.



Example Fit_call_example :
  Fit_call example_fit [Ndarray [0; 1; 2]%float] = Ok [1; 3; 5]%float
  /\ Fit_call example_fit [PyList [0; 1; 2]%float] = Raise ValueError
  /\ Fit_call example_fit [] = Raise ValueError.
Proof. vm_compute. repeat split. Qed.


End FitCallFacts.

(** ** Textual substitution of symbols *)

Module ReplaceFacts.
Import Fit.

(** C6. The two rewrites are plain [str.replace]: a symbol is replaced
    wherever it occurs, also inside a longer identifier. With the fixed
    parameter [d], the text ["d*t + delta"] loses the [d] of [delta]; with
    the per-run parameter [b] renamed to [b1], ["b*t + beta"] becomes
    ["b1*t + b1eta"]. *)
Theorem replace_rewrites_inside_identifiers `{Unicode} (value : float) :
  _replace_fixed (u "d*t + delta") [u "d"] [value]
  = str_float value ++ u "*t + " ++ str_float value ++ u "elta"
  /\ _replace_var_with (u "b*t + beta") (u "b") (u "b1") = u "b1*t + b1eta".
Proof.
  split; [|reflexivity].
  unfold _replace_fixed. generalize (str_float value) as new. intros new.
  vm_compute. reflexivity.
Qed.

End ReplaceFacts.

(** ** The fit engine *)

Module FitEngineFacts.
Import Fit.
Import Terms Examples.

(** C2. [fit] compares the lengths of the run identifiers, not of the
    datasets: datasets of three and of two samples under the identifiers
    [r1] and [r2] pass the test and reach the per-run least-squares fit,
    whatever the libraries are. *)
Theorem fit_tests_identifier_lengths `{Unicode} `{Sympy} `{Scipy} `{Domain} :
  map (fun ra : pystr * Asymmetry => length (asymmetry ra.2)) (get_data unequal_spec)
    = [3; 2]%nat
  /\ fit unequal_spec
     = (d ← _least_squares_fit_non_global unequal_spec; Ok (Some d)).
Proof. split; reflexivity. Qed.

(** With the stand-in libraries the optimizer runs on both datasets and
    its answer, 2.0, is stored for [a] in both fits. *)
Example fit_unequal_lengths_runs :
  exists d : FitDataset,
    fit (H := Standin.unicode) (H0 := Standin.sympy) (H1 := Standin.scipy)
        (H2 := Standin.domain) unequal_spec = Ok (Some d)
    /\ map (fun rf : pystr * Fit =>
              (rf.1, value <$> dict_get (fit_variables rf.2) (u "a")))
           (fits d)
       = [(u "r1", Some 2%float); (u "r2", Some 2%float)].
Proof. eexists. split; vm_compute; reflexivity. Qed.

(** Datasets of one length under identifiers of different lengths are
    refused. *)
Example fit_equal_lengths_refused `{Unicode} `{Sympy} `{Scipy} `{Domain} :
  fit equal_spec = Raise ValueError.
Proof. reflexivity. Qed.

(** *** Fixed parameters in the global fit *)

(** A loop stops with an exception when its body raises at some element
    whatever the state. *)
Lemma for_each_raises {A S : Type} (body : S -> A -> result S) (l : list A)
    (x : A) (s : S) :
  x ∈ l -> (forall s' : S, exists e : exn, body s' x = Raise e) ->
  exists e : exn, for_each body l s = Raise e.
Proof.
  intros Hin Hx. revert s. induction l as [|y l IH]; intros s.
  - apply elem_of_nil in Hin. contradiction.
  - simpl. apply elem_of_cons in Hin. destruct Hin as [<-|Hin].
    + destruct (Hx s) as [e ->]. exists e. reflexivity.
    + destruct (body s y) as [s'|e]; simpl; [apply IH; exact Hin | eauto].
Qed.

(** The dictionary [values] of the global fit has no key that is not an
    unknown of the fit. *)
Lemma scatter_values_keys (l : list (nat * pystr)) (x : list float)
    (vs0 vs : dict pystr float) (k : pystr) :
  for_each
    (fun t (p : nat * pystr) =>
       xi ← or_raise IndexError (x !! p.1); Ok (dict_set t p.2 xi)) l vs0 = Ok vs ->
  k ∉ map snd l ->
  dict_get vs k = dict_get vs0 k.
Proof.
  revert vs0. induction l as [|[i s] l IH]; intros vs0 Hrun Hk.
  - simpl in Hrun. injection Hrun as <-. reflexivity.
  - simpl in Hrun. destruct (x !! i) as [xi|]; [|discriminate].
    cbn [or_raise mbind result_mbind bind] in Hrun.
    rewrite (IH _ Hrun).
    + apply DictFacts.dict_get_set_ne. intros ->. apply Hk. simpl. left.
    + intros Hin. apply Hk. simpl. right. exact Hin.
Qed.

Lemma snd_imap_pair {A B : Type} (f : nat -> B) (l : list A) :
  map snd (imap (fun (i : nat) (s : A) => (f i, s)) l) = l.
Proof.
  revert f. induction l as [|x l IH]; intros f; [reflexivity|].
  simpl. f_equal. apply (IH (f ∘ S)).
Qed.

(** The step of the loop over the variables raises at a variable whose
    symbol is not a key of [values]. *)
Lemma global_scatter_step_raises (values : dict pystr float) (run_id k : pystr)
    (v : FitVar) (final_variables : dict pystr FitVar) :
  dict_get values (if is_global v then k else k ++ _shortened_run_id run_id) = None ->
  global_scatter_step values run_id final_variables (k, v) = Raise KeyError.
Proof.
  unfold global_scatter_step. simpl. destruct (is_global v); simpl; intros ->; reflexivity.
Qed.

(** C4, the global fit. The loop that writes the optimizer's values back
    runs over every variable, the fixed ones included, and looks each one
    up in [values], which holds the unknowns only: a global fit with a
    fixed variable returns no result, unless the symbol looked up for the
    fixed variable happens to be the name of an unknown. *)
Theorem global_fit_fails_with_fixed_variable `{Unicode} `{Sympy} `{Scipy} `{Domain}
    (spec : FitSpec) (k : pystr) (v : FitVar)
    (run_id : pystr) (a : Asymmetry) (rest : dict pystr Asymmetry) :
  (k, v) ∈ variables spec ->
  is_fixed v = true ->
  asymmetries spec = (run_id, a) :: rest ->
  (if is_global v then k else k ++ _shortened_run_id run_id)
    ∉ get_global_fit_symbols spec ->
  exists e : exn, _least_squares_fit_global spec = Raise e.
Proof.
  intros Hin Hfix Hruns Hfresh. unfold _least_squares_fit_global.
  destruct (_lambdify_global spec _) as [gl|e]; [|exists e; reflexivity].
  cbn [mbind result_mbind bind].
  destruct (least_squares _ _ _) as [opt_x|e]; [|exists e; reflexivity].
  cbn [mbind result_mbind bind].
  destruct (scatter _ _ opt_x []) as [values|e] eqn:Hvalues; [|exists e; reflexivity].
  cbn [mbind result_mbind bind].
  assert (Hnone : dict_get values
                    (if is_global v then k else k ++ _shortened_run_id run_id) = None).
  { unfold scatter in Hvalues.
    rewrite (scatter_values_keys _ _ _ _ _ Hvalues); [reflexivity|].
    rewrite snd_imap_pair. exact Hfresh. }
  unfold get_data. rewrite Hruns. cbn [for_each fst snd].
  destruct (for_each_raises (global_scatter_step values run_id)
              (copy_variables (variables spec)) (k, with_value v (value v))
              (copy_variables (variables spec))) as [e He].
  - unfold copy_variables. apply list_elem_of_fmap. exists (k, v). split; [reflexivity|exact Hin].
  - intros s'. exists KeyError. apply global_scatter_step_raises. exact Hnone.
  - rewrite He. exists e. reflexivity.
Qed.

(** C4 on the global fit of [t + a + c] with [c] fixed. *)
Lemma global_fit_fails_with_fixed_variable_witness :
  exists e : exn,
    _least_squares_fit_global (H := Standin.unicode) (H0 := Standin.sympy)
      (H1 := Standin.scipy) (H2 := Standin.domain) fixed_global_spec = Raise e.
Proof.
  apply (global_fit_fails_with_fixed_variable (H := Standin.unicode)
           (H0 := Standin.sympy) (H1 := Standin.scipy) (H2 := Standin.domain)
           fixed_global_spec (u "c") fixed_variable_c (u "r1")
           (dataset [1; 2; 3]%float) []).
  - right. left.
  - reflexivity.
  - reflexivity.
  - vm_compute. intros Hin. apply list_elem_of_In in Hin. simpl in Hin.
    destruct Hin as [Heq|[]]. discriminate.
Defined.

(** With the stand-in libraries the exception is the [KeyError] of the
    lookup, and the same request fitted run by run keeps [c] at 3. *)
Example fixed_global_fit_raises_KeyError :
  fit (H := Standin.unicode) (H0 := Standin.sympy) (H1 := Standin.scipy)
      (H2 := Standin.domain) fixed_global_spec = Raise KeyError.
Proof. vm_compute. reflexivity. Qed.

Example fixed_per_run_fit_keeps_value :
  exists d : FitDataset,
    fit (H := Standin.unicode) (H0 := Standin.sympy) (H1 := Standin.scipy)
        (H2 := Standin.domain) fixed_per_run_spec = Ok (Some d)
    /\ map (fun rf : pystr * Fit =>
              (value <$> dict_get (fit_variables rf.2) (u "a"),
               value <$> dict_get (fit_variables rf.2) (u "c")))
           (fits d)
       = [(Some 2%float, Some 3%float)].
Proof. eexists. split; vm_compute; reflexivity. Qed.

(** When the symbol looked up for a fixed variable is the name of an
    unknown, the global fit returns and the fixed value is overwritten. *)
Example colliding_global_fit_overwrites_fixed :
  exists d : FitDataset,
    fit (H := Standin.unicode) (H0 := Standin.sympy) (H1 := Standin.scipy)
        (H2 := Standin.domain) colliding_spec = Ok (Some d)
    /\ map (fun rf : pystr * Fit =>
              (value <$> dict_get (fit_variables rf.2) (u "a"),
               value <$> dict_get (fit_variables rf.2) (u "a1")))
           (fits d)
       = [(Some 2%float, Some 2%float)].
Proof. eexists. split; vm_compute; reflexivity. Qed.

(** *** Fixed parameters in the per-run fit *)

Lemma with_value_same (v : FitVar) : with_value v (value v) = v.
Proof. destruct v; reflexivity. Qed.

Lemma copy_variables_same (vars : dict pystr FitVar) : copy_variables vars = vars.
Proof.
  unfold copy_variables. induction vars as [|[k v] vars IH]; [reflexivity|].
  simpl. rewrite with_value_same, IH. reflexivity.
Qed.

Lemma dict_get_of_entry {V : Type} (d : dict pystr V) (k : pystr) (v : V) :
  NoDup (dict_keys d) -> (k, v) ∈ d -> dict_get d k = Some v.
Proof.
  induction d as [|[k0 v0] d IH]; intros Hnd Hin.
  - apply elem_of_nil in Hin. contradiction.
  - simpl in Hnd. apply NoDup_cons in Hnd. destruct Hnd as [Hk0 Hnd].
    apply elem_of_cons in Hin. simpl. destruct Hin as [Heq|Hin].
    + injection Heq as <- <-. destruct (decide (k = k)); [reflexivity|contradiction].
    + destruct (decide (k0 = k)) as [->|_]; [|apply IH; assumption].
      exfalso. apply Hk0. unfold dict_keys. apply list_elem_of_fmap.
      exists (k, v). split; [reflexivity|exact Hin].
Qed.

Lemma entry_of_dict_set {V : Type} (d : dict pystr V) (k k' : pystr) (v v' : V) :
  (k', v') ∈ dict_set d k v -> (k', v') = (k, v) \/ (k', v') ∈ d.
Proof.
  induction d as [|[k0 v0] d IH]; simpl; intros Hin.
  - apply list_elem_of_singleton in Hin. left. exact Hin.
  - destruct (decide (k0 = k)) as [->|Hne].
    + apply elem_of_cons in Hin. destruct Hin as [Heq|Hin]; [left; exact Heq|].
      right. apply elem_of_cons. right. exact Hin.
    + apply elem_of_cons in Hin. destruct Hin as [Heq|Hin].
      * right. apply elem_of_cons. left. exact Heq.
      * destruct (IH Hin) as [Heq|Hin']; [left; exact Heq|].
        right. apply elem_of_cons. right. exact Hin'.
Qed.

(** Writing the optimizer's values back touches the symbols given only. *)
Lemma scatter_set_value_frame (l : list (nat * pystr)) (x : list float)
    (d0 d : dict pystr FitVar) (k : pystr) :
  for_each
    (fun t (p : nat * pystr) =>
       xi ← or_raise IndexError (x !! p.1); set_value t p.2 xi) l d0 = Ok d ->
  k ∉ map snd l ->
  dict_get d k = dict_get d0 k.
Proof.
  revert d0. induction l as [|[i s] l IH]; intros d0 Hrun Hk.
  - simpl in Hrun. injection Hrun as <-. reflexivity.
  - simpl in Hrun. destruct (x !! i) as [xi|]; [|discriminate].
    cbn [or_raise mbind result_mbind bind] in Hrun.
    unfold set_value in Hrun. destruct (dict_get d0 s) as [v|]; [|discriminate].
    cbn [or_raise mbind result_mbind bind] in Hrun.
    rewrite (IH _ Hrun).
    + apply DictFacts.dict_get_set_ne. intros ->. apply Hk. simpl. left.
    + intros Hin. apply Hk. simpl. right. exact Hin.
Qed.

(** A loop that stores one entry per turn keeps a property of the stored
    values that every new entry has. *)
Lemma for_each_entries {A V : Type} (P : V -> Prop)
    (body : dict pystr V -> A -> result (dict pystr V)) (l : list A)
    (acc0 acc : dict pystr V) :
  (forall (d d' : dict pystr V) (x : A),
      body d x = Ok d' ->
      (forall kv, kv ∈ d -> P kv.2) -> forall kv, kv ∈ d' -> P kv.2) ->
  for_each body l acc0 = Ok acc ->
  (forall kv, kv ∈ acc0 -> P kv.2) ->
  forall kv, kv ∈ acc -> P kv.2.
Proof.
  intros Hbody. revert acc0. induction l as [|x l IH]; intros acc0 Hrun H0.
  - simpl in Hrun. injection Hrun as <-. exact H0.
  - simpl in Hrun. destruct (body acc0 x) as [d'|] eqn:Hx; [|discriminate].
    simpl in Hrun. apply (IH d' Hrun). apply (Hbody acc0 d' x Hx H0).
Qed.

(** In a specification whose variables are filed under their symbols, the
    key of a fixed variable is not among the symbols being fitted. *)
Lemma fixed_key_not_unfixed (spec : FitSpec) (k : pystr) (v : FitVar) :
  (forall k' v', (k', v') ∈ variables spec -> symbol v' = k') ->
  NoDup (dict_keys (variables spec)) ->
  (k, v) ∈ variables spec -> is_fixed v = true ->
  k ∉ get_unfixed_symbols spec.
Proof.
  intros Hkeys Hnd Hin Hfix Hk. unfold get_unfixed_symbols in Hk.
  apply list_elem_of_fmap in Hk. destruct Hk as (v' & Hsym & Hv').
  apply list_elem_of_filter in Hv'. destruct Hv' as [Hfree Hv'].
  unfold dict_values in Hv'. apply list_elem_of_fmap in Hv'.
  destruct Hv' as ([k' v''] & Heq & Hin'). simpl in Heq. subst v''.
  pose proof (Hkeys k' v' Hin') as Hk'. rewrite <- Hsym in Hk'. subst k'.
  pose proof (dict_get_of_entry _ _ _ Hnd Hin) as G1.
  pose proof (dict_get_of_entry _ _ _ Hnd Hin') as G2.
  rewrite G1 in G2. injection G2 as ->. congruence.
Qed.

(** C4, the per-run fit: every fit it returns carries each fixed variable
    as it was stored in the specification. *)
Lemma non_global_fit_keeps_fixed `{Unicode} `{Sympy} `{Scipy} `{Domain}
    (spec : FitSpec) (d : FitDataset) :
  _least_squares_fit_non_global spec = Ok d ->
  (forall k v, (k, v) ∈ variables spec -> symbol v = k) ->
  NoDup (dict_keys (variables spec)) ->
  forall (run : pystr) (f : Fit) (k : pystr) (v : FitVar),
    (run, f) ∈ fits d ->
    (k, v) ∈ variables spec -> is_fixed v = true ->
    dict_get (fit_variables f) k = Some v.
Proof.
  intros Hrun Hkeys Hnd run f k v Hf Hin Hfix.
  unfold _least_squares_fit_non_global in Hrun.
  destruct (lambdify (fitted_function spec) _ _) as [lam|];
    cbn [mbind result_mbind bind] in Hrun; [|discriminate].
  match type of Hrun with
  | context [for_each ?body ?l []] =>
      destruct (for_each body l []) as [fs|] eqn:Hloop;
        cbn [mbind result_mbind bind] in Hrun; [|discriminate]
  end.
  injection Hrun as <-. simpl in Hf.
  refine (for_each_entries
            (fun f' : Fit => dict_get (fit_variables f') k = Some v)
            _ _ _ _ _ Hloop _ (run, f) Hf).
  - intros acc acc' ra Hbody Hacc kv Hkv.
    rewrite copy_variables_same in Hbody.
    assert (Hfinal : forall fv : dict pystr FitVar,
               (if negb (length (get_unfixed_symbols spec) =? 0)%nat
                then opt_x ← least_squares
                       (fun pars => _residual (call_array_positional lam) pars
                                      (time ra.2) (asymmetry ra.2) (uncertainty ra.2))
                       (get_unfixed_guesses spec)
                       (get_unfixed_lower_bounds spec, get_unfixed_upper_bounds spec);
                     scatter set_value (get_unfixed_symbols spec) opt_x (variables spec)
                else Ok (variables spec)) = Ok fv ->
               dict_get fv k = Some v).
    { intros fv Hfv. destruct (negb _).
      - destruct (least_squares _ _ _) as [opt_x|];
          cbn [mbind result_mbind bind] in Hfv; [|discriminate].
        unfold scatter in Hfv.
        rewrite (scatter_set_value_frame _ _ _ _ k Hfv).
        + apply dict_get_of_entry; assumption.
        + rewrite snd_imap_pair. apply fixed_key_not_unfixed with (v := v); assumption.
      - injection Hfv as <-. apply dict_get_of_entry; assumption. }
    match type of Hbody with
    | context [mbind _ ?m] =>
        destruct m as [fv|] eqn:Hfv;
          cbn [mbind result_mbind bind] in Hbody; [|discriminate]
    end.
    destruct (lambdify _ _ _) as [lam'|];
      cbn [mbind result_mbind bind] in Hbody; [|discriminate].
    destruct (run_title _) as [t|];
      cbn [mbind result_mbind bind] in Hbody; [|discriminate].
    injection Hbody as <-.
    destruct kv as [k' f']. apply entry_of_dict_set in Hkv.
    destruct Hkv as [Heq|Hold]; [|exact (Hacc _ Hold)].
    injection Heq as -> ->. simpl. apply Hfinal. reflexivity.
  - intros kv Hkv. apply elem_of_nil in Hkv. contradiction.
Qed.

(** The per-run fit of [t + a + c] with [c] fixed keeps [c]. *)
Lemma non_global_fit_keeps_fixed_witness :
  exists d : FitDataset,
    _least_squares_fit_non_global (H := Standin.unicode) (H0 := Standin.sympy)
      (H1 := Standin.scipy) (H2 := Standin.domain) fixed_per_run_spec = Ok d
    /\ forall (run : pystr) (f : Fit),
         (run, f) ∈ fits d ->
         dict_get (fit_variables f) (u "c") = Some fixed_variable_c.
Proof.
  eexists. split; [vm_compute; reflexivity|].
  intros run f Hf.
  apply (non_global_fit_keeps_fixed (H := Standin.unicode) (H0 := Standin.sympy)
           (H1 := Standin.scipy) (H2 := Standin.domain) fixed_per_run_spec _
           eq_refl) with (run := run).
  - intros k v Hin. apply list_elem_of_In in Hin. simpl in Hin.
    destruct Hin as [Heq|[Heq|[]]]; injection Heq as <- <-; reflexivity.
  - vm_compute. repeat constructor.
    + intros Hin. apply list_elem_of_In in Hin. simpl in Hin.
      destruct Hin as [Heq|[]]. discriminate.
    + intros Hin. apply elem_of_nil in Hin. exact Hin.
  - exact Hf.
  - right. left.
  - reflexivity.
Defined.

End FitEngineFacts.

(** ** The expression parser *)

Module ParseFacts.
Import Fit.
Import Terms Examples.









(** Further behaviour of the scan, outside the claim: an expression whose
    scan never adds the empty string makes [free_set.remove('')] raise; a
    last letter [p] or [i] is taken for a piece of [pi]; a function name
    met inside a name is cut out of it, and the pieces around it are
    joined. *)
Example parse_product_raises :
  parse (H := Standin.unicode) (u "a*b") = Raise KeyError.
Proof. vm_compute. reflexivity. Qed.

Example parse_drops_last_p :
  parse (H := Standin.unicode) (u "x + p") = Ok {[ u "x" ]}.
Proof. vm_compute. reflexivity. Qed.

Example parse_joins_around_token :
  parse (H := Standin.unicode) (u "(scosin)") = Ok {[ u "sin" ]}.
Proof. vm_compute. reflexivity. Qed.

End ParseFacts.

(** ** The spectral transform *)

Module SpectrumFacts.
Import BeamsModel.
Import Terms Examples.

Lemma length_magnitudes_of `{NumpyFFT} (asymmetry : list float) :
  length (magnitudes_of asymmetry) = (length asymmetry / 2)%nat.
Proof.
  unfold magnitudes_of. rewrite length_map, length_take, length_map, np_fft_length.
  apply Nat.min_l. apply Nat.Div0.div_le_upper_bound. lia.
Qed.

Lemma set_first_zero_ok `{NumpyFFT} (asymmetry : list float) :
  (2 <= length asymmetry)%nat ->
  set_first_zero (magnitudes_of asymmetry) = Ok (unsmoothed_spectrum asymmetry).
Proof.
  intros Hn. pose proof (length_magnitudes_of asymmetry) as Hlen.
  assert (1 <= length asymmetry / 2)%nat as Hhalf
    by (apply Nat.div_le_lower_bound; lia).
  unfold set_first_zero, unsmoothed_spectrum.
  destruct (magnitudes_of asymmetry) as [|y ys]; [|reflexivity].
  change (0 = length asymmetry / 2)%nat in Hlen. lia.
Qed.

(** With at least two samples and as many times, [calculate_fft] is the
    spline through the frequency axis and the unsmoothed spectrum,
    evaluated at 300 evenly spaced frequencies. *)
Lemma calculate_fft_run `{Numpy} `{NumpyFFT} `{Scipy}
    (bin_size : float) (asymmetry times : list float) :
  (2 <= length asymmetry)%nat ->
  length times = length asymmetry ->
  calculate_fft bin_size asymmetry times
  = (let frequencies := frequencies_of bin_size (length asymmetry) in
     let x_smooth := np_linspace (np_min frequencies) (np_max frequencies) 300 in
     y_smooth ← spline_s0 frequencies (unsmoothed_spectrum asymmetry) x_smooth;
     Ok (x_smooth, y_smooth)).
Proof.
  intros Hn Htimes. unfold calculate_fft.
  destruct (Nat.eqb_spec (length asymmetry) 0) as [Hzero|_]; [lia|].
  rewrite Htimes, Nat.eqb_refl. simpl orb. cbv iota.
  rewrite set_first_zero_ok by exact Hn. reflexivity.
Qed.

(** Whatever [calculate_fft] returns has 300 entries in both parts. *)
Lemma calculate_fft_lengths `{Numpy} `{NumpyFFT} `{Scipy}
    (bin_size : float) (asymmetry times : list float)
    (out : list float * list float) :
  (2 <= length asymmetry)%nat ->
  length times = length asymmetry ->
  calculate_fft bin_size asymmetry times = Ok out ->
  length out.1 = 300%nat /\ length out.2 = 300%nat.
Proof.
  intros Hn Htimes Hrun. rewrite calculate_fft_run in Hrun by assumption.
  cbv zeta in Hrun.
  destruct (spline_s0 _ _ _) as [ys|] eqn:Hspline;
    cbn [mbind result_mbind bind] in Hrun; [|discriminate].
  injection Hrun as <-. simpl. split.
  - apply np_linspace_length.
  - rewrite (spline_s0_length _ _ _ _ Hspline). apply np_linspace_length.
Qed.

(** C9, as the code has it. For at least two samples, with as many times,
    the magnitude spectrum of the first half of the transform gets its
    zero-frequency bin forced to 0 and is handed to the zero-smoothing
    spline together with the frequency axis; when the spline fits,
    [calculate_fft] returns the 300 evenly spaced frequencies and the
    spline evaluated at them, and nothing else. *)
Theorem calculate_fft_returns_spline `{Numpy} `{NumpyFFT} `{Scipy}
    (bin_size : float) (asymmetry times : list float) :
  (2 <= length asymmetry)%nat ->
  length times = length asymmetry ->
  let frequencies := frequencies_of bin_size (length asymmetry) in
  let x_smooth := np_linspace (np_min frequencies) (np_max frequencies) 300 in
  unsmoothed_spectrum asymmetry !! 0%nat = Some 0%float
  /\ length (unsmoothed_spectrum asymmetry) = (length asymmetry / 2)%nat
  /\ calculate_fft bin_size asymmetry times
     = (y_smooth ← spline_s0 frequencies (unsmoothed_spectrum asymmetry) x_smooth;
        Ok (x_smooth, y_smooth))
  /\ forall y_smooth : list float,
       spline_s0 frequencies (unsmoothed_spectrum asymmetry) x_smooth = Ok y_smooth ->
       calculate_fft bin_size asymmetry times = Ok (x_smooth, y_smooth)
       /\ length x_smooth = 300%nat /\ length y_smooth = 300%nat.
Proof.
  intros Hn Htimes frequencies x_smooth.
  pose proof (length_magnitudes_of asymmetry) as Hlen.
  assert (1 <= length asymmetry / 2)%nat as Hhalf
    by (apply Nat.div_le_lower_bound; lia).
  pose proof (calculate_fft_run bin_size asymmetry times Hn Htimes) as Hrun.
  cbv zeta in Hrun. fold frequencies x_smooth in Hrun.
  split.
  { unfold unsmoothed_spectrum. apply list_lookup_insert_eq. lia. }
  split.
  { unfold unsmoothed_spectrum. rewrite length_insert. exact Hlen. }
  split; [exact Hrun|].
  intros y_smooth Hspline. rewrite Hrun, Hspline. split; [reflexivity|].
  split.
  - apply np_linspace_length.
  - rewrite (spline_s0_length _ _ _ _ Hspline). apply np_linspace_length.
Qed.

(** C9 on eight samples. *)
Lemma calculate_fft_returns_spline_witness :
  exists x_smooth y_smooth : list float,
    calculate_fft (H := Reference.numpy) (H0 := Standin.fft) (H1 := Standin.scipy)
      1 eight_samples eight_samples = Ok (x_smooth, y_smooth)
    /\ length y_smooth = 300%nat
    /\ length (unsmoothed_spectrum (H := Standin.fft) eight_samples) = 4%nat.
Proof.
  destruct (calculate_fft_returns_spline (H := Reference.numpy) (H0 := Standin.fft)
              (H1 := Standin.scipy) 1 eight_samples eight_samples)
    as (_ & Hlen & _ & Hret); [simpl; lia | reflexivity |].
  eexists _, _.
  destruct (Hret _ eq_refl) as (Hrun & _ & Hy).
  split; [exact Hrun|]. split; [exact Hy | exact Hlen].
Defined.

(** C9 as stated fails: for eight samples the unsmoothed spectrum has four
    entries, while both arrays that [calculate_fft] returns have 300,
    whatever the libraries. *)
Lemma calculate_fft_not_unsmoothed :
  (exists out : list float * list float,
      calculate_fft (H := Reference.numpy) (H0 := Standin.fft) (H1 := Standin.scipy)
        1 eight_samples eight_samples = Ok out)
  /\ forall (np : Numpy) (npfft : NumpyFFT) (sp : Scipy)
            (out : list float * list float),
       calculate_fft 1 eight_samples eight_samples = Ok out ->
       out.1 <> unsmoothed_spectrum eight_samples
       /\ out.2 <> unsmoothed_spectrum eight_samples.
Proof.
  split.
  - eexists. rewrite calculate_fft_run by (simpl; lia || reflexivity). reflexivity.
  - intros np npfft sp out Hrun.
    destruct (calculate_fft_lengths 1 eight_samples eight_samples out) as [H1 H2];
      [simpl; lia | reflexivity | exact Hrun |].
    assert (Hfour : length (unsmoothed_spectrum eight_samples) = 4%nat).
    { unfold unsmoothed_spectrum. rewrite length_insert, length_magnitudes_of.
      reflexivity. }
    split; intros Heq; rewrite Heq, Hfour in *; discriminate.
Qed.

End SpectrumFacts.

(** ** The uncertainty estimator *)

Module UncertaintyFacts.
Import Fit.
Import Terms Examples.

(** *** Zeros in binary64 *)

Lemma is_zero_spec (x : float) :
  PrimFloat.is_zero x = true <-> exists s : bool, Prim2SF x = S754_zero s.
Proof.
  split.
  - intros Hx. destruct (F64Facts.is_zero_cases x Hx) as [-> | ->];
      [exists false | exists true]; reflexivity.
  - intros [s Hs]. unfold PrimFloat.is_zero. rewrite FloatAxioms.eqb_spec, Hs.
    destruct s; reflexivity.
Qed.

(** A float that is neither a zero nor NaN is an infinity or a finite
    non-zero number. *)
Lemma number_spec (x : float) :
  PrimFloat.is_zero x = false -> PrimFloat.is_nan x = false ->
  (exists s, Prim2SF x = S754_infinity s)
  \/ (exists s m e, Prim2SF x = S754_finite s m e).
Proof.
  unfold PrimFloat.is_zero, PrimFloat.is_nan. rewrite !FloatAxioms.eqb_spec.
  destruct (Prim2SF x) as [s|s| |s m e]; intros Hz Hn.
  - destruct s; discriminate.
  - left. exists s. reflexivity.
  - discriminate.
  - right. exists s, m, e. reflexivity.
Qed.

Lemma finite_spec (x : float) :
  PrimFloat.is_finite x = true ->
  (exists s, Prim2SF x = S754_zero s)
  \/ (exists s m e, Prim2SF x = S754_finite s m e).
Proof.
  unfold PrimFloat.is_finite, PrimFloat.is_nan, PrimFloat.is_infinity.
  rewrite !FloatAxioms.eqb_spec, FloatAxioms.abs_spec.
  destruct (Prim2SF x) as [s|s| |s m e]; intros Hf.
  - left. exists s. reflexivity.
  - destruct s; discriminate.
  - discriminate.
  - right. exists s, m, e. reflexivity.
Qed.

Lemma square_zero (x : float) : PrimFloat.is_zero x = true -> F64.square x = 0%float.
Proof.
  intros Hx. destruct (F64Facts.is_zero_cases x Hx) as [-> | ->]; reflexivity.
Qed.

Lemma sqrt_zero (x : float) :
  PrimFloat.is_zero x = true -> PrimFloat.is_zero (PrimFloat.sqrt x) = true.
Proof.
  intros Hx. destruct (F64Facts.is_zero_cases x Hx) as [-> | ->]; reflexivity.
Qed.

Lemma zero_div_number (x y : float) :
  PrimFloat.is_zero x = true ->
  PrimFloat.is_zero y = false -> PrimFloat.is_nan y = false ->
  PrimFloat.is_zero (x / y) = true.
Proof.
  intros Hx Hz Hn. apply is_zero_spec in Hx. destruct Hx as [sx Hx].
  apply is_zero_spec. rewrite FloatAxioms.div_spec, Hx.
  destruct (number_spec y Hz Hn) as [[s ->] | (s & m & e & ->)];
    eexists; reflexivity.
Qed.

Lemma finite_mul_zero (c z : float) :
  PrimFloat.is_finite c = true -> PrimFloat.is_zero z = true ->
  PrimFloat.is_zero (c * z) = true.
Proof.
  intros Hc Hz. apply is_zero_spec in Hz. destruct Hz as [sz Hz].
  apply is_zero_spec. rewrite FloatAxioms.mul_spec, Hz.
  destruct (finite_spec c Hc) as [[s ->] | (s & m & e & ->)];
    eexists; reflexivity.
Qed.

(** *** The estimate *)

Lemma diagonal_from_map (f : float -> float) (m : list (list float)) (i : nat) :
  diagonal_from i (map (map f) m) = map f (diagonal_from i m).
Proof.
  revert i. induction m as [|row m IH]; intros i; [reflexivity|].
  simpl. rewrite list_lookup_fmap. destruct (row !! i); simpl; [|reflexivity].
  rewrite IH. reflexivity.
Qed.

Lemma squares_of_zeros (l : list float) :
  Forall (fun r => PrimFloat.is_zero r = true) l ->
  map F64.square l = repeat 0%float (length l).
Proof.
  induction 1 as [|r l Hr Hl IH]; [reflexivity|].
  simpl. rewrite square_zero by exact Hr. rewrite IH. reflexivity.
Qed.

Section Estimate.
Context `{Numpy} `{Linalg}.
Variables (result_ : OptimizeResult) (data : list float)
          (error : option (list float)) (num_constraints : Z).

(** C8. Given one error per data point (all ones when no errors are
    given) and an invertible JᵗJ, [get_std_unc] returns the square roots of
    the diagonal of inverse(JᵗJ) scaled by rw²/r_exp², and rw²/r_exp² as
    the chi-square. On a zero residual both are zero, the uncertainties one
    by one, provided the sum of zeros is zero, the weighted sum of the
    squared data is a non-zero number, r_exp² is a non-zero number and the
    diagonal of the inverse is finite. *)
Theorem get_std_unc_estimate (inverse : list (list float)) :
  length (errors data error) = length data ->
  np_linalg_inv (normal_matrix result_) = Ok inverse ->
  let rw := rw result_ data error in
  let r_exp := r_exp result_ data error num_constraints in
  let scale := (F64.square rw / F64.square r_exp)%float in
  let p_unc :=
    map (fun c => PrimFloat.sqrt (c * F64.square rw / F64.square r_exp))
        (diagonal inverse) in
  get_std_unc result_ data error num_constraints = Ok (p_unc, scale)
  /\ (error = None -> errors data error = repeat 1%float (length data))
  /\ (Forall (fun r => PrimFloat.is_zero r = true) (opt_fun result_) ->
      PrimFloat.is_zero (np_sum (repeat 0%float (length (opt_fun result_)))) = true ->
      PrimFloat.is_zero (weighted_sum data error) = false ->
      PrimFloat.is_nan (weighted_sum data error) = false ->
      PrimFloat.is_zero (F64.square r_exp) = false ->
      PrimFloat.is_nan (F64.square r_exp) = false ->
      Forall (fun c => PrimFloat.is_finite c = true) (diagonal inverse) ->
      PrimFloat.is_zero scale = true
      /\ Forall (fun sigma => PrimFloat.is_zero sigma = true) p_unc).
Proof.
  intros Hlen Hinv rw0 r_exp0 scale p_unc. split; [|split].
  - unfold get_std_unc. fold (errors data error). unfold elementwise.
    rewrite !length_map, Hlen, Nat.eqb_refl.
    cbn [mbind result_mbind bind]. fold (normal_matrix result_).
    rewrite Hinv. cbn [mbind result_mbind bind].
    unfold diagonal. rewrite diagonal_from_map, map_map. reflexivity.
  - intros Herr. unfold errors. rewrite Herr. clear.
    induction data as [|d l IH]; [reflexivity|].
    simpl. rewrite IH. reflexivity.
  - intros Hfun Hsum Hwz Hwn Hrz Hrn Hfinite.
    assert (Hrw : PrimFloat.is_zero (F64.square rw0) = true).
    { unfold rw0, rw. rewrite squares_of_zeros by exact Hfun.
      rewrite square_zero; [reflexivity|].
      apply sqrt_zero, zero_div_number; assumption. }
    split.
    + apply zero_div_number; assumption.
    + unfold p_unc. apply Forall_fmap. eapply Forall_impl; [exact Hfinite|].
      intros c Hc. simpl. apply sqrt_zero, zero_div_number; try assumption.
      apply finite_mul_zero; assumption.
Qed.

End Estimate.

Example get_std_unc_perfect_fit :
  get_std_unc (H := Reference.numpy) (H0 := Standin.linalg)
    perfect_fit [2; 4; 6]%float None 0
  = Ok ([0%float], 0%float).
Proof. vm_compute. reflexivity. Qed.

(** C8 on the exact fit of the example. *)
Lemma get_std_unc_estimate_witness :
  exists (p_unc : list float) (chisq : float),
    get_std_unc (H := Reference.numpy) (H0 := Standin.linalg)
      perfect_fit [2; 4; 6]%float None 0 = Ok (p_unc, chisq)
    /\ PrimFloat.is_zero chisq = true
    /\ Forall (fun sigma => PrimFloat.is_zero sigma = true) p_unc.
Proof.
  destruct (get_std_unc_estimate (H := Reference.numpy) (H0 := Standin.linalg)
              perfect_fit [2; 4; 6]%float None 0 [[(1 / 14)%float]])
    as (Hrun & _ & Hzero); [reflexivity | vm_compute; reflexivity |].
  eexists _, _. split; [exact Hrun|].
  apply Hzero; try (vm_compute; reflexivity); repeat constructor.
Defined.

End UncertaintyFacts.

(** ** Splitting a model string *)

Module SplitFacts.
Import Fit.
Import Terms Examples.

Lemma after_first_equals_none (expression : pystr) :
  after_first_equals expression = None <-> 61%N ∉ expression.
Proof.
  induction expression as [|k rest IH]; simpl.
  - split; [intros _ Hin; apply elem_of_nil in Hin; exact Hin | reflexivity].
  - destruct (N.eqb_spec k 61) as [->|Hne].
    + split; [discriminate|]. intros Hno. exfalso. apply Hno. left.
    + rewrite IH. split.
      * intros Hno Hin. apply elem_of_cons in Hin. destruct Hin as [Heq|Hin];
          [congruence | exact (Hno Hin)].
      * intros Hno Hin. apply Hno. right. exact Hin.
Qed.

(** The two loops decide alike. *)
Lemma valid_loop_split_loop `{Sympy} (expression s iv : pystr) (op : bool) :
  valid_loop expression s iv op = bool_decide (is_Some (split_loop expression s iv op)).
Proof.
  revert iv op. induction s as [|c rest IH]; intros iv op; [reflexivity|].
  simpl. destruct op; simpl.
  - destruct (c =? 61)%N; [reflexivity|].
    destruct (c =? 41)%N; [|apply IH].
    destruct (length iv =? 0)%nat; [reflexivity|].
    destruct (after_first_equals expression) as [rhs|]; [|apply IH].
    destruct (sympify_ok rhs); reflexivity.
  - apply IH.
Qed.

(** Without ["="] the loop of [split_expression] finds nothing. *)
Lemma split_loop_without_equals `{Sympy} (expression s iv : pystr) (op : bool) :
  after_first_equals expression = None -> split_loop expression s iv op = None.
Proof.
  intros Hno. revert iv op. induction s as [|c rest IH]; intros iv op; [reflexivity|].
  simpl. rewrite Hno. destruct op; simpl.
  - destruct (c =? 61)%N; [reflexivity|].
    destruct (c =? 41)%N; [|apply IH].
    destruct (length iv =? 0)%nat; [reflexivity | apply IH].
  - apply IH.
Qed.

(** What the loop returns: the text after the first ["="], accepted by
    [sympify], and the characters gathered since the parenthesis opened. *)
Lemma split_loop_some `{Sympy} (expression s iv0 : pystr) (op : bool)
    (iv rhs : pystr) :
  split_loop expression s iv0 op = Some (iv, rhs) ->
  after_first_equals expression = Some rhs /\ sympify_ok rhs = true /\ iv <> []
  /\ exists before inside rest : pystr,
       s = before ++ inside ++ 41%N :: rest
       /\ iv = iv0 ++ inside
       /\ (41%N ∉ inside) /\ (61%N ∉ inside)
       /\ if op then before = []
          else exists before', before = before' ++ [40%N] /\ (40%N ∉ before').
Proof.
  revert iv0 op. induction s as [|c rest IH]; intros iv0 op Hs; [discriminate|].
  simpl in Hs. destruct op; simpl in Hs.
  - destruct (N.eqb_spec c 61) as [->|Hne61]; [discriminate|].
    destruct (N.eqb_spec c 41) as [->|Hne41].
    + destruct (Nat.eqb_spec (length iv0) 0) as [_|Hlen]; [discriminate|].
      destruct (after_first_equals expression) as [rhs'|] eqn:Hrhs.
      * destruct (sympify_ok rhs') eqn:Hok; [|discriminate].
        injection Hs as <- <-. split; [reflexivity|]. split; [exact Hok|].
        split; [intros ->; apply Hlen; reflexivity|].
        exists [], [], rest. rewrite app_nil_r.
        repeat split; try reflexivity; intros Hin; apply elem_of_nil in Hin; exact Hin.
      * rewrite (split_loop_without_equals _ _ _ _ Hrhs) in Hs. discriminate.
    + destruct (IH _ _ Hs) as (Hrhs & Hok & Hne & before & inside & rest' & Hrest
                               & Hiv & H41 & H61 & Hbefore).
      simpl in Hbefore. subst before.
      split; [exact Hrhs|]. split; [exact Hok|]. split; [exact Hne|].
      exists [], (c :: inside), rest'. simpl in *. rewrite Hrest.
      split; [reflexivity|]. split; [rewrite Hiv, <- app_assoc; reflexivity|].
      split; [|split; [|reflexivity]].
      * intros Hin. apply elem_of_cons in Hin. destruct Hin as [Heq|Hin];
          [congruence | exact (H41 Hin)].
      * intros Hin. apply elem_of_cons in Hin. destruct Hin as [Heq|Hin];
          [congruence | exact (H61 Hin)].
  - destruct (IH _ _ Hs) as (Hrhs & Hok & Hne & before & inside & rest' & Hrest
                             & Hiv & H41 & H61 & Hbefore).
    split; [exact Hrhs|]. split; [exact Hok|]. split; [exact Hne|].
    destruct (N.eqb_spec c 40) as [->|Hne40].
    + simpl in Hbefore. subst before. simpl in Hrest.
      exists [40%N], inside, rest'. rewrite Hrest.
      split; [reflexivity|]. split; [exact Hiv|]. split; [exact H41|].
      split; [exact H61|]. exists []. split; [reflexivity|].
      intros Hin. apply elem_of_nil in Hin. exact Hin.
    + simpl in Hbefore. destruct Hbefore as (before' & -> & Hno).
      exists (c :: before' ++ [40%N]), inside, rest'. rewrite Hrest.
      split; [reflexivity|]. split; [exact Hiv|].
      split; [exact H41|]. split; [exact H61|].
      exists (c :: before'). split; [reflexivity|].
      intros Hin. apply elem_of_cons in Hin. destruct Hin as [Heq|Hin];
        [congruence | exact (Hno Hin)].
Qed.

(** [split_expression] succeeds exactly on the strings that
    [is_valid_expression] accepts, and then returns the text after the
    first ["="], which [sympify] accepts, and as independent variable the
    non-empty text between the first ["("] and the [")"] that follows it,
    in which there is no ["="]. *)
Theorem split_expression_agrees `{Sympy} (expression : pystr) :
  (is_valid_expression expression = true <-> is_Some (split_expression expression))
  /\ forall iv rhs : pystr,
       split_expression expression = Some (iv, rhs) ->
       after_first_equals expression = Some rhs
       /\ sympify_ok rhs = true
       /\ iv <> [] /\ (41%N ∉ iv) /\ (61%N ∉ iv)
       /\ exists before rest : pystr,
            expression = before ++ [40%N] ++ iv ++ 41%N :: rest /\ (40%N ∉ before).
Proof.
  split.
  - unfold is_valid_expression, split_expression.
    destruct (bool_decide (61%N ∈ expression)) eqn:Heq; simpl.
    + rewrite valid_loop_split_loop. apply bool_decide_eq_true.
    + apply bool_decide_eq_false in Heq. apply after_first_equals_none in Heq.
      rewrite split_loop_without_equals by exact Heq.
      split; [discriminate | intros [x Hx]; discriminate].
  - intros iv rhs Hs. unfold split_expression in Hs.
    destruct (split_loop_some _ _ _ _ _ _ Hs)
      as (Hrhs & Hok & Hne & before & inside & rest & Hexp & Hiv & H41 & H61
          & before' & -> & Hno).
    simpl in Hiv. subst inside.
    repeat (split; [assumption|]).
    exists before', rest. split; [|exact Hno].
    rewrite Hexp, <- !app_assoc. reflexivity.
Qed.

(** The model string of the specification splits into [t] and [a*t+b]. *)
Lemma split_expression_agrees_witness :
  split_expression (H := Standin.sympy) (u "A(t)=a*t+b") = Some (u "t", u "a*t+b")
  /\ is_valid_expression (H := Standin.sympy) (u "A(t)=a*t+b") = true
  /\ after_first_equals (u "A(t)=a*t+b") = Some (u "a*t+b").
Proof.
  destruct (split_expression_agrees (H := Standin.sympy) (u "A(t)=a*t+b"))
    as [Hiff Hsome].
  split; [reflexivity|]. split.
  - apply Hiff. eexists. reflexivity.
  - destruct (Hsome (u "t") (u "a*t+b") eq_refl) as (Hrhs & _). exact Hrhs.
Defined.

End SplitFacts.

(** ** Normalising symbols and run identifiers *)

Module SymbolFacts.
Import Fit.
Import Terms Examples.

(** On a text without the three glyphs [replace_symbols] changes nothing. *)
Lemma replace_symbols_plain (expression : pystr) :
  PI ∉ expression -> 94%N ∉ expression -> NAUGHT ∉ expression ->
  replace_symbols expression = expression.
Proof.
  unfold replace_symbols.
  induction expression as [|c rest IH]; intros Hpi Hhat Hzero; [reflexivity|].
  simpl. destruct (N.eqb_spec c PI) as [->|_]; [exfalso; apply Hpi; left|].
  destruct (N.eqb_spec c 94) as [->|_]; [exfalso; apply Hhat; left|].
  destruct (N.eqb_spec c NAUGHT) as [->|_]; [exfalso; apply Hzero; left|].
  simpl. f_equal. apply IH; intros Hin; [apply Hpi | apply Hhat | apply Hzero];
    right; exact Hin.
Qed.

(** None of the three glyphs is left in the result. *)
Lemma replace_symbols_clean (expression : pystr) (c : N) :
  c ∈ replace_symbols expression -> c <> PI /\ c <> 94%N /\ c <> NAUGHT.
Proof.
  unfold replace_symbols.
  induction expression as [|x rest IH]; simpl; intros Hin.
  - apply elem_of_nil in Hin. contradiction.
  - apply elem_of_app in Hin. destruct Hin as [Hin|Hin]; [|exact (IH Hin)].
    destruct (N.eqb_spec x PI) as [->|Hpi].
    { apply list_elem_of_In in Hin. simpl in Hin.
      destruct Hin as [<-|[<-|[]]]; repeat split; discriminate. }
    destruct (N.eqb_spec x 94) as [->|Hhat].
    { apply list_elem_of_In in Hin. simpl in Hin.
      destruct Hin as [<-|[<-|[]]]; repeat split; discriminate. }
    destruct (N.eqb_spec x NAUGHT) as [->|Hzero].
    { apply list_elem_of_In in Hin. simpl in Hin.
      destruct Hin as [<-|[]]; repeat split; discriminate. }
    apply list_elem_of_singleton in Hin. subst c. repeat split; assumption.
Qed.

(** [replace_symbols] leaves none of [π], [^] and [₀] in its result, works
    piece by piece, changes nothing in a text without the three glyphs,
    and so changes nothing when applied a second time. *)
Theorem replace_symbols_normalises (expression other : pystr) :
  (PI ∉ replace_symbols expression)
  /\ (94%N ∉ replace_symbols expression)
  /\ (NAUGHT ∉ replace_symbols expression)
  /\ replace_symbols (expression ++ other)
     = replace_symbols expression ++ replace_symbols other
  /\ (PI ∉ expression -> 94%N ∉ expression -> NAUGHT ∉ expression ->
      replace_symbols expression = expression)
  /\ replace_symbols (replace_symbols expression) = replace_symbols expression.
Proof.
  assert (Hclean : (PI ∉ replace_symbols expression)
                   /\ (94%N ∉ replace_symbols expression)
                   /\ (NAUGHT ∉ replace_symbols expression)).
  { repeat split; intros Hin; apply replace_symbols_clean in Hin;
      destruct Hin as (H1 & H2 & H3); congruence. }
  destruct Hclean as (H1 & H2 & H3).
  repeat (split; [assumption|]).
  split; [unfold replace_symbols; apply flat_map_app|].
  split; [apply replace_symbols_plain|].
  apply replace_symbols_plain; assumption.
Qed.

(** On the Bessel model of the source: [j₀*(2*π*v*t)]. *)
Lemma replace_symbols_normalises_witness :
  replace_symbols (u "j" ++ [NAUGHT] ++ u "*(2*" ++ [PI] ++ u "*v*t)^2")
    = u "j0*(2*pi*v*t)**2"
  /\ replace_symbols (u "a*t+b") = u "a*t+b".
Proof.
  destruct (replace_symbols_normalises (u "a*t+b") []) as (_ & _ & _ & _ & Hplain & _).
  split; [reflexivity|].
  apply Hplain; vm_compute; intros Hin; apply list_elem_of_In in Hin; simpl in Hin;
    repeat (destruct Hin as [Hin|Hin]; [discriminate|]); exact Hin.
Defined.

(** [_shortened_run_id] returns the part of the identifier before its
    first ["-"]: a prefix without ["-"], followed in the identifier by
    nothing or by a ["-"]; an identifier without ["-"] is returned whole,
    and shortening twice is shortening once. *)
Theorem shortened_run_id_prefix (run_id : pystr) :
  (45%N ∉ _shortened_run_id run_id)
  /\ (exists rest : pystr,
        run_id = _shortened_run_id run_id ++ rest
        /\ (rest = [] \/ exists rest', rest = 45%N :: rest'))
  /\ (45%N ∉ run_id -> _shortened_run_id run_id = run_id)
  /\ _shortened_run_id (_shortened_run_id run_id) = _shortened_run_id run_id.
Proof.
  assert (Hplain : forall s : pystr, 45%N ∉ s -> _shortened_run_id s = s).
  { induction s as [|c s IH]; intros Hno; [reflexivity|].
    simpl. destruct (N.eqb_spec c 45) as [->|_]; [exfalso; apply Hno; left|].
    f_equal. apply IH. intros Hin. apply Hno. right. exact Hin. }
  assert (Hclean : 45%N ∉ _shortened_run_id run_id).
  { induction run_id as [|c s IH]; simpl.
    - intros Hin. apply elem_of_nil in Hin. exact Hin.
    - destruct (N.eqb_spec c 45) as [->|Hne].
      + intros Hin. apply elem_of_nil in Hin. exact Hin.
      + intros Hin. apply elem_of_cons in Hin. destruct Hin as [Heq|Hin];
          [congruence | exact (IH Hin)]. }
  split; [exact Hclean|]. split; [|split; [apply Hplain | apply Hplain; exact Hclean]].
  clear. induction run_id as [|c s IH]; simpl.
  - exists []. split; [reflexivity | left; reflexivity].
  - destruct (N.eqb_spec c 45) as [->|Hne].
    + exists (45%N :: s). split; [reflexivity | right; exists s; reflexivity].
    + destruct IH as (rest & Heq & Hrest). exists rest.
      split; [simpl; f_equal; exact Heq | exact Hrest].
Qed.

Lemma shortened_run_id_prefix_witness :
  _shortened_run_id (u "6515-a-2019") = u "6515"
  /\ _shortened_run_id (u "data1") = u "data1".
Proof.
  destruct (shortened_run_id_prefix (u "data1")) as (_ & _ & Hplain & _).
  split; [reflexivity|].
  apply Hplain. vm_compute. intros Hin. apply list_elem_of_In in Hin. simpl in Hin.
  repeat (destruct Hin as [Hin|Hin]; [discriminate|]). exact Hin.
Defined.

End SymbolFacts.

(** ** The vectors of a fit specification *)

Module FitSpecFacts.
Import Fit.
Import Terms Examples.

(** The number of entries of [global_fit_expand] does not depend on what
    is appended. *)
Lemma length_global_fit_expand {A B : Type} (spec : FitSpec)
    (per_run : pystr -> FitVar -> pystr -> A) (shared : pystr -> FitVar -> A)
    (per_run' : pystr -> FitVar -> pystr -> B) (shared' : pystr -> FitVar -> B) :
  length (global_fit_expand spec per_run shared)
  = length (global_fit_expand spec per_run' shared').
Proof.
  unfold global_fit_expand.
  induction (variables spec) as [|[k v] vars IH]; [reflexivity|].
  simpl. rewrite !length_app, IH. f_equal.
  destruct (is_fixed v); [reflexivity|].
  destruct (is_global v); simpl; [reflexivity|].
  rewrite !length_map. reflexivity.
Qed.

(** The number of unknowns of the global fit: one per free global
    variable, one per run for each free variable that is not global. *)
Lemma length_global_fit_symbols (spec : FitSpec) :
  length (get_global_fit_symbols spec)
  = (length (filter (fun v => is_fixed v = false /\ is_global v = true)
                    (dict_values (variables spec)))
     + length (asymmetries spec)
       * length (filter (fun v => is_fixed v = false /\ is_global v = false)
                        (dict_values (variables spec))))%nat.
Proof.
  unfold get_global_fit_symbols, global_fit_expand, dict_values.
  induction (variables spec) as [|[k v] vars IH]; [simpl; lia|].
  simpl. rewrite length_app, IH, !filter_cons. simpl.
  destruct (is_fixed v), (is_global v); simpl;
    repeat (destruct (decide _) as [[? ?]|Hno];
            try discriminate;
            try (exfalso; apply Hno; split; reflexivity));
    simpl; rewrite ?length_map; lia.
Qed.

(** The vectors handed to the optimizer line up: in the global fit the
    symbols, guesses, lower and upper bounds have one length, which is the
    number of free global variables plus the number of runs times the
    number of free per-run variables; in the per-run fit the symbols,
    guesses and bounds of the free variables have one length; and the
    fixed symbols have as many values. *)
Theorem fit_vectors_line_up (spec : FitSpec) :
  length (get_global_fit_guesses spec) = length (get_global_fit_symbols spec)
  /\ length (get_global_fit_lowers spec) = length (get_global_fit_symbols spec)
  /\ length (get_global_fit_uppers spec) = length (get_global_fit_symbols spec)
  /\ length (get_global_fit_symbols spec)
     = (length (filter (fun v => is_fixed v = false /\ is_global v = true)
                       (dict_values (variables spec)))
        + length (asymmetries spec)
          * length (filter (fun v => is_fixed v = false /\ is_global v = false)
                           (dict_values (variables spec))))%nat
  /\ length (get_unfixed_guesses spec) = length (get_unfixed_symbols spec)
  /\ length (get_unfixed_lower_bounds spec) = length (get_unfixed_symbols spec)
  /\ length (get_unfixed_upper_bounds spec) = length (get_unfixed_symbols spec)
  /\ length (get_fixed_guesses spec) = length (get_fixed_symbols spec).
Proof.
  repeat split;
    try apply length_global_fit_expand;
    try apply length_global_fit_symbols;
    unfold get_unfixed_guesses, get_unfixed_symbols, get_unfixed_lower_bounds,
      get_unfixed_upper_bounds, get_fixed_guesses, get_fixed_symbols;
    rewrite !length_map; reflexivity.
Qed.

(** *** The set of unknowns *)

(** The loop of [get_global_fit_variable_set] over variables that are found
    under their symbols. *)
Lemma variable_set_loop (spec : FitSpec) (vs : list FitVar) (acc : gset pystr) :
  (forall v, v ∈ vs -> dict_get (variables spec) (symbol v) = Some v) ->
  for_each
    (fun (symbols : gset pystr) (var : pystr) =>
       v ← or_raise KeyError (dict_get (variables spec) var);
       if is_fixed v then Ok symbols
       else Ok (symbols
                ∪ list_to_set
                    (map (fun ra : pystr * Asymmetry => var ++ _shortened_run_id ra.1)
                         (asymmetries spec))))
    (map symbol vs) acc
  = Ok (acc ∪ list_to_set (flat_map (per_run_names spec) vs)).
Proof.
  revert acc. induction vs as [|v vs IH]; intros acc Hfound.
  - simpl. f_equal. set_solver.
  - simpl. rewrite (Hfound v) by left. cbn [or_raise mbind result_mbind bind].
    unfold per_run_names at 1.
    destruct (is_fixed v); cbn [bind]; rewrite IH
      by (intros w Hw; apply Hfound; right; exact Hw);
      f_equal; rewrite ?list_to_set_app_L; set_solver.
Qed.

(** The names listed by [get_global_fit_symbols], as a set, when every
    variable is filed under its symbol. *)
Lemma global_fit_symbols_set (spec : FitSpec) :
  (forall k v, (k, v) ∈ variables spec -> symbol v = k) ->
  (list_to_set (get_global_fit_symbols spec) : gset pystr)
  = list_to_set
      (flat_map (per_run_names spec)
         (filter (fun v => is_global v = false) (dict_values (variables spec))))
    ∪ list_to_set (get_global_symbols spec).
Proof.
  unfold get_global_fit_symbols, get_global_symbols, global_fit_expand, dict_values.
  induction (variables spec) as [|[k v] vars IH]; intros Hkeys.
  - simpl. set_solver.
  - assert (Hk : symbol v = k) by (apply Hkeys; left).
    assert (IH' := IH (fun k' v' Hin =>
                         Hkeys k' v' (proj2 (elem_of_cons _ _ _) (or_intror Hin)))).
    clear IH. simpl. rewrite !filter_cons. simpl.
    rewrite list_to_set_app_L, IH'. subst k.
    assert (Hnames : per_run_names spec v
                     = if is_fixed v then []
                       else map (fun ra : pystr * Asymmetry =>
                                   symbol v ++ _shortened_run_id ra.1)
                                (asymmetries spec)) by reflexivity.
    destruct (is_fixed v) eqn:Hf, (is_global v) eqn:Hg; simpl;
      repeat (destruct (decide _) as [Hyes|Hno];
              try (destruct Hyes; discriminate);
              try discriminate;
              try (exfalso; apply Hno; try split; reflexivity));
      simpl; rewrite ?list_to_set_app_L, ?Hnames; set_solver.
Qed.

(** When every variable is filed under its symbol and no symbol is used
    twice, [get_global_fit_variable_set] returns, and returns the set of
    the names that [get_global_fit_symbols] lists. *)
Theorem global_fit_variable_set_agrees (spec : FitSpec) :
  (forall k v, (k, v) ∈ variables spec -> symbol v = k) ->
  NoDup (dict_keys (variables spec)) ->
  get_global_fit_variable_set spec = Ok (list_to_set (get_global_fit_symbols spec)).
Proof.
  intros Hkeys Hnd. unfold get_global_fit_variable_set, get_non_global_symbols.
  rewrite variable_set_loop.
  - cbn [mbind result_mbind bind]. f_equal.
    rewrite global_fit_symbols_set by exact Hkeys. set_solver.
  - intros v Hv. apply list_elem_of_filter in Hv. destruct Hv as [_ Hv].
    unfold dict_values in Hv. apply list_elem_of_fmap in Hv.
    destruct Hv as ([k v'] & Heq & Hin). simpl in Heq. subst v'.
    rewrite (Hkeys k v Hin).
    apply FitEngineFacts.dict_get_of_entry; assumption.
Qed.

(** A specification that files a per-run variable under another name than
    its symbol makes the method raise [KeyError]. *)
Example global_fit_variable_set_misfiled :
  get_global_fit_variable_set
    {| function := u "t + a"; variables := [(u "A", free_variable_a)];
       asymmetries := []; options := per_run_options |}
  = Raise KeyError.
Proof. reflexivity. Qed.

Lemma global_fit_variable_set_agrees_witness :
  get_global_fit_variable_set colliding_spec
  = Ok (list_to_set (get_global_fit_symbols colliding_spec))
  /\ get_global_fit_symbols colliding_spec = [u "a1"].
Proof.
  split; [|reflexivity].
  apply global_fit_variable_set_agrees.
  - intros k v Hin. apply list_elem_of_In in Hin. simpl in Hin.
    destruct Hin as [Heq|[Heq|[]]]; injection Heq as <- <-; reflexivity.
  - vm_compute. repeat constructor.
    + intros Hin. apply list_elem_of_In in Hin. simpl in Hin.
      destruct Hin as [Heq|[]]. discriminate.
    + intros Hin. apply elem_of_nil in Hin. exact Hin.
Defined.

End FitSpecFacts.

(** ** What the fit engine returns *)

Module FitRunFacts.
Import Fit.
Import Terms Examples.

(** [fit] refuses a specification without a dataset and one without a
    model, whatever the rest of it is; with least squares switched off it
    fits nothing and returns [None]; and whenever it returns a dataset,
    the model is not empty, there is a dataset, and the dataset is the one
    of the global or of the per-run engine as the option [GLOBAL] says. *)
Theorem fit_guards `{Unicode} `{Sympy} `{Scipy} `{Domain} (spec : FitSpec) :
  (asymmetries spec = [] -> fit spec = Raise ValueError)
  /\ (function spec = [] -> fit spec = Raise ValueError)
  /\ (options spec LEAST_SQUARES = false ->
      fit spec = Raise ValueError \/ fit spec = Ok None)
  /\ (forall d : FitDataset,
        fit spec = Ok (Some d) ->
        function spec <> [] /\ asymmetries spec <> []
        /\ options spec LEAST_SQUARES = true
        /\ (if options spec GLOBAL
            then _least_squares_fit_global spec = Ok d
            else _least_squares_fit_non_global spec = Ok d)).
Proof.
  unfold fit, lengths_seen, get_data. split; [|split; [|split]].
  - intros ->. reflexivity.
  - intros Hf. destruct (negb _); [reflexivity|].
    rewrite bool_decide_eq_true_2 by exact Hf. reflexivity.
  - intros Hls. destruct (negb _); [left; reflexivity|].
    destruct (bool_decide _); [left; reflexivity|].
    rewrite Hls. destruct (options spec GLOBAL); right; reflexivity.
  - intros d Hd.
    destruct (asymmetries spec) as [|ra runs] eqn:Hruns; [discriminate|].
    destruct (negb _); [discriminate|].
    destruct (bool_decide (function spec = [])) eqn:Hf; [discriminate|].
    apply bool_decide_eq_false in Hf.
    split; [exact Hf|]. split; [discriminate|].
    destruct (options spec GLOBAL), (options spec LEAST_SQUARES);
      try discriminate; split; try reflexivity.
    + destruct (_least_squares_fit_global spec) as [d'|];
        cbn [mbind result_mbind bind] in Hd; [|discriminate].
      injection Hd as <-. reflexivity.
    + destruct (_least_squares_fit_non_global spec) as [d'|];
        cbn [mbind result_mbind bind] in Hd; [|discriminate].
      injection Hd as <-. reflexivity.
Qed.

Lemma fit_guards_witness :
  fit (H := Standin.unicode) (H0 := Standin.sympy) (H1 := Standin.scipy)
      (H2 := Standin.domain)
      {| function := []; variables := variables unequal_spec;
         asymmetries := asymmetries unequal_spec; options := per_run_options |}
  = Raise ValueError
  /\ fit (H := Standin.unicode) (H0 := Standin.sympy) (H1 := Standin.scipy)
         (H2 := Standin.domain)
         {| function := u "t + a"; variables := variables unequal_spec;
            asymmetries := []; options := per_run_options |}
     = Raise ValueError.
Proof.
  split.
  - destruct (fit_guards (H := Standin.unicode) (H0 := Standin.sympy)
                (H1 := Standin.scipy) (H2 := Standin.domain)
                {| function := []; variables := variables unequal_spec;
                   asymmetries := asymmetries unequal_spec;
                   options := per_run_options |}) as (_ & Hfun & _).
    apply Hfun. reflexivity.
  - destruct (fit_guards (H := Standin.unicode) (H0 := Standin.sympy)
                (H1 := Standin.scipy) (H2 := Standin.domain)
                {| function := u "t + a"; variables := variables unequal_spec;
                   asymmetries := []; options := per_run_options |})
      as (Hruns & _).
    apply Hruns. reflexivity.
Defined.

(** *** A per-run fit without free variables *)

(** With every variable fixed the per-run fit does not consult the
    optimizer: it returns the same with any solver, and every fit it
    returns carries the variables as they are stored. *)
Theorem non_global_fit_all_fixed `{Unicode} `{Sympy} `{Domain}
    (solver other_solver : Scipy) (spec : FitSpec) :
  get_unfixed_symbols spec = [] ->
  _least_squares_fit_non_global (H1 := solver) spec
  = _least_squares_fit_non_global (H1 := other_solver) spec
  /\ forall (d : FitDataset) (run : pystr) (f : Fit),
       _least_squares_fit_non_global (H1 := solver) spec = Ok d ->
       (run, f) ∈ fits d ->
       fit_variables f = variables spec /\ kwargs f = [].
Proof.
  intros Hfree. split.
  - unfold _least_squares_fit_non_global. rewrite !Hfree. reflexivity.
  - intros d run f Hrun Hf.
    unfold _least_squares_fit_non_global in Hrun. rewrite !Hfree in Hrun.
    cbn [length Nat.eqb negb] in Hrun.
    destruct (lambdify (fitted_function spec) _ _) as [lam|];
      cbn [mbind result_mbind bind] in Hrun; [|discriminate].
    match type of Hrun with
    | context [for_each ?body ?l []] =>
        destruct (for_each body l []) as [fs|] eqn:Hloop;
          cbn [mbind result_mbind bind] in Hrun; [|discriminate]
    end.
    injection Hrun as <-. simpl in Hf.
    refine (FitEngineFacts.for_each_entries
              (fun f' : Fit => fit_variables f' = variables spec /\ kwargs f' = [])
              _ _ _ _ _ Hloop _ (run, f) Hf).
    + intros acc acc' ra Hbody Hacc kv Hkv.
      rewrite FitEngineFacts.copy_variables_same in Hbody.
      cbn [mbind result_mbind bind] in Hbody.
      destruct (lambdify _ _ _) as [lam'|];
        cbn [mbind result_mbind bind] in Hbody; [|discriminate].
      destruct (run_title _) as [t|];
        cbn [mbind result_mbind bind] in Hbody; [|discriminate].
      injection Hbody as <-. destruct kv as [k' f'].
      apply FitEngineFacts.entry_of_dict_set in Hkv.
      destruct Hkv as [Heq|Hold]; [|exact (Hacc _ Hold)].
      injection Heq as -> ->. simpl. split; [reflexivity|].
      (* no variable is free, so [kwargs] stays empty *)
      clear -Hfree. unfold get_unfixed_symbols in Hfree.
      apply fmap_nil_inv in Hfree. unfold dict_values in *.
      induction (variables spec) as [|[k v] vars IH]; [reflexivity|].
      simpl in *. rewrite filter_cons in Hfree.
      destruct (is_fixed v) eqn:Hv.
      * destruct (decide _) as [Hyes|_] in Hfree; [discriminate|]. apply IH. exact Hfree.
      * destruct (decide _) as [_|Hno] in Hfree; [discriminate|].
        exfalso. apply Hno. reflexivity.
    + intros kv Hkv. apply elem_of_nil in Hkv. contradiction.
Qed.

(** *** What the per-run fit stores *)

(** A loop that stores entries keeps a property of the stored entries that
    every entry stored for an element of the list has. *)
Lemma for_each_entries_in {A V : Type} (P : pystr -> V -> Prop)
    (body : dict pystr V -> A -> result (dict pystr V)) (l : list A)
    (acc0 acc : dict pystr V) :
  (forall (d d' : dict pystr V) (x : A),
      x ∈ l -> body d x = Ok d' ->
      (forall k v, (k, v) ∈ d -> P k v) -> forall k v, (k, v) ∈ d' -> P k v) ->
  for_each body l acc0 = Ok acc ->
  (forall k v, (k, v) ∈ acc0 -> P k v) ->
  forall k v, (k, v) ∈ acc -> P k v.
Proof.
  revert acc0. induction l as [|x l IH]; intros acc0 Hbody Hrun H0.
  - simpl in Hrun. injection Hrun as <-. exact H0.
  - simpl in Hrun. destruct (body acc0 x) as [d'|] eqn:Hx; [|discriminate].
    simpl in Hrun. apply (IH d'); [|exact Hrun|].
    + intros d1 d2 y Hy. apply Hbody. right. exact Hy.
    + apply (Hbody acc0 d' x); [left | exact Hx | exact H0].
Qed.

(** A loop that stores an entry under the key of each element ends with an
    entry under the key of every element. *)
Lemma for_each_keys {A V : Type} (key : A -> pystr)
    (body : dict pystr V -> A -> result (dict pystr V)) (l : list A)
    (acc0 acc : dict pystr V) :
  (forall (d d' : dict pystr V) (x : A),
      body d x = Ok d' ->
      is_Some (dict_get d' (key x))
      /\ forall k, is_Some (dict_get d k) -> is_Some (dict_get d' k)) ->
  for_each body l acc0 = Ok acc ->
  forall x, x ∈ l -> is_Some (dict_get acc (key x)).
Proof.
  intros Hbody. revert acc0.
  assert (Hkeep : forall l' a0 a1, for_each body l' a0 = Ok a1 ->
                  forall k, is_Some (dict_get a0 k) -> is_Some (dict_get a1 k)).
  { induction l' as [|y l' IH]; intros a0 a1 Hrun k Hk.
    - simpl in Hrun. injection Hrun as <-. exact Hk.
    - simpl in Hrun. destruct (body a0 y) as [d'|] eqn:Hy; [|discriminate].
      simpl in Hrun. apply (IH _ _ Hrun). exact (proj2 (Hbody _ _ _ Hy) k Hk). }
  induction l as [|y l IH]; intros acc0 Hrun x Hx.
  - apply elem_of_nil in Hx. contradiction.
  - simpl in Hrun. destruct (body acc0 y) as [d'|] eqn:Hy; [|discriminate].
    simpl in Hrun. apply elem_of_cons in Hx. destruct Hx as [->|Hx].
    + apply (Hkeep _ _ _ Hrun). exact (proj1 (Hbody _ _ _ Hy)).
    + apply (IH _ Hrun). exact Hx.
Qed.

Lemma dict_get_entry {V : Type} (d : dict pystr V) (k : pystr) (v : V) :
  dict_get d k = Some v -> (k, v) ∈ d.
Proof.
  induction d as [|[k0 v0] d IH]; simpl; [discriminate|].
  destruct (decide (k0 = k)) as [->|_].
  - intros Heq. injection Heq as ->. left.
  - intros Hget. right. apply IH. exact Hget.
Qed.

(** Writing back after the optimizer: the variable under the [i]-th symbol
    receives the [i]-th value. *)
Lemma scatter_set_value_result (l : list (nat * pystr)) (x : list float)
    (d0 d : dict pystr FitVar) :
  for_each
    (fun t (p : nat * pystr) =>
       xi ← or_raise IndexError (x !! p.1); set_value t p.2 xi) l d0 = Ok d ->
  NoDup (map snd l) ->
  forall (i : nat) (s : pystr),
    (i, s) ∈ l ->
    exists (v : FitVar) (xi : float),
      dict_get d0 s = Some v /\ x !! i = Some xi
      /\ dict_get d s = Some (with_value v xi).
Proof.
  revert d0. induction l as [|[i0 s0] l IH]; intros d0 Hrun Hnd i s Hin.
  - apply elem_of_nil in Hin. contradiction.
  - simpl in Hnd. apply NoDup_cons in Hnd. destruct Hnd as [Hfresh Hnd].
    simpl in Hrun. destruct (x !! i0) as [xi0|] eqn:Hx0; [|discriminate].
    cbn [or_raise mbind result_mbind bind] in Hrun.
    unfold set_value in Hrun. destruct (dict_get d0 s0) as [v0|] eqn:Hv0; [|discriminate].
    cbn [or_raise mbind result_mbind bind] in Hrun.
    apply elem_of_cons in Hin. destruct Hin as [Heq|Hin].
    + injection Heq as -> ->. exists v0, xi0.
      split; [exact Hv0|]. split; [exact Hx0|].
      rewrite (FitEngineFacts.scatter_set_value_frame _ _ _ _ s0 Hrun Hfresh).
      apply DictFacts.dict_get_set_eq.
    + destruct (IH _ Hrun Hnd i s Hin) as (v & xi & Hv & Hxi & Hd).
      exists v, xi. split; [|split; [exact Hxi | exact Hd]].
      rewrite DictFacts.dict_get_set_ne in Hv; [exact Hv|].
      intros ->. apply Hfresh. apply list_elem_of_fmap. exists (i, s). split; [reflexivity|exact Hin].
Qed.

Lemma imap_pair_lookup {A : Type} (l : list A) (i : nat) (s : A) :
  l !! i = Some s -> (i, s) ∈ imap (fun (j : nat) (x : A) => (j, x)) l.
Proof.
  intros Hl. apply list_elem_of_lookup. exists i.
  rewrite list_lookup_imap, Hl. reflexivity.
Qed.

(** In a specification whose variables are filed under their symbols, with
    no symbol twice, the symbols of the free variables are distinct. *)
Lemma NoDup_unfixed_symbols (spec : FitSpec) :
  (forall k v, (k, v) ∈ variables spec -> symbol v = k) ->
  NoDup (dict_keys (variables spec)) ->
  NoDup (get_unfixed_symbols spec).
Proof.
  unfold get_unfixed_symbols, dict_keys, dict_values.
  induction (variables spec) as [|[k v] vars IH]; intros Hkeys Hnd.
  - constructor.
  - simpl in *. apply NoDup_cons in Hnd. destruct Hnd as [Hfresh Hnd].
    assert (IH' : NoDup (map symbol (filter (fun v => is_fixed v = false) (map snd vars)))).
    { apply IH; [|exact Hnd]. intros k' v' Hin. apply Hkeys. right. exact Hin. }
    rewrite filter_cons. destruct (decide _) as [_|_]; [|exact IH'].
    simpl. apply NoDup_cons. split; [|exact IH'].
    intros Hin. apply list_elem_of_fmap in Hin. destruct Hin as (v' & Hsym & Hv').
    apply list_elem_of_filter in Hv'. destruct Hv' as [_ Hv'].
    apply list_elem_of_fmap in Hv'. destruct Hv' as ([k' v''] & Heq & Hin').
    simpl in Heq. subst v''.
    assert (symbol v' = k') by (apply Hkeys; right; exact Hin').
    assert (symbol v = k) by (apply Hkeys; left).
    apply Hfresh. apply list_elem_of_fmap. exists (k', v'). split; [simpl; congruence|exact Hin'].
Qed.

(** The per-run fit stores, under the identifier of a run of the
    specification, a fit labelled with that identifier and the model; when
    there are free variables, the optimizer was run on the time,
    asymmetry and uncertainty of that run from the stored guesses and
    bounds, and the [i]-th free variable carries the [i]-th value of its
    answer; every run of the specification has its fit. *)
Theorem non_global_fit_writes_back `{Unicode} `{Sympy} `{Scipy} `{Domain}
    (spec : FitSpec) (d : FitDataset) :
  _least_squares_fit_non_global spec = Ok d ->
  (forall k v, (k, v) ∈ variables spec -> symbol v = k) ->
  NoDup (dict_keys (variables spec)) ->
  dataset_function d = Some (function spec)
  /\ (forall ra, ra ∈ asymmetries spec -> is_Some (dict_get (fits d) ra.1))
  /\ forall (run : pystr) (f : Fit),
       (run, f) ∈ fits d ->
       run_id f = Some run
       /\ expression_as_string f = Some (function spec)
       /\ exists a : Asymmetry,
            (run, a) ∈ asymmetries spec
            /\ (get_unfixed_symbols spec <> [] ->
                exists (lam : Lambda) (opt_x : list float),
                  lambdify (fitted_function spec) (get_unfixed_symbols spec)
                    INDEPENDENT_VARIABLE = Ok lam
                  /\ least_squares
                       (fun pars => _residual (call_array_positional lam) pars
                                      (time a) (asymmetry a) (uncertainty a))
                       (get_unfixed_guesses spec)
                       (get_unfixed_lower_bounds spec, get_unfixed_upper_bounds spec)
                     = Ok opt_x
                  /\ forall (i : nat) (v : FitVar),
                       filter (fun v => is_fixed v = false)
                              (dict_values (variables spec)) !! i = Some v ->
                       exists xi : float,
                         opt_x !! i = Some xi
                         /\ dict_get (fit_variables f) (symbol v)
                            = Some (with_value v xi)).
Proof.
  intros Hrun Hkeys Hnd.
  unfold _least_squares_fit_non_global in Hrun.
  destruct (lambdify (fitted_function spec) _ _) as [lam|] eqn:Hlam;
    cbn [mbind result_mbind bind] in Hrun; [|discriminate].
  match type of Hrun with
  | context [for_each ?body ?l []] =>
      destruct (for_each body l []) as [fs|] eqn:Hloop;
        cbn [mbind result_mbind bind] in Hrun; [|discriminate]
  end.
  injection Hrun as <-. simpl. split; [reflexivity|]. split.
  - intros ra Hra.
    refine (for_each_keys fst _ _ _ _ _ Hloop ra Hra).
    intros acc acc' x Hbody. cbv beta zeta in Hbody.
    rewrite FitEngineFacts.copy_variables_same in Hbody.
    match type of Hbody with
    | context [mbind _ ?m] =>
        destruct m as [fv|] eqn:Hfv; cbn [mbind result_mbind bind] in Hbody; [|discriminate]
    end.
    destruct (lambdify (_replace_fixed _ _ _) _ _) as [lam'|];
      cbn [mbind result_mbind bind] in Hbody; [|discriminate].
    destruct (run_title _) as [t|];
      cbn [mbind result_mbind bind] in Hbody; [|discriminate].
    injection Hbody as <-. split.
    + rewrite DictFacts.dict_get_set_eq. eexists. reflexivity.
    + intros k Hk. rewrite DictFacts.dict_get_set.
      destruct (decide _); [eexists; reflexivity | exact Hk].
  - intros run f Hf.
    refine (for_each_entries_in
              (fun (run : pystr) (f : Fit) =>
                 run_id f = Some run
                 /\ expression_as_string f = Some (function spec)
                 /\ exists a : Asymmetry,
                      (run, a) ∈ asymmetries spec
                      /\ (get_unfixed_symbols spec <> [] ->
                          exists (lam0 : Lambda) (opt_x : list float),
                            Ok lam = Ok lam0
                            /\ least_squares
                                 (fun pars => _residual (call_array_positional lam0) pars
                                                (time a) (asymmetry a) (uncertainty a))
                                 (get_unfixed_guesses spec)
                                 (get_unfixed_lower_bounds spec,
                                  get_unfixed_upper_bounds spec)
                               = Ok opt_x
                            /\ forall (i : nat) (v : FitVar),
                                 filter (fun v => is_fixed v = false)
                                        (dict_values (variables spec)) !! i = Some v ->
                                 exists xi : float,
                                   opt_x !! i = Some xi
                                   /\ dict_get (fit_variables f) (symbol v)
                                      = Some (with_value v xi)))
              _ _ _ _ _ Hloop _ run f Hf).
    + intros acc acc' [rid a] Hra Hbody Hacc k f' Hkf.
      rewrite FitEngineFacts.copy_variables_same in Hbody. simpl in Hbody.
      match type of Hbody with
      | context [mbind _ ?m] =>
          destruct m as [fv|] eqn:Hfv;
            cbn [mbind result_mbind bind] in Hbody; [|discriminate]
      end.
      destruct (lambdify (_replace_fixed _ _ _) _ _) as [lam'|];
        cbn [mbind result_mbind bind] in Hbody; [|discriminate].
      destruct (run_title _) as [t|];
        cbn [mbind result_mbind bind] in Hbody; [|discriminate].
      injection Hbody as <-.
      apply FitEngineFacts.entry_of_dict_set in Hkf.
      destruct Hkf as [Heq|Hold]; [|exact (Hacc _ _ Hold)].
      injection Heq as -> ->. simpl.
      split; [reflexivity|]. split; [reflexivity|].
      exists a. split; [exact Hra|]. intros Hfree.
      destruct (negb (length (get_unfixed_symbols spec) =? 0)%nat) eqn:Hlen.
      * destruct (least_squares _ _ _) as [opt_x|] eqn:Hopt;
          cbn [mbind result_mbind bind] in Hfv; [|discriminate].
        exists lam, opt_x. split; [reflexivity|]. split; [exact Hopt|].
        intros i v Hv. unfold scatter in Hfv.
        destruct (scatter_set_value_result _ _ _ _ Hfv) with (i := i) (s := symbol v)
          as (v0 & xi & Hv0 & Hxi & Hd).
        { rewrite FitEngineFacts.snd_imap_pair.
          apply NoDup_unfixed_symbols; assumption. }
        { apply imap_pair_lookup. unfold get_unfixed_symbols.
          rewrite list_lookup_fmap, Hv. reflexivity. }
        exists xi. split; [exact Hxi|]. rewrite Hd. do 2 f_equal.
        assert (Hin : v ∈ dict_values (variables spec)).
        { apply list_elem_of_lookup_2 in Hv.
          apply list_elem_of_filter in Hv. destruct Hv as [_ Hv]. exact Hv. }
        unfold dict_values in Hin. apply list_elem_of_fmap in Hin.
        destruct Hin as ([k' v'] & Heq & Hin). simpl in Heq. subst v'.
        rewrite (Hkeys _ _ Hin) in Hv0.
        rewrite (FitEngineFacts.dict_get_of_entry _ _ _ Hnd Hin) in Hv0.
        injection Hv0 as <-. reflexivity.
      * exfalso. apply Hfree. apply negb_false_iff, Nat.eqb_eq in Hlen.
        destruct (get_unfixed_symbols spec); [reflexivity|discriminate].
    + intros k v Hkv. apply elem_of_nil in Hkv. contradiction.
Qed.

(** The per-run fit of [t + a + c]: the run [r1] has its fit. *)
Lemma non_global_fit_writes_back_witness :
  exists d : FitDataset,
    _least_squares_fit_non_global (H := Standin.unicode) (H0 := Standin.sympy)
      (H1 := Standin.scipy) (H2 := Standin.domain) fixed_per_run_spec = Ok d
    /\ dataset_function d = Some (u "t + a + c")
    /\ is_Some (dict_get (fits d) (u "r1")).
Proof.
  eexists. split; [vm_compute; reflexivity|].
  destruct (non_global_fit_writes_back (H := Standin.unicode) (H0 := Standin.sympy)
              (H1 := Standin.scipy) (H2 := Standin.domain) fixed_per_run_spec _
              eq_refl) as (Hfun & Hall & _).
  - intros k v Hin. apply list_elem_of_In in Hin. simpl in Hin.
    destruct Hin as [Heq|[Heq|[]]]; injection Heq as <- <-; reflexivity.
  - vm_compute. repeat constructor.
    + intros Hin. apply list_elem_of_In in Hin. simpl in Hin.
      destruct Hin as [Heq|[]]. discriminate.
    + intros Hin. apply elem_of_nil in Hin. contradiction.
  - split; [exact Hfun|].
    apply (Hall (u "r1", dataset [1; 2; 3]%float)). left.
Defined.

(** With [c] the only variable, and fixed, a solver that refuses every
    problem gives what the midpoint solver gives. *)
Lemma non_global_fit_all_fixed_witness :
  _least_squares_fit_non_global (H := Standin.unicode) (H0 := Standin.sympy)
    (H1 := Standin.scipy) (H2 := Standin.domain) all_fixed_spec
  = _least_squares_fit_non_global (H := Standin.unicode) (H0 := Standin.sympy)
      (H1 := Standin.refusing_scipy) (H2 := Standin.domain) all_fixed_spec.
Proof.
  exact (proj1 (non_global_fit_all_fixed (H := Standin.unicode) (H0 := Standin.sympy)
                  (H1 := Standin.domain) Standin.scipy Standin.refusing_scipy
                  all_fixed_spec eq_refl)).
Defined.

(** *** What the global fit stores *)

Lemma global_scatter_frame (values : dict pystr float) (run : pystr)
    (l : list (pystr * FitVar)) (d0 d : dict pystr FitVar) (k : pystr) :
  for_each (global_scatter_step values run) l d0 = Ok d ->
  k ∉ map fst l ->
  dict_get d k = dict_get d0 k.
Proof.
  revert d0. induction l as [|[k0 v0] l IH]; intros d0 Hrun Hk.
  - simpl in Hrun. injection Hrun as <-. reflexivity.
  - simpl in Hrun.
    destruct (global_scatter_step values run d0 (k0, v0)) as [d1|] eqn:Hstep;
      [|discriminate].
    cbn [mbind result_mbind bind] in Hrun.
    rewrite (IH _ Hrun); [|intros Hin; apply Hk; simpl; right; exact Hin].
    unfold global_scatter_step, set_value in Hstep. simpl in Hstep.
    destruct (is_global v0); simpl in Hstep;
      (destruct (dict_get values _) as [x|];
         cbn [or_raise mbind result_mbind bind] in Hstep; [|discriminate];
       destruct (dict_get d0 k0) as [w|];
         cbn [or_raise mbind result_mbind bind] in Hstep; [|discriminate];
       injection Hstep as <-;
       apply DictFacts.dict_get_set_ne; intros ->; apply Hk; simpl; left).
Qed.

(** The loop over the variables of one run writes, under every key, the
    value that the optimizer's answer holds for it. *)
Lemma global_scatter_result (values : dict pystr float) (run : pystr)
    (l : list (pystr * FitVar)) (d0 d : dict pystr FitVar) :
  for_each (global_scatter_step values run) l d0 = Ok d ->
  NoDup (map fst l) ->
  forall (k : pystr) (v : FitVar),
    (k, v) ∈ l ->
    exists (v0 : FitVar) (x : float),
      dict_get d0 k = Some v0
      /\ dict_get values (if is_global v then k else k ++ _shortened_run_id run)
         = Some x
      /\ dict_get d k = Some (with_value v0 x).
Proof.
  revert d0. induction l as [|[k0 v0] l IH]; intros d0 Hrun Hnd k v Hin.
  - apply elem_of_nil in Hin. contradiction.
  - simpl in Hnd. apply NoDup_cons in Hnd. destruct Hnd as [Hfresh Hnd].
    simpl in Hrun.
    destruct (global_scatter_step values run d0 (k0, v0)) as [d1|] eqn:Hstep;
      [|discriminate].
    cbn [mbind result_mbind bind] in Hrun.
    assert (Hd1 : exists (w : FitVar) (x : float),
               dict_get d0 k0 = Some w
               /\ dict_get values
                    (if is_global v0 then k0 else k0 ++ _shortened_run_id run) = Some x
               /\ d1 = dict_set d0 k0 (with_value w x)).
    { unfold global_scatter_step, set_value in Hstep. simpl in Hstep.
      destruct (is_global v0); simpl in Hstep;
        (destruct (dict_get values _) as [x|];
           cbn [or_raise mbind result_mbind bind] in Hstep; [|discriminate];
         destruct (dict_get d0 k0) as [w|];
           cbn [or_raise mbind result_mbind bind] in Hstep; [|discriminate];
         injection Hstep as <-; exists w, x; repeat split; reflexivity). }
    destruct Hd1 as (w & x & Hw & Hx & ->).
    apply elem_of_cons in Hin. destruct Hin as [Heq|Hin].
    + injection Heq as -> ->. exists w, x.
      split; [exact Hw|]. split; [exact Hx|].
      rewrite (global_scatter_frame _ _ _ _ _ k0 Hrun Hfresh).
      apply DictFacts.dict_get_set_eq.
    + destruct (IH _ Hrun Hnd k v Hin) as (w' & x' & Hw' & Hx' & Hd).
      exists w', x'. split; [|split; [exact Hx' | exact Hd]].
      rewrite DictFacts.dict_get_set_ne in Hw'; [exact Hw'|].
      intros ->. apply Hfresh. apply list_elem_of_fmap. exists (k, v).
      split; [reflexivity|exact Hin].
Qed.

(** A global fit that succeeds ran the optimizer once, on the
    concatenated data, and filed its answer under the names of the
    unknowns; every run of the specification has its fit, labelled with the
    run and the model, in which a global variable carries the value filed
    under its key, the same for every run, and a per-run variable the
    value filed under its key followed by the shortened run identifier. *)
Theorem global_fit_writes_back `{Unicode} `{Sympy} `{Scipy} `{Domain}
    (spec : FitSpec) (d : FitDataset) :
  _least_squares_fit_global spec = Ok d ->
  NoDup (dict_keys (variables spec)) ->
  exists (model : list float -> list float -> result (list float))
         (opt_x : list float) (values : dict pystr float),
    _lambdify_global spec (flat_map (fun ra => time ra.2) (get_data spec)) = Ok model
    /\ least_squares
         (fun pars => _residual model pars
                        (flat_map (fun ra => time ra.2) (get_data spec))
                        (flat_map (fun ra => asymmetry ra.2) (get_data spec))
                        (flat_map (fun ra => uncertainty ra.2) (get_data spec)))
         (get_global_fit_guesses spec)
         (get_global_fit_lowers spec, get_global_fit_uppers spec) = Ok opt_x
    /\ scatter (fun vs s x => Ok (dict_set vs s x))
         (get_global_fit_symbols spec) opt_x [] = Ok values
    /\ (forall ra, ra ∈ asymmetries spec -> is_Some (dict_get (fits d) ra.1))
    /\ forall (run : pystr) (f : Fit),
         (run, f) ∈ fits d ->
         run_id f = Some run
         /\ expression_as_string f = Some (function spec)
         /\ forall (k : pystr) (v : FitVar),
              (k, v) ∈ variables spec ->
              exists x : float,
                dict_get values
                  (if is_global v then k else k ++ _shortened_run_id run) = Some x
                /\ dict_get (fit_variables f) k = Some (with_value v x).
Proof.
  intros Hrun Hnd. unfold _least_squares_fit_global in Hrun.
  destruct (_lambdify_global spec _) as [model|] eqn:Hmodel;
    cbn [mbind result_mbind bind] in Hrun; [|discriminate].
  destruct (least_squares _ _ _) as [opt_x|] eqn:Hopt;
    cbn [mbind result_mbind bind] in Hrun; [|discriminate].
  destruct (scatter _ (get_global_fit_symbols spec) opt_x []) as [values|] eqn:Hvalues;
    cbn [mbind result_mbind bind] in Hrun; [|discriminate].
  match type of Hrun with
  | context [for_each ?body ?l []] =>
      destruct (for_each body l []) as [fs|] eqn:Hloop;
        cbn [mbind result_mbind bind] in Hrun; [|discriminate]
  end.
  injection Hrun as <-. simpl.
  exists model, opt_x, values.
  split; [reflexivity|]. split; [exact Hopt|]. split; [exact Hvalues|]. split.
  - intros ra Hra.
    refine (for_each_keys fst _ _ _ _ _ Hloop ra Hra).
    intros acc acc' x Hbody. cbv beta zeta in Hbody.
    destruct (for_each (global_scatter_step values x.1) _ _) as [fv|];
      cbn [mbind result_mbind bind] in Hbody; [|discriminate].
    destruct (lambdify (function spec) _ _) as [lam'|];
      cbn [mbind result_mbind bind] in Hbody; [|discriminate].
    destruct (run_title _) as [t|];
      cbn [mbind result_mbind bind] in Hbody; [|discriminate].
    injection Hbody as <-. split.
    + rewrite DictFacts.dict_get_set_eq. eexists. reflexivity.
    + intros k Hk. rewrite DictFacts.dict_get_set.
      destruct (decide _); [eexists; reflexivity | exact Hk].
  - intros run f Hf.
    refine (for_each_entries_in
              (fun (run : pystr) (f : Fit) =>
                 run_id f = Some run
                 /\ expression_as_string f = Some (function spec)
                 /\ forall (k : pystr) (v : FitVar),
                      (k, v) ∈ variables spec ->
                      exists x : float,
                        dict_get values
                          (if is_global v then k else k ++ _shortened_run_id run)
                        = Some x
                        /\ dict_get (fit_variables f) k = Some (with_value v x))
              _ _ _ _ _ Hloop _ run f Hf).
    + intros acc acc' [rid a] Hra Hbody Hacc k f' Hkf.
      cbv beta zeta in Hbody.
      rewrite FitEngineFacts.copy_variables_same in Hbody. simpl in Hbody.
      destruct (for_each (global_scatter_step values rid) _ _) as [fv|] eqn:Hfv;
        cbn [mbind result_mbind bind] in Hbody; [|discriminate].
      destruct (lambdify (function spec) _ _) as [lam'|];
        cbn [mbind result_mbind bind] in Hbody; [|discriminate].
      destruct (run_title _) as [t|];
        cbn [mbind result_mbind bind] in Hbody; [|discriminate].
      injection Hbody as <-.
      apply FitEngineFacts.entry_of_dict_set in Hkf.
      destruct Hkf as [Heq|Hold]; [|exact (Hacc _ _ Hold)].
      injection Heq as -> ->. simpl.
      split; [reflexivity|]. split; [reflexivity|].
      intros k0 v0 Hin.
      destruct (global_scatter_result _ _ _ _ _ Hfv Hnd k0 v0 Hin)
        as (w & x & Hw & Hx & Hd).
      rewrite (FitEngineFacts.dict_get_of_entry _ _ _ Hnd Hin) in Hw.
      injection Hw as <-. exists x. split; [exact Hx | exact Hd].
    + intros k v Hkv. apply elem_of_nil in Hkv. contradiction.
Qed.

(** The global fit of [t + a + g] over the runs [r1] and [r2] succeeds and
    both runs have their fits. *)
Lemma global_fit_writes_back_witness :
  exists d : FitDataset,
    _least_squares_fit_global (H := Standin.unicode) (H0 := Standin.sympy)
      (H1 := Standin.scipy) (H2 := Standin.domain) shared_spec = Ok d
    /\ is_Some (dict_get (fits d) (u "r1"))
    /\ is_Some (dict_get (fits d) (u "r2")).
Proof.
  eexists. split; [vm_compute; reflexivity|].
  destruct (global_fit_writes_back (H := Standin.unicode) (H0 := Standin.sympy)
              (H1 := Standin.scipy) (H2 := Standin.domain) shared_spec _ eq_refl)
    as (model & opt_x & values & _ & _ & _ & Hall & _).
  - vm_compute. repeat constructor.
    + intros Hin. apply list_elem_of_In in Hin. simpl in Hin.
      destruct Hin as [Heq|[]]. discriminate.
    + intros Hin. apply elem_of_nil in Hin. contradiction.
  - split.
    + apply (Hall (u "r1", dataset [1; 2; 3]%float)). left.
    + apply (Hall (u "r2", dataset [4; 5; 6]%float)). right. left.
Defined.

End FitRunFacts.

(** ** The names [parse] returns *)

Module ParseNameFacts.
Import Fit.
Import Terms Examples.

Section Names.
Context `{Unicode}.
Variable w : pystr.

Lemma wellformed_nil : wellformed w [].
Proof. repeat split; try constructor. intros c rest Heq. discriminate. Qed.

Lemma wellformed_letter (n : pystr) (c : N) :
  wellformed w n -> c ∈ w -> isalpha c = true -> wellformed w (n ++ [c]).
Proof.
  intros (Hw & Han & Hhead) Hc Halpha. repeat split.
  - apply Forall_app. split; [exact Hw | apply Forall_singleton; exact Hc].
  - apply Forall_app. split; [exact Han | apply Forall_singleton; left; exact Halpha].
  - intros c0 rest Heq. destruct n as [|c1 n]; simpl in Heq.
    + injection Heq as <- _. exact Halpha.
    + injection Heq as <- _. apply (Hhead c1 n). reflexivity.
Qed.

Lemma wellformed_digit (n : pystr) (c : N) :
  wellformed w n -> n <> [] -> c ∈ w -> isdigit c = true -> wellformed w (n ++ [c]).
Proof.
  intros (Hw & Han & Hhead) Hne Hc Hdigit. repeat split.
  - apply Forall_app. split; [exact Hw | apply Forall_singleton; exact Hc].
  - apply Forall_app. split; [exact Han | apply Forall_singleton; right; exact Hdigit].
  - intros c0 rest Heq. destruct n as [|c1 n]; [contradiction|].
    simpl in Heq. injection Heq as <- _. apply (Hhead c1 n). reflexivity.
Qed.

(** The loop keeps the collected names and the name under construction
    well formed. *)
Lemma parse_loop_wellformed (s : pystr) (st : parse_state) :
  (forall c, c ∈ s -> c ∈ w) ->
  (forall n, n ∈ free_set st -> wellformed w n) ->
  wellformed w (free_variable st) ->
  (forall n, n ∈ free_set (parse_loop s st) -> wellformed w n)
  /\ wellformed w (free_variable (parse_loop s st)).
Proof.
  revert st. induction s as [|character rest IH]; intros st Hsw Hset Hvar.
  - simpl. split; assumption.
  - assert (Hrest : forall c, c ∈ rest -> c ∈ w)
      by (intros c Hc; apply Hsw; right; exact Hc).
    assert (Hchar : character ∈ w) by (apply Hsw; left).
    simpl. destruct (skip_chars st) as [|k] eqn:Hskip.
    + destruct (isspace character || in_operator_set character).
      { apply IH; [exact Hrest | | apply wellformed_nil].
        simpl. intros n Hn. apply elem_of_union in Hn. destruct Hn as [Hn|Hn].
        - apply Hset. exact Hn.
        - apply elem_of_singleton in Hn. subst n. exact Hvar. }
      destruct (isalpha character) eqn:Halpha.
      { destruct (alpha_branch _ _ _).
        - apply IH; [exact Hrest | exact Hset | exact Hvar].
        - apply IH; [exact Hrest | exact Hset | exact Hvar].
        - apply IH; [exact Hrest | exact Hset |].
          simpl. apply wellformed_letter; assumption. }
      destruct (isdigit character) eqn:Hdigit.
      { destruct (free_variable st) as [|c0 n0] eqn:Hfv.
        - apply IH; [exact Hrest | exact Hset | rewrite Hfv; apply wellformed_nil].
        - apply IH; [exact Hrest | exact Hset |].
          simpl free_variable.
          apply (wellformed_digit (c0 :: n0) character);
            [exact Hvar | discriminate | assumption..]. }
      apply IH; [exact Hrest | exact Hset | exact Hvar].
    + apply IH; [exact Hrest | exact Hset | exact Hvar].
Qed.

(** Without a blank or an operator the loop adds nothing to the set. *)
Lemma parse_loop_no_separator (s : pystr) (st : parse_state) :
  (forall c, c ∈ s -> isspace c = false /\ in_operator_set c = false) ->
  free_set (parse_loop s st) = free_set st.
Proof.
  revert st. induction s as [|character rest IH]; intros st Hs; [reflexivity|].
  assert (Hrest : forall c, c ∈ rest -> isspace c = false /\ in_operator_set c = false)
    by (intros c Hc; apply Hs; right; exact Hc).
  destruct (Hs character) as [Hspace Hop]; [left|].
  simpl. rewrite Hspace, Hop. simpl.
  destruct (skip_chars st); [|(rewrite (IH _ Hrest); reflexivity)].
  destruct (isalpha character).
  { destruct (alpha_branch _ _ _); (rewrite (IH _ Hrest); reflexivity). }
  destruct (isdigit character); [|(rewrite (IH _ Hrest); reflexivity)].
  destruct (free_variable st); (rewrite (IH _ Hrest); reflexivity).
Qed.

End Names.

(** Every name [parse] returns is an identifier made of characters of the
    input: it is not empty, starts with a letter and goes on with letters
    and digits. *)
Theorem parse_names_are_identifiers `{Unicode} (s : pystr) (names : gset pystr) :
  parse s = Ok names ->
  forall n : pystr,
    n ∈ names ->
    exists (c : N) (rest : pystr),
      n = c :: rest
      /\ isalpha c = true
      /\ Forall (fun d => isalpha d = true \/ isdigit d = true) rest
      /\ Forall (fun d => d ∈ s) n.
Proof.
  unfold parse. intros Hparse n Hn.
  destruct (bool_decide _); [|discriminate]. injection Hparse as <-.
  apply elem_of_difference in Hn. destruct Hn as [Hn Hne].
  assert (Hwf : Forall (fun d => d ∈ s) n
                /\ Forall (fun d => isalpha d = true \/ isdigit d = true) n
                /\ forall c rest, n = c :: rest -> isalpha c = true).
  { destruct (parse_loop_wellformed s s
                {| free_set := ∅; free_variable := []; skip_chars := 0 |})
      as [Hset Hvar].
    - intros c Hc. exact Hc.
    - simpl. intros n' Hn'. apply elem_of_empty in Hn'. contradiction.
    - apply wellformed_nil.
    - apply elem_of_union in Hn. destruct Hn as [Hn|Hn].
      + apply Hset. exact Hn.
      + apply elem_of_singleton in Hn. subst n. exact Hvar. }
  destruct Hwf as (Hw & Han & Hhead).
  destruct n as [|c rest].
  - exfalso. apply Hne. apply elem_of_singleton. reflexivity.
  - exists c, rest. split; [reflexivity|]. split; [apply (Hhead c rest); reflexivity|].
    split; [|exact Hw]. apply Forall_cons in Han. apply Han.
Qed.

(** The name [beta] of [lambda*t + beta]. *)
Lemma parse_names_are_identifiers_witness :
  exists (c : N) (rest : pystr),
    u "beta" = c :: rest
    /\ isalpha (Unicode := Standin.unicode) c = true
    /\ Forall (fun d => isalpha (Unicode := Standin.unicode) d = true
                        \/ isdigit (Unicode := Standin.unicode) d = true) rest
    /\ Forall (fun d => d ∈ u "lambda*t + beta") (u "beta").
Proof.
  apply (parse_names_are_identifiers (H := Standin.unicode) (u "lambda*t + beta")
           {[ u "lambda"; u "t"; u "beta" ]}).
  - vm_compute. reflexivity.
  - set_solver.
Defined.

(** [parse] needs a blank or an operator to return a name: on a text
    without any it returns no name at all, and it raises [KeyError]
    exactly when the scan has collected a name. *)
Theorem parse_needs_separator `{Unicode} (s : pystr) :
  (forall c, c ∈ s -> isspace c = false /\ in_operator_set c = false) ->
  (parse s = Ok ∅ \/ parse s = Raise KeyError)
  /\ (parse s = Raise KeyError <-> free_variable (parse_loop s start_state) <> []).
Proof.
  intros Hs. unfold parse, start_state.
  rewrite (parse_loop_no_separator s _ Hs). simpl.
  destruct (free_variable (parse_loop s _)) as [|c n] eqn:Hfv.
  - rewrite bool_decide_eq_true_2 by set_solver.
    split.
    + left. f_equal; set_solver.
    + split; [discriminate | intros Hne; contradiction].
  - rewrite bool_decide_eq_false_2 by set_solver.
    split; [right; reflexivity|]. split; [discriminate | reflexivity].
Qed.

(** A lone name is refused: [parse("omega")] raises [KeyError]. *)
Lemma parse_needs_separator_witness :
  parse (H := Standin.unicode) (u "omega") = Raise KeyError.
Proof.
  destruct (parse_needs_separator (H := Standin.unicode) (u "omega")) as [_ Hiff].
  - intros c Hc. apply list_elem_of_In in Hc. simpl in Hc.
    repeat (destruct Hc as [<-|Hc]; [split; reflexivity|]). contradiction.
  - apply Hiff. vm_compute. discriminate.
Defined.

End ParseNameFacts.

(** ** Fits that cannot start *)

Module FitFailureFacts.
Import Fit.
Import Terms Examples.

Lemma lambdify_refuses `{Sympy} (expression : pystr) (variables : list pystr)
    (independent_variable : pystr) :
  independent_variable ∈ variables ->
  lambdify expression variables independent_variable = Raise TypeError.
Proof.
  intros Hin. unfold lambdify. rewrite bool_decide_eq_true_2 by exact Hin. reflexivity.
Qed.

(** A specification that lists the independent variable [t] among its free
    variables cannot be fitted: the per-run fit raises [TypeError] before
    it looks at any data, and so does the global fit of at least one run
    when [t] is among its unknowns. *)
Theorem fit_refuses_independent_variable `{Unicode} `{Sympy} `{Scipy} `{Domain}
    (spec : FitSpec) :
  (INDEPENDENT_VARIABLE ∈ get_unfixed_symbols spec ->
   _least_squares_fit_non_global spec = Raise TypeError)
  /\ (INDEPENDENT_VARIABLE ∈ get_global_fit_symbols spec ->
      asymmetries spec <> [] ->
      _least_squares_fit_global spec = Raise TypeError).
Proof.
  split.
  - intros Hin. unfold _least_squares_fit_non_global.
    rewrite (lambdify_refuses (fitted_function spec)) by exact Hin. reflexivity.
  - intros Hin Hruns. unfold _least_squares_fit_global, _lambdify_global, get_data.
    destruct (asymmetries spec) as [|[run a] runs] eqn:Hdata; [contradiction|].
    cbn [imap for_each].
    rewrite lambdify_refuses by exact Hin. reflexivity.
Qed.

(** The model [t + a] with [t] listed as a free variable. *)
Lemma fit_refuses_independent_variable_witness :
  _least_squares_fit_non_global (H := Standin.unicode) (H0 := Standin.sympy)
    (H1 := Standin.scipy) (H2 := Standin.domain) (independent_spec per_run_options)
  = Raise TypeError
  /\ _least_squares_fit_global (H := Standin.unicode) (H0 := Standin.sympy)
       (H1 := Standin.scipy) (H2 := Standin.domain) (independent_spec global_options)
     = Raise TypeError.
Proof.
  split.
  - apply (proj1 (fit_refuses_independent_variable (H := Standin.unicode)
                    (H0 := Standin.sympy) (H1 := Standin.scipy) (H2 := Standin.domain)
                    (independent_spec per_run_options))).
    vm_compute. set_solver.
  - apply (proj2 (fit_refuses_independent_variable (H := Standin.unicode)
                    (H0 := Standin.sympy) (H1 := Standin.scipy) (H2 := Standin.domain)
                    (independent_spec global_options))).
    + vm_compute. set_solver.
    + discriminate.
Defined.

End FitFailureFacts.

(** ** The uncertainty of a histogram pair *)

Module BinUncertaintyFacts.
Import BeamsModel.
Import Terms Examples.

(** *** Signs in binary64 *)

Lemma round_aux_signed (s : bool) (m e : Z) (l : location) :
  signed s (binary_round_aux prec emax s m e l).
Proof.
  unfold binary_round_aux.
  destruct (shr_fexp prec emax m e l) as [mrs' e'].
  destruct (shr_fexp prec emax _ e' loc_Exact) as [mrs'' e''].
  destruct (shr_m mrs''); [reflexivity | | exact I].
  destruct (Z.leb e'' (emax - prec)); reflexivity.
Qed.

Lemma square_signed (x : float) : signed false (Prim2SF (F64.square x)).
Proof.
  unfold F64.square. rewrite FloatAxioms.mul_spec. unfold SF64mul.
  destruct (Prim2SF x) as [s|s| |s m e]; simpl; try exact I;
    try (destruct s; reflexivity).
  replace (xorb s s) with false by (destruct s; reflexivity).
  apply round_aux_signed.
Qed.

Lemma round_signed (s : bool) (m : positive) (e : Z) :
  signed s (binary_round prec emax s m e).
Proof.
  unfold binary_round. destruct (shl_align m e _) as [mz ez].
  apply round_aux_signed.
Qed.

Lemma add_signed (x y : float) :
  signed false (Prim2SF x) -> signed false (Prim2SF y) ->
  signed false (Prim2SF (x + y)).
Proof.
  rewrite FloatAxioms.add_spec. unfold SF64add, SFadd.
  destruct (Prim2SF x) as [sx|sx| |sx mx ex], (Prim2SF y) as [sy|sy| |sy my ey];
    cbn [signed]; intros Hx Hy; subst; try exact I; try reflexivity.
  cbn [cond_Zopp]. rewrite <- Pos2Z.inj_add. apply (round_signed false).
Qed.

Lemma sqrt_signed (x : float) :
  signed false (Prim2SF x) -> signed false (Prim2SF (PrimFloat.sqrt x)).
Proof.
  rewrite FloatAxioms.sqrt_spec. unfold SF64sqrt.
  destruct (Prim2SF x) as [s|s| |s m e]; simpl; intros Hx; subst;
    try exact I; try reflexivity.
  destruct (SFsqrt_core_binary prec emax (Z.pos m) e) as [[mz ez] lz].
  apply round_aux_signed.
Qed.

(** [nan_to_num] of a value that is not negative is a finite float that is
    not negative, and not the negative zero. *)
Lemma nan_to_num_signed (x : float) :
  signed false (Prim2SF x) ->
  Prim2SF (nan_to_num x) = S754_zero false
  \/ exists m e, Prim2SF (nan_to_num x) = S754_finite false m e.
Proof.
  unfold nan_to_num.
  destruct (Prim2SF x) as [s|s| |s m e] eqn:Hx; simpl; intros Hs; subst.
  - left. exact Hx.
  - right. eexists _, _. reflexivity.
  - left. reflexivity.
  - right. exists m, e. exact Hx.
Qed.

Lemma finite_nonnegative (x : float) :
  (Prim2SF x = S754_zero false \/ exists m e, Prim2SF x = S754_finite false m e) ->
  PrimFloat.is_finite x = true /\ PrimFloat.leb 0 x = true.
Proof.
  unfold PrimFloat.is_finite, PrimFloat.is_nan, PrimFloat.is_infinity.
  rewrite !FloatAxioms.eqb_spec, FloatAxioms.abs_spec, FloatAxioms.leb_spec.
  intros [-> | (m & e & ->)]; [split; reflexivity|].
  unfold SFeqb, SFleb. simpl. rewrite Z.compare_refl, Pos.compare_cont_refl.
  split; reflexivity.
Qed.

(** With no count in either histogram the uncertainty is NaN before
    [nan_to_num]. *)
Lemma bin_uncertainty_zero (h1 h2 : float) :
  PrimFloat.is_zero h1 = true -> PrimFloat.is_zero h2 = true ->
  nan_to_num (bin_uncertainty h1 h2) = 0%float.
Proof.
  intros H1 H2.
  destruct (F64Facts.is_zero_cases h1 H1) as [-> | ->],
           (F64Facts.is_zero_cases h2 H2) as [-> | ->]; reflexivity.
Qed.

(** Every uncertainty [calculate_uncertainty] returns is a finite float
    that is not negative, whatever the counts are; there is one for every
    bin; and a bin without a count in either histogram has the uncertainty
    0.0. *)
Theorem calculate_uncertainty_finite (histogram_data : gmap pystr (list float))
    (hist_one hist_two : pystr) (c1 c2 uncertainty : list float) :
  histogram_data !! hist_one = Some c1 ->
  histogram_data !! hist_two = Some c2 ->
  length c1 = length c2 ->
  calculate_uncertainty histogram_data hist_one hist_two = Ok uncertainty ->
  length uncertainty = length c1
  /\ (forall x, x ∈ uncertainty ->
        PrimFloat.is_finite x = true /\ PrimFloat.leb 0 x = true)
  /\ forall (i : nat) (h1 h2 : float),
       c1 !! i = Some h1 -> c2 !! i = Some h2 ->
       PrimFloat.is_zero h1 = true -> PrimFloat.is_zero h2 = true ->
       uncertainty !! i = Some 0%float.
Proof.
  intros H1 H2 Hlen. unfold calculate_uncertainty. rewrite H1, H2.
  cbn [or_raise mbind result_mbind bind]. intros Hrun. injection Hrun as <-.
  split; [|split].
  - rewrite length_map, length_zip_with. lia.
  - intros x Hx. apply list_elem_of_fmap in Hx. destruct Hx as (y & -> & Hy).
    apply finite_nonnegative, nan_to_num_signed.
    apply elem_of_lookup_zip_with in Hy. destruct Hy as (i & h1 & h2 & -> & _ & _).
    unfold bin_uncertainty. apply sqrt_signed, add_signed; apply square_signed.
  - intros i h1 h2 Hh1 Hh2 Hz1 Hz2.
    rewrite list_lookup_fmap, lookup_zip_with, Hh1. simpl. rewrite Hh2. simpl.
    f_equal. apply bin_uncertainty_zero; assumption.
Qed.

(** On the run of the examples (10, 5, 5, 7 against 4, 5, 5, 3), and on a
    pair of empty bins. *)
Lemma calculate_uncertainty_finite_witness :
  exists uncertainty : list float,
    calculate_uncertainty example_histograms (u "F") (u "B") = Ok uncertainty
    /\ length uncertainty = 4%nat
    /\ forall x, x ∈ uncertainty ->
         PrimFloat.is_finite x = true /\ PrimFloat.leb 0 x = true.
Proof.
  eexists. split; [vm_compute; reflexivity|].
  destruct (calculate_uncertainty_finite example_histograms (u "F") (u "B")
              [10; 5; 5; 7]%float [4; 5; 5; 3]%float _ eq_refl eq_refl eq_refl eq_refl)
    as (Hlen & Hfin & _).
  split; [exact Hlen | exact Hfin].
Defined.

End BinUncertaintyFacts.

(** ** Equal counts *)

Module AsymmetryEdgeFacts.
Import BeamsModel.
Import Terms Examples.

(** A float minus itself is +0.0, or NaN for NaN and the infinities. *)
Lemma sub_self (a : float) :
  Prim2SF (a - a) = S754_zero false \/ Prim2SF (a - a) = S754_nan.
Proof.
  rewrite FloatAxioms.sub_spec. unfold SF64sub, SFsub.
  destruct (Prim2SF a) as [s|s| |s m e].
  - left. destruct s; reflexivity.
  - right. destruct s; reflexivity.
  - right. reflexivity.
  - left. rewrite Z.sub_diag. reflexivity.
Qed.

(** Such a numerator gives a zero after [fillna], whatever it is divided
    by. *)
Lemma zero_or_nan_div (n d : float) :
  Prim2SF n = S754_zero false \/ Prim2SF n = S754_nan ->
  PrimFloat.is_zero (F64.fillna0 (n / d)) = true.
Proof.
  intros Hn.
  assert (Hq : (exists s, Prim2SF (n / d) = S754_zero s) \/ Prim2SF (n / d) = S754_nan).
  { rewrite FloatAxioms.div_spec. unfold SF64div, SFdiv.
    destruct Hn as [-> | ->]; destruct (Prim2SF d) as [s|s| |s m e];
      try (right; reflexivity); left; eexists; reflexivity. }
  unfold F64.fillna0. destruct (PrimFloat.is_nan (n / d)) eqn:Hnan; [reflexivity|].
  destruct Hq as [Hq | Hq].
  - apply UncertaintyFacts.is_zero_spec. exact Hq.
  - unfold PrimFloat.is_nan in Hnan. rewrite FloatAxioms.eqb_spec, Hq in Hnan.
    discriminate.
Qed.

Lemma asymmetry_at_equal (b x : float) :
  PrimFloat.is_zero (asymmetry_at b b x x) = true.
Proof. unfold asymmetry_at. apply zero_or_nan_div, sub_self. Qed.

(** Two histograms that hold the same counts, with the same background,
    have the asymmetry zero in every bin of the result: whatever the
    counts and the background are, no bin is left NaN, infinite or
    non-zero. *)
Theorem calculate_asymmetry_equal_histograms
    (f_formats : f_format) (histogram_data : gmap pystr (list float))
    (hist_one hist_two : pystr) (bkg : float) (c : list float) (out : Series) :
  histogram_data !! hist_one = Some c ->
  histogram_data !! hist_two = Some c ->
  calculate_asymmetry f_formats histogram_data hist_one hist_two bkg bkg = Ok out ->
  forall (i : Z) (x : float), (i, x) ∈ out -> PrimFloat.is_zero x = true.
Proof.
  intros H1 H2 Hrun i x Hin. unfold calculate_asymmetry in Hrun.
  destruct (GoodBinOne f_formats !! hist_one) as [s1|];
    cbn [or_raise mbind result_mbind bind] in Hrun; [|discriminate].
  destruct (GoodBinOne f_formats !! hist_two) as [s2|];
    cbn [or_raise mbind result_mbind bind] in Hrun; [|discriminate].
  destruct (GoodBinTwo f_formats !! hist_one) as [e1|];
    cbn [or_raise mbind result_mbind bind] in Hrun; [|discriminate].
  destruct (GoodBinTwo f_formats !! hist_two) as [e2|];
    cbn [or_raise mbind result_mbind bind] in Hrun; [|discriminate].
  rewrite H1, H2 in Hrun. cbn [or_raise mbind result_mbind bind] in Hrun.
  injection Hrun as <-.
  rewrite !AsymmetryFacts.column_series_from in Hin.
  rewrite AsymmetryFacts.asymmetry_pipeline in Hin by reflexivity.
  unfold loc in Hin. apply list_elem_of_filter in Hin. destruct Hin as [_ Hin].
  unfold column_from in Hin. apply list_elem_of_lookup in Hin.
  destruct Hin as [j Hj]. rewrite list_lookup_imap in Hj.
  destruct (zip_with (asymmetry_at bkg bkg) c c !! j) as [y|] eqn:Hy; [|discriminate].
  simpl in Hj. injection Hj as _ <-.
  rewrite lookup_zip_with in Hy.
  destruct (c !! j) as [h|]; [|discriminate]. simpl in Hy. injection Hy as <-.
  apply asymmetry_at_equal.
Qed.

(** Equal counts 10, 5, 5, 7 with background 5: bins 1 and 2 are zero. *)
Lemma calculate_asymmetry_equal_histograms_witness :
  exists out : Series,
    calculate_asymmetry example_format equal_histograms (u "F") (u "B") 5 5 = Ok out
    /\ out <> []
    /\ forall (i : Z) (x : float), (i, x) ∈ out -> PrimFloat.is_zero x = true.
Proof.
  eexists. split; [vm_compute; reflexivity|]. split; [discriminate|].
  apply (calculate_asymmetry_equal_histograms example_format equal_histograms
           (u "F") (u "B") 5 [10; 5; 5; 7]%float); reflexivity.
Defined.

End AsymmetryEdgeFacts.

(** ** The window and the edges of rebinning *)

Module RebinEdgeFacts.
Import BeamsModel.
Import Terms Examples.

Lemma slice_empty {A : Type} (l : list A) (a : Z) : slice l a a = [].
Proof. unfold slice. rewrite Z.sub_diag. reflexivity. Qed.

Lemma series_mean_nil `{Numpy} : PrimFloat.is_nan (series_mean []) = true.
Proof. reflexivity. Qed.

(** When [bin_data] returns, the three integers of its layout exist and
    the number of bins is not negative; there is one time per bin, and the
    time of bin [j] is the begin time plus [j] target widths (in
    microseconds, the width divided by 1000), whether the slider is
    moving or not. *)
Theorem bin_data_times `{Numpy} (f_formats : f_format)
    (asymmetry uncertainty : list float)
    (final_bin_size begin_time end_time : float) (slider_moving : bool)
    (binned_asymmetry binned_time binned_uncertainty : list float) :
  bin_data f_formats asymmetry uncertainty final_bin_size begin_time end_time
    slider_moving = Ok (binned_asymmetry, binned_time, binned_uncertainty) ->
  exists initial_bin k total : Z,
    bin_layout (binsize f_formats) final_bin_size begin_time end_time
      = Ok (initial_bin, k, total)
    /\ 0 <= total
    /\ length binned_time = Z.to_nat total
    /\ length binned_asymmetry = Z.to_nat total
    /\ forall j : nat, (j < Z.to_nat total)%nat ->
         binned_time !! j
         = Some (begin_time + F64.of_Z (Z.of_nat j) * (final_bin_size / 1000))%float.
Proof.
  unfold bin_data. intros Hrun.
  destruct (bin_layout _ _ _ _) as [[[initial_bin k] total]|];
    cbn [mbind result_mbind bind] in Hrun; [|discriminate].
  destruct (Z.ltb_spec total 0) as [Hneg|Htotal]; [discriminate|].
  exists initial_bin, k, total. split; [reflexivity|]. split; [exact Htotal|].
  assert (Htimes : forall t : list float,
             t = map (fun index => (begin_time + F64.of_Z (Z.of_nat index)
                                                 * (final_bin_size / 1000))%float)
                     (seq 0 (Z.to_nat total)) ->
             length t = Z.to_nat total
             /\ forall j : nat, (j < Z.to_nat total)%nat ->
                  t !! j = Some (begin_time + F64.of_Z (Z.of_nat j)
                                              * (final_bin_size / 1000))%float).
  { intros t ->. split; [rewrite length_map, length_seq; reflexivity|].
    intros j Hj. rewrite list_lookup_fmap, lookup_seq_lt by exact Hj. reflexivity. }
  destruct slider_moving; injection Hrun as <- <- _.
  - destruct (Htimes _ eq_refl) as [Hlen Hat].
    split; [exact Hlen|]. split; [|exact Hat].
    destruct (RebinFacts.fast_loop_invariant asymmetry initial_bin k
                {| BeamsModel.binned_asymmetry := np_empty (Z.to_nat total);
                   BeamsModel.binned_uncertainty := [];
                   binned_bins := initial_bin |} (Z.to_nat total))
      as (_ & Hla & _); [reflexivity | simpl; rewrite RebinFacts.length_np_empty; lia |].
    simpl in Hla. rewrite RebinFacts.length_np_empty in Hla. exact Hla.
  - destruct (Htimes _ eq_refl) as [Hlen Hat].
    split; [exact Hlen|]. split; [|exact Hat].
    destruct (RebinFacts.full_loop_invariant asymmetry uncertainty initial_bin k
                {| BeamsModel.binned_asymmetry := np_empty (Z.to_nat total);
                   BeamsModel.binned_uncertainty := np_empty (Z.to_nat total);
                   binned_bins := initial_bin |} (Z.to_nat total))
      as (_ & Hla & _);
      [reflexivity | simpl; rewrite RebinFacts.length_np_empty; lia | reflexivity |].
    simpl in Hla. rewrite RebinFacts.length_np_empty in Hla. exact Hla.
Qed.

(** The times of the example: 0, 2 and 4 microseconds. *)
Lemma bin_data_times_witness :
  exists initial_bin k total : Z,
    bin_layout (binsize example_bins) 2000 0 6 = Ok (initial_bin, k, total)
    /\ 0 <= total
    /\ length [0; 2; 4]%float = Z.to_nat total
    /\ length [2; 6; 3]%float = Z.to_nat total
    /\ forall j : nat, (j < Z.to_nat total)%nat ->
         [0; 2; 4]%float !! j
         = Some (0 + F64.of_Z (Z.of_nat j) * (2000 / 1000))%float.
Proof.
  apply (bin_data_times (H := Reference.numpy) example_bins
           [1; 3; 5; 7; 2; 4]%float [3; 4; 0; 0; 6; 8]%float 2000 0 6 false
           [2; 6; 3]%float [0; 2; 4]%float [2.5; 0; 5]%float).
  vm_compute. reflexivity.
Defined.

(** A target width below the width of the source bins gives groups of no
    sample: [bin_data] still returns one value per bin, and every one of
    them is NaN. *)
Theorem bin_data_narrow_target `{Numpy} (f_formats : f_format)
    (asymmetry uncertainty : list float)
    (final_bin_size begin_time end_time : float) (slider_moving : bool)
    (initial_bin total : Z) :
  bin_layout (binsize f_formats) final_bin_size begin_time end_time
    = Ok (initial_bin, 0, total) ->
  0 <= total ->
  exists binned_asymmetry binned_time binned_uncertainty : list float,
    bin_data f_formats asymmetry uncertainty final_bin_size begin_time end_time
      slider_moving = Ok (binned_asymmetry, binned_time, binned_uncertainty)
    /\ length binned_asymmetry = Z.to_nat total
    /\ forall x, x ∈ binned_asymmetry -> PrimFloat.is_nan x = true.
Proof.
  intros Hlayout Htotal. unfold bin_data. rewrite Hlayout.
  cbn [mbind result_mbind bind].
  destruct (Z.ltb_spec total 0) as [Hneg|_]; [lia|].
  assert (Hgroup : forall j, series_mean (group asymmetry initial_bin 0 j) = PrimFloat.nan).
  { intros j. unfold group.
    replace (initial_bin + (Z.of_nat j + 1) * 0) with (initial_bin + Z.of_nat j * 0) by lia.
    rewrite slice_empty. reflexivity. }
  destruct slider_moving.
  - destruct (RebinFacts.fast_loop_invariant asymmetry initial_bin 0
                {| binned_asymmetry := np_empty (Z.to_nat total);
                   binned_uncertainty := [];
                   binned_bins := initial_bin |} (Z.to_nat total))
      as (_ & Hla & _ & Hcells);
      [reflexivity | simpl; rewrite RebinFacts.length_np_empty; lia |].
    simpl in Hla. rewrite RebinFacts.length_np_empty in Hla.
    eexists _, _, _. split; [reflexivity|]. split; [exact Hla|].
    intros x Hx. apply list_elem_of_lookup in Hx. destruct Hx as [j Hj].
    assert (j < Z.to_nat total)%nat as Hlt
      by (rewrite <- Hla; apply lookup_lt_Some with x; exact Hj).
    rewrite (Hcells j Hlt), Hgroup in Hj. injection Hj as <-. reflexivity.
  - destruct (RebinFacts.full_loop_invariant asymmetry uncertainty initial_bin 0
                {| binned_asymmetry := np_empty (Z.to_nat total);
                   binned_uncertainty := np_empty (Z.to_nat total);
                   binned_bins := initial_bin |} (Z.to_nat total))
      as (_ & Hla & _ & Hcells);
      [reflexivity | simpl; rewrite RebinFacts.length_np_empty; lia | reflexivity |].
    simpl in Hla. rewrite RebinFacts.length_np_empty in Hla.
    eexists _, _, _. split; [reflexivity|]. split; [exact Hla|].
    intros x Hx. apply list_elem_of_lookup in Hx. destruct Hx as [j Hj].
    assert (j < Z.to_nat total)%nat as Hlt
      by (rewrite <- Hla; apply lookup_lt_Some with x; exact Hj).
    destruct (Hcells j Hlt) as [Hcell _].
    rewrite Hcell, Hgroup in Hj. injection Hj as <-. reflexivity.
Qed.

(** Samples of width 1000 rebinned to width 500 over the window [0, 2):
    four bins, all NaN. *)
Lemma bin_data_narrow_target_witness :
  exists binned_asymmetry binned_time binned_uncertainty : list float,
    bin_data (H := Reference.numpy) example_bins
      [1; 3; 5; 7; 2; 4]%float [3; 4; 0; 0; 6; 8]%float 500 0 2 true
      = Ok (binned_asymmetry, binned_time, binned_uncertainty)
    /\ length binned_asymmetry = 4%nat
    /\ forall x, x ∈ binned_asymmetry -> PrimFloat.is_nan x = true.
Proof.
  apply (bin_data_narrow_target (H := Reference.numpy) example_bins
           [1; 3; 5; 7; 2; 4]%float [3; 4; 0; 0; 6; 8]%float 500 0 2 true 0 4).
  - vm_compute. reflexivity.
  - lia.
Defined.

(** [bin_data] refuses a source bin width of zero with
    [ZeroDivisionError], never returns for a target width of zero, and
    refuses a window that ends before it begins (a negative number of
    bins) with [ValueError]. *)
Theorem bin_data_refuses `{Numpy} (f_formats : f_format)
    (asymmetry uncertainty : list float)
    (final_bin_size begin_time end_time : float) (slider_moving : bool) :
  (PrimFloat.is_zero (binsize f_formats / 1000) = true ->
   bin_data f_formats asymmetry uncertainty final_bin_size begin_time end_time
     slider_moving = Raise ZeroDivisionError)
  /\ (PrimFloat.is_zero (final_bin_size / 1000) = true ->
      exists e : exn,
        bin_data f_formats asymmetry uncertainty final_bin_size begin_time end_time
          slider_moving = Raise e)
  /\ (forall initial_bin k total : Z,
        bin_layout (binsize f_formats) final_bin_size begin_time end_time
          = Ok (initial_bin, k, total) ->
        total < 0 ->
        bin_data f_formats asymmetry uncertainty final_bin_size begin_time end_time
          slider_moving = Raise ValueError).
Proof.
  split; [|split].
  - intros Hz. unfold bin_data, bin_layout, py_div. rewrite Hz. reflexivity.
  - intros Hz. unfold bin_data.
    assert (Hl : exists e, bin_layout (binsize f_formats) final_bin_size begin_time
                             end_time = Raise e).
    { unfold bin_layout.
      destruct (py_div begin_time _) as [q|e];
        cbn [mbind result_mbind bind]; [|eauto].
      destruct (py_int_floor q) as [i|e]; cbn [mbind result_mbind bind]; [|eauto].
      destruct (py_div (final_bin_size / 1000) _) as [q'|e];
        cbn [mbind result_mbind bind]; [|eauto].
      destruct (py_int_floor q') as [k|e]; cbn [mbind result_mbind bind]; [|eauto].
      unfold py_div. rewrite Hz. eauto. }
    destruct Hl as [e ->]. exists e. reflexivity.
  - intros initial_bin k total Hl Hneg. unfold bin_data. rewrite Hl.
    cbn [mbind result_mbind bind].
    destruct (Z.ltb_spec total 0) as [_|Hge]; [reflexivity | lia].
Qed.

(** A file with bin width 0, and the window from 6 back to 0. *)
Lemma bin_data_refuses_witness :
  bin_data (H := Reference.numpy)
    {| GoodBinOne := ∅; GoodBinTwo := ∅; binsize := 0%float |}
    [1; 3; 5; 7; 2; 4]%float [3; 4; 0; 0; 6; 8]%float 2000 0 6 false
  = Raise ZeroDivisionError
  /\ bin_data (H := Reference.numpy) example_bins
       [1; 3; 5; 7; 2; 4]%float [3; 4; 0; 0; 6; 8]%float 2000 6 0 false
     = Raise ValueError.
Proof.
  split.
  - apply (bin_data_refuses (H := Reference.numpy)
             {| GoodBinOne := ∅; GoodBinTwo := ∅; binsize := 0%float |}).
    reflexivity.
  - destruct (bin_data_refuses (H := Reference.numpy) example_bins
                [1; 3; 5; 7; 2; 4]%float [3; 4; 0; 0; 6; 8]%float 2000 6 0 false)
      as (_ & _ & Hneg).
    apply (Hneg 6 2 (-3)); [vm_compute; reflexivity | lia].
Defined.

End RebinEdgeFacts.

(** ** Spectra of too few samples *)

Module SpectrumEdgeFacts.
Import BeamsModel.
Import Terms Examples.

(** [calculate_fft] needs two samples: with as many times as samples it
    raises [ValueError] on no sample and [IndexError] on one, so that it
    only returns for two samples or more; what it returns then has 300
    points. *)
Theorem calculate_fft_needs_two_samples `{Numpy} `{NumpyFFT} `{Scipy}
    (bin_size : float) (asymmetry times : list float) :
  length times = length asymmetry ->
  (length asymmetry = 0%nat ->
   calculate_fft bin_size asymmetry times = Raise ValueError)
  /\ (length asymmetry = 1%nat ->
      calculate_fft bin_size asymmetry times = Raise IndexError)
  /\ forall out : list float * list float,
       calculate_fft bin_size asymmetry times = Ok out ->
       (2 <= length asymmetry)%nat
       /\ length out.1 = 300%nat /\ length out.2 = 300%nat.
Proof.
  intros Htimes.
  assert (Hnone : length asymmetry = 0%nat ->
               calculate_fft bin_size asymmetry times = Raise ValueError).
  { intros Hn. unfold calculate_fft. rewrite Hn. reflexivity. }
  assert (Hone : length asymmetry = 1%nat ->
                calculate_fft bin_size asymmetry times = Raise IndexError).
  { intros Hn. unfold calculate_fft, magnitudes_of. rewrite Htimes, Hn. reflexivity. }
  split; [exact Hnone|]. split; [exact Hone|].
  intros out Hout.
  assert (2 <= length asymmetry)%nat as Hn.
  { destruct (length asymmetry) as [|[|n]] eqn:Hlen; [| |lia].
    - rewrite Hnone in Hout by reflexivity. discriminate.
    - rewrite Hone in Hout by reflexivity. discriminate. }
  split; [exact Hn|].
  apply (SpectrumFacts.calculate_fft_lengths bin_size asymmetry times); assumption.
Qed.

(** One sample with its time. *)
Lemma calculate_fft_needs_two_samples_witness :
  calculate_fft (H := Reference.numpy) (H0 := Standin.fft) (H1 := Standin.scipy)
    1000 [1]%float [0]%float = Raise IndexError.
Proof.
  destruct (calculate_fft_needs_two_samples (H := Reference.numpy) (H0 := Standin.fft)
              (H1 := Standin.scipy) 1000 [1]%float [0]%float eq_refl)
    as (_ & Hone & _).
  apply Hone. reflexivity.
Defined.

End SpectrumEdgeFacts.

(** ** The colours of the model *)

Module PaletteFacts.
Import Container BEAMS.
Import Terms Examples.

Section ListRemove.
Context {A : Type} `{EqDecision A}.

Lemma elem_of_list_remove_ne (x y : A) (l : list A) :
  y <> x -> y ∈ list_remove x l <-> y ∈ l.
Proof.
  intros Hne. induction l as [|z l IH]; simpl; [reflexivity|].
  destruct (decide (z = x)) as [->|Hz].
  - rewrite elem_of_cons. split; [intros Hy; right; exact Hy|].
    intros [Heq|Hy]; [contradiction | exact Hy].
  - rewrite !elem_of_cons, IH. reflexivity.
Qed.

Lemma elem_of_list_remove (x y : A) (l : list A) :
  y ∈ list_remove x l -> y ∈ l.
Proof.
  induction l as [|z l IH]; simpl; [intros Hy; exact Hy|].
  destruct (decide (z = x)) as [->|Hz].
  - intros Hy. right. exact Hy.
  - rewrite !elem_of_cons. intros [Heq|Hy]; [left; exact Heq | right; apply IH; exact Hy].
Qed.

Lemma NoDup_list_remove (x : A) (l : list A) :
  NoDup l -> NoDup (list_remove x l) /\ x ∉ list_remove x l.
Proof.
  induction 1 as [|z l Hz Hl IH]; simpl.
  - split; [constructor | apply not_elem_of_nil].
  - destruct (decide (z = x)) as [->|Hne].
    + split; assumption.
    + destruct IH as [IHnd IHx]. split.
      * constructor; [|exact IHnd]. intros Hin. apply Hz.
        apply (elem_of_list_remove x). exact Hin.
      * intros Hin. apply elem_of_cons in Hin. destruct Hin as [Heq|Hin];
          [congruence | exact (IHx Hin)].
Qed.

Lemma list_remove_last (x : A) (l : list A) :
  x ∉ l -> list_remove x (l ++ [x]) = l.
Proof.
  induction l as [|z l IH]; simpl; intros Hx.
  - destruct (decide (x = x)); [reflexivity|contradiction].
  - destruct (decide (z = x)) as [->|Hne]; [exfalso; apply Hx; left|].
    f_equal. apply IH. intros Hin. apply Hx. right. exact Hin.
Qed.

Lemma list_remove_Permutation (x : A) (l : list A) :
  x ∈ l -> list_remove x l ++ [x] ≡ₚ l.
Proof.
  induction l as [|z l IH]; simpl; intros Hx.
  - apply elem_of_nil in Hx. contradiction.
  - destruct (decide (z = x)) as [->|Hne].
    + symmetry. apply Permutation_cons_append.
    + simpl. apply Permutation_skip. apply IH.
      apply elem_of_cons in Hx. destruct Hx as [Heq|Hx]; [congruence | exact Hx].
Qed.

(** A colour taken out of a list in which it may occur, and one put into
    a list in which it may be missing. *)
Lemma taken_out (x : A) (l : list A) :
  NoDup l ->
  let l' := if bool_decide (x ∈ l) then list_remove x l else l in
  NoDup l' /\ forall y, y ∈ l' <-> y ∈ l /\ y <> x.
Proof.
  intros Hl l'. unfold l'. destruct (bool_decide_reflect (x ∈ l)) as [Hx|Hx].
  - destruct (NoDup_list_remove x l Hl) as [Hnd Hout]. split; [exact Hnd|].
    intros y. split.
    + intros Hy. split; [apply (elem_of_list_remove x); exact Hy|].
      intros ->. exact (Hout Hy).
    + intros [Hy Hne]. apply elem_of_list_remove_ne; assumption.
  - split; [exact Hl|]. intros y. split; [|intros [Hy _]; exact Hy].
    intros Hy. split; [exact Hy|]. intros ->. exact (Hx Hy).
Qed.

Lemma put_in (x : A) (l : list A) :
  NoDup l ->
  let l' := if bool_decide (x ∉ l) then l ++ [x] else l in
  NoDup l' /\ forall y, y ∈ l' <-> y ∈ l \/ y = x.
Proof.
  intros Hl l'. unfold l'. destruct (bool_decide_reflect (x ∉ l)) as [Hx|Hx].
  - split.
    + apply NoDup_app. split; [exact Hl|]. split; [|apply NoDup_singleton].
      intros y Hy Hyx. apply list_elem_of_singleton in Hyx. subst y. exact (Hx Hy).
    + intros y. rewrite elem_of_app, list_elem_of_singleton. reflexivity.
  - split; [exact Hl|]. intros y. split; [intros Hy; left; exact Hy|].
    intros [Hy| ->]; [exact Hy|]. destruct (decide (x ∈ l)); [assumption|contradiction].
Qed.

End ListRemove.

Section Palette.
Context {Format Data : Type}.
Implicit Types m : BEAMSModel Format Data.

(** The two lists after [update_colors], for a colour that is not
    custom. *)
Lemma update_colors_lists m (c : pycolor) (used : bool) :
  NoDup (color_options m) -> NoDup (used_colors m) ->
  let m' := update_colors m c used false in
  NoDup (color_options m') /\ NoDup (used_colors m')
  /\ (forall y, y ∈ color_options m' <->
        if used then y ∈ color_options m /\ y <> c else y ∈ color_options m \/ y = c)
  /\ (forall y, y ∈ used_colors m' <->
        if used then y ∈ used_colors m \/ y = c else y ∈ used_colors m /\ y <> c).
Proof.
  intros Ho Hu. unfold update_colors. simpl negb. cbv iota. destruct used; simpl.
  - destruct (taken_out c (color_options m) Ho) as [Hndo Hino].
    destruct (put_in c (used_colors m) Hu) as [Hndu Hinu].
    split; [exact Hndo|]. split; [exact Hndu|]. split; [exact Hino | exact Hinu].
  - destruct (taken_out c (used_colors m) Hu) as [Hndu Hinu].
    destruct (put_in c (color_options m) Ho) as [Hndo Hino].
    split; [exact Hndo|]. split; [exact Hndu|]. split; [exact Hino | exact Hinu].
Qed.

Lemma update_colors_NoDup m (c : pycolor) (used : bool) :
  NoDup (color_options m ++ used_colors m) ->
  NoDup (color_options (update_colors m c used false)
         ++ used_colors (update_colors m c used false)).
Proof.
  intros Hnd. apply NoDup_app in Hnd. destruct Hnd as (Ho & Hdisj & Hu).
  destruct (update_colors_lists m c used Ho Hu) as (Hndo & Hndu & Hino & Hinu).
  cbv zeta in Hndo, Hndu, Hino, Hinu.
  apply NoDup_app. split; [exact Hndo|]. split; [|exact Hndu].
  intros y Hy Hyu. apply Hino in Hy. apply Hinu in Hyu. destruct used.
  - destruct Hy as [Hy Hne]. destruct Hyu as [Hyu|Heq]; [|contradiction].
    exact (Hdisj y Hy Hyu).
  - destruct Hyu as [Hyu Hne]. destruct Hy as [Hy|Heq]; [|contradiction].
    exact (Hdisj y Hy Hyu).
Qed.

(** The colour ends in the list asked for, and no other colour moves. *)
Lemma update_colors_moves m (c : pycolor) (used : bool) :
  NoDup (color_options m ++ used_colors m) ->
  let m' := update_colors m c used false in
  (if used then c ∈ used_colors m' /\ c ∉ color_options m'
   else c ∈ color_options m' /\ c ∉ used_colors m')
  /\ forall c' : pycolor, c' <> c ->
       (c' ∈ color_options m' <-> c' ∈ color_options m)
       /\ (c' ∈ used_colors m' <-> c' ∈ used_colors m).
Proof.
  intros Hnd m'. apply NoDup_app in Hnd. destruct Hnd as (Ho & _ & Hu).
  destruct (update_colors_lists m c used Ho Hu) as (_ & _ & Hino & Hinu).
  cbv zeta in Hino, Hinu. fold m' in Hino, Hinu. split.
  - destruct used.
    + split; [apply Hinu; right; reflexivity|].
      intros Hin. apply Hino in Hin. destruct Hin as [_ Hne]. apply Hne. reflexivity.
    + split; [apply Hino; right; reflexivity|].
      intros Hin. apply Hinu in Hin. destruct Hin as [_ Hne]. apply Hne. reflexivity.
  - intros c' Hne. rewrite Hino, Hinu. destruct used; tauto.
Qed.

(** With every colour in at most one of the two lists, and at most once,
    [update_colors] keeps it so; it leaves the colour in the list asked
    for and not in the other, moves no other colour, and touches nothing
    else of the model; for a custom colour it changes nothing. *)
Theorem update_colors_keeps_palette m (c : pycolor) (used : bool) :
  NoDup (color_options m ++ used_colors m) ->
  let m' := update_colors m c used false in
  NoDup (color_options m' ++ used_colors m')
  /\ (if used then c ∈ used_colors m' /\ c ∉ color_options m'
      else c ∈ color_options m' /\ c ∉ used_colors m')
  /\ (forall c' : pycolor, c' <> c ->
        (c' ∈ color_options m' <-> c' ∈ color_options m)
        /\ (c' ∈ used_colors m' <-> c' ∈ used_colors m))
  /\ run_list m' = run_list m
  /\ current_formats m' = current_formats m
  /\ all_full_filepaths m' = all_full_filepaths m
  /\ update_colors m c used true = m.
Proof.
  intros Hnd m'. split; [apply update_colors_NoDup; exact Hnd|].
  destruct (update_colors_moves m c used Hnd) as [Hc Hother].
  split; [exact Hc|]. split; [exact Hother|].
  unfold m', update_colors. destruct used; repeat split; reflexivity.
Qed.

(** Taking an available colour into use and giving it back leaves the
    colours in use as they were and puts the colour last among the
    available ones. *)
Theorem update_colors_round_trip m (c : pycolor) :
  NoDup (color_options m ++ used_colors m) ->
  c ∈ color_options m ->
  let m' := update_colors (update_colors m c true false) c false false in
  used_colors m' = used_colors m
  /\ color_options m' = list_remove c (color_options m) ++ [c]
  /\ color_options m' ≡ₚ color_options m.
Proof.
  intros Hnd Hc m'. apply NoDup_app in Hnd. destruct Hnd as (Ho & Hdisj & Hu).
  assert (Hcu : c ∉ used_colors m) by (intros Hin; exact (Hdisj c Hc Hin)).
  destruct (NoDup_list_remove c (color_options m) Ho) as [_ Hco].
  unfold m', update_colors. simpl.
  rewrite (bool_decide_eq_true_2 (c ∈ color_options m)) by exact Hc.
  rewrite (bool_decide_eq_true_2 (c ∉ used_colors m)) by exact Hcu.
  rewrite (bool_decide_eq_true_2 (c ∈ used_colors m ++ [c])) by set_solver.
  rewrite (bool_decide_eq_true_2 (c ∉ list_remove c (color_options m))) by exact Hco.
  split; [apply list_remove_last; exact Hcu|]. split; [reflexivity|].
  apply list_remove_Permutation. exact Hc.
Qed.

End Palette.

(** On a new model: [red] is taken into use. *)
Lemma update_colors_keeps_palette_witness :
  let m' := update_colors (new_BEAMSModel (Format := unit) (Data := unit))
              (Some (u "red")) true false in
  NoDup (color_options m' ++ used_colors m')
  /\ Some (u "red") ∈ used_colors m'
  /\ Some (u "red") ∉ color_options m'.
Proof.
  assert (Hnew : NoDup (color_options (new_BEAMSModel (Format := unit) (Data := unit))
                        ++ used_colors (new_BEAMSModel (Format := unit) (Data := unit)))).
  { apply (bool_decide_unpack _). vm_compute. exact I. }
  destruct (update_colors_keeps_palette new_BEAMSModel (Some (u "red")) true Hnew)
    as (Hnd & [Hin Hout] & _).
  split; [exact Hnd|]. split; [exact Hin | exact Hout].
Defined.

(** [red] taken and given back is the last available colour. *)
Lemma update_colors_round_trip_witness :
  let m := new_BEAMSModel (Format := unit) (Data := unit) in
  let m' := update_colors (update_colors m (Some (u "red")) true false)
              (Some (u "red")) false false in
  used_colors m' = []
  /\ last (color_options m') = Some (Some (u "red")).
Proof.
  assert (Hnew : NoDup (color_options (new_BEAMSModel (Format := unit) (Data := unit))
                        ++ used_colors (new_BEAMSModel (Format := unit) (Data := unit)))).
  { apply (bool_decide_unpack _). vm_compute. exact I. }
  destruct (update_colors_round_trip new_BEAMSModel (Some (u "red")) Hnew)
    as (Hused & Hopts & _).
  - apply (bool_decide_unpack _). vm_compute. exact I.
  - split; [exact Hused|]. rewrite Hopts. apply last_snoc.
Defined.

End PaletteFacts.

(** ** Dictionaries with deletion *)

Module ContainerFacts.
Import Container.

Section Dict.
Context {K V : Type} `{EqDecision K}.

Lemma dict_get_del (d : dict K V) (k k' : K) :
  dict_get (dict_del d k) k' = if decide (k = k') then None else dict_get d k'.
Proof.
  unfold dict_del. induction d as [|[k0 v0] d IH]; simpl.
  - destruct (decide (k = k')); reflexivity.
  - rewrite filter_cons. simpl. destruct (decide (k0 <> k)) as [Hne|Heq]; simpl.
    + destruct (decide (k0 = k')) as [->|Hne'].
      * destruct (decide (k = k')); [congruence|reflexivity].
      * exact IH.
    + assert (k0 = k) as -> by (destruct (decide (k0 = k)); [assumption|contradiction]).
      rewrite IH. destruct (decide (k = k')); reflexivity.
Qed.

Lemma dict_keys_get (d : dict K V) (k : K) :
  k ∈ dict_keys d <-> is_Some (dict_get d k).
Proof.
  unfold dict_keys. induction d as [|[k0 v0] d IH]; simpl.
  - split; [intros Hin; apply elem_of_nil in Hin; contradiction|].
    intros [v Hv]. discriminate.
  - rewrite elem_of_cons. destruct (decide (k0 = k)) as [->|Hne].
    + split; [intros _; eexists; reflexivity | intros _; left; reflexivity].
    + rewrite <- IH. split; [intros [Heq|Hin]; [congruence | exact Hin]|].
      intros Hin. right. exact Hin.
Qed.

End Dict.

End ContainerFacts.

(** ** Recolouring runs and listing files *)

Module ModelFacts.
Import Container BEAMS.
Import Terms Examples.

Section Model.
Context {Format Data : Type}.
Implicit Types m : BEAMSModel Format Data.
Implicit Types run : RunData Format Data.

Lemma recolor_step_spec (file : pystr) (c : pycolor) m
    (acc : list (RunData Format Data)) run :
  let out := recolor_step file c (m, acc) run in
  out.2 = acc ++ [recoloured file c run]
  /\ run_list out.1 = run_list m
  /\ current_formats out.1 = current_formats m
  /\ all_full_filepaths out.1 = all_full_filepaths m
  /\ (NoDup (color_options m ++ used_colors m) ->
      NoDup (color_options out.1 ++ used_colors out.1)).
Proof.
  unfold recolor_step, recoloured. simpl.
  destruct (decide (filename run = file)); simpl; [|repeat split; auto].
  destruct (bool_decide (color run ∈ used_colors m)); simpl; [|repeat split; auto].
  repeat split; try reflexivity.
  intros Hm. apply (PaletteFacts.update_colors_NoDup m (color run) false Hm).
Qed.

Lemma recolor_fold (file : pystr) (c : pycolor) (runs acc : list (RunData Format Data)) m :
  let out := fold_left (recolor_step file c) runs (m, acc) in
  out.2 = acc ++ map (recoloured file c) runs
  /\ run_list out.1 = run_list m
  /\ current_formats out.1 = current_formats m
  /\ all_full_filepaths out.1 = all_full_filepaths m
  /\ (NoDup (color_options m ++ used_colors m) ->
      NoDup (color_options out.1 ++ used_colors out.1)).
Proof.
  revert m acc. induction runs as [|run runs IH]; intros m acc.
  - simpl. rewrite app_nil_r. repeat split; auto.
  - cbn [fold_left map].
    pose proof (recolor_step_spec file c m acc run) as Hstep. cbv zeta in Hstep.
    destruct (recolor_step file c (m, acc) run) as [m1 acc1].
    simpl in Hstep. destruct Hstep as (-> & Hl & Hf & Hp & Hnd).
    destruct (IH m1 (acc ++ [recoloured file c run])) as (Hruns & Hl' & Hf' & Hp' & Hnd').
    cbv zeta. rewrite Hruns, Hl', Hf', Hp', Hl, Hf, Hp, <- app_assoc.
    repeat split; try reflexivity. intros Hm. apply Hnd', Hnd, Hm.
Qed.

(** A fold over runs of other files changes nothing. *)
Lemma recolor_fold_others (file : pystr) (c : pycolor)
    (runs acc : list (RunData Format Data)) m :
  (forall run, run ∈ runs -> filename run <> file) ->
  fold_left (recolor_step file c) runs (m, acc) = (m, acc ++ runs).
Proof.
  revert acc. induction runs as [|run runs IH]; intros acc Hruns.
  - simpl. rewrite app_nil_r. reflexivity.
  - simpl. unfold recolor_step at 2. simpl.
    destruct (decide (filename run = file)) as [Hfile|_].
    + exfalso. apply (Hruns run); [left | exact Hfile].
    + rewrite IH, <- app_assoc; [reflexivity|].
      intros r Hr. apply Hruns. right. exact Hr.
Qed.

Lemma recolor_step_used (file : pystr) (c : pycolor) m
    (acc : list (RunData Format Data)) run :
  filename run = file -> color run ∈ used_colors m ->
  recolor_step file c (m, acc) run
  = (update_colors m (color run) false false, acc ++ [set_color run c]).
Proof.
  intros Hfile Hin. unfold recolor_step. simpl.
  destruct (decide (filename run = file)); [|contradiction].
  rewrite (bool_decide_eq_true_2 _ Hin). reflexivity.
Qed.

(** [update_run_color] gives the new colour to every run of the file and
    changes nothing else of any run; it neither adds, removes nor
    reorders runs; it leaves the formats and the file list; and it keeps
    every colour in at most one of the two colour lists. *)
Theorem update_run_color_recolours m (file : pystr) (c : pycolor) :
  let m' := update_run_color m file c in
  run_list m' = map (recoloured file c) (run_list m)
  /\ current_formats m' = current_formats m
  /\ all_full_filepaths m' = all_full_filepaths m
  /\ (NoDup (color_options m ++ used_colors m) ->
      NoDup (color_options m' ++ used_colors m')).
Proof.
  unfold update_run_color.
  set (m1 := if bool_decide (c ∈ color_options m) then update_colors m c true false
             else m).
  assert (H1 : run_list m1 = run_list m
               /\ current_formats m1 = current_formats m
               /\ all_full_filepaths m1 = all_full_filepaths m
               /\ (NoDup (color_options m ++ used_colors m) ->
                   NoDup (color_options m1 ++ used_colors m1))).
  { unfold m1. destruct (bool_decide (c ∈ color_options m)); [|repeat split; auto].
    repeat split; try reflexivity.
    intros Hm. apply (PaletteFacts.update_colors_NoDup m c true Hm). }
  destruct H1 as (Hl1 & Hf1 & Hp1 & Hnd1).
  pose proof (recolor_fold file c (run_list m1) [] m1) as Hfold. cbv zeta in Hfold.
  destruct (fold_left (recolor_step file c) (run_list m1) (m1, [])) as [m2 runs].
  simpl in Hfold. destruct Hfold as (-> & Hl2 & Hf2 & Hp2 & Hnd2).
  simpl. rewrite Hl1, Hf2, Hf1, Hp2, Hp1.
  repeat split; try reflexivity. intros Hm. apply Hnd2, Hnd1, Hm.
Qed.

(** With one run of the file, whose colour is in use: choosing an
    available colour for it takes that colour into use and makes the old
    one available; choosing the colour the run already has makes that
    colour available, while the run keeps it. *)
Theorem update_run_color_swaps m (file : pystr) (c : pycolor)
    (before after : list (RunData Format Data)) run :
  run_list m = before ++ run :: after ->
  (forall r, r ∈ before ++ after -> filename r <> file) ->
  filename run = file ->
  NoDup (color_options m ++ used_colors m) ->
  color run ∈ used_colors m ->
  let m' := update_run_color m file c in
  (c ∈ color_options m ->
   c ∈ used_colors m' /\ (c ∉ color_options m')
   /\ color run ∈ color_options m' /\ (color run ∉ used_colors m'))
  /\ (c = color run -> c ∈ color_options m' /\ (c ∉ used_colors m')).
Proof.
  intros Hruns Hothers Hfile Hnd Hold m'.
  assert (Hdisj : forall x, x ∈ color_options m -> x ∉ used_colors m).
  { apply NoDup_app in Hnd. apply Hnd. }
  assert (Hpalette : forall m1 : BEAMSModel Format Data,
             run_list m1 = run_list m ->
             color run ∈ used_colors m1 ->
             let out := fold_left (recolor_step file c) (run_list m1) (m1, []) in
             color_options (with_run_list out.1 out.2)
             = color_options (update_colors m1 (color run) false false)
             /\ used_colors (with_run_list out.1 out.2)
                = used_colors (update_colors m1 (color run) false false)).
  { intros m1 Hl Hin. cbv zeta. rewrite Hl, Hruns, fold_left_app.
    rewrite recolor_fold_others
      by (intros r Hr; apply Hothers; apply elem_of_app; left; exact Hr).
    cbn [fold_left]. rewrite (recolor_step_used file c m1 _ run Hfile Hin).
    rewrite recolor_fold_others
      by (intros r Hr; apply Hothers; apply elem_of_app; right; exact Hr).
    split; reflexivity. }
  split.
  - intros Hc.
    assert (Hne : color run <> c) by (intros Heq; apply (Hdisj c Hc); rewrite <- Heq; exact Hold).
    pose proof (PaletteFacts.update_colors_NoDup m c true Hnd) as Hnd1.
    destruct (PaletteFacts.update_colors_moves m c true Hnd) as ([Hcu Hco] & Hother).
    destruct (Hother (color run) Hne) as [_ Holdu].
    destruct (Hpalette (update_colors m c true false)) as [Ho Hu];
      [unfold update_colors; reflexivity | apply Holdu; exact Hold|].
    cbv zeta in Ho, Hu.
    destruct (PaletteFacts.update_colors_moves
                (update_colors m c true false) (color run) false Hnd1)
      as ([Hoo Hou] & Hother2).
    assert (Hne' : c <> color run) by congruence.
    destruct (Hother2 c Hne') as [Hco2 Hcu2].
    unfold m', update_run_color. rewrite (bool_decide_eq_true_2 _ Hc).
    destruct (fold_left _ _ _) as [m2 runs]. simpl in Ho, Hu. simpl.
    rewrite Ho, Hu. split; [apply Hcu2; exact Hcu|]. split; [|split; assumption].
    intros Hin. apply Hco2 in Hin. exact (Hco Hin).
  - intros ->.
    assert (Hco : color run ∉ color_options m)
      by (intros Hin; exact (Hdisj _ Hin Hold)).
    destruct (Hpalette m eq_refl Hold) as [Ho Hu]. cbv zeta in Ho, Hu.
    destruct (PaletteFacts.update_colors_moves m (color run) false Hnd)
      as ([Hoo Hou] & _).
    unfold m', update_run_color. rewrite (bool_decide_eq_false_2 _ Hco).
    destruct (fold_left _ _ _) as [m2 runs]. simpl in Ho, Hu. simpl.
    rewrite Ho, Hu. split; assumption.
Qed.

(** [update_file_list] files a reachable path under the name of the file
    and leaves no tagged entry of that name; a path that is not reachable
    is filed under the tagged name, and an entry under the plain name
    stays; no other entry and nothing else of the model changes. *)
Theorem update_file_list_tags m (found : bool) (file_name file_path : pystr) :
  let m' := update_file_list m found file_name file_path in
  let tagged := file_name ++ NOT_FOUND in
  (if found then
     dict_get (all_full_filepaths m') file_name = Some file_path
     /\ dict_get (all_full_filepaths m') tagged = None
     /\ forall k, k <> file_name -> k <> tagged ->
          dict_get (all_full_filepaths m') k = dict_get (all_full_filepaths m) k
   else
     dict_get (all_full_filepaths m') tagged = Some file_path
     /\ forall k, k <> tagged ->
          dict_get (all_full_filepaths m') k = dict_get (all_full_filepaths m) k)
  /\ run_list m' = run_list m
  /\ current_formats m' = current_formats m
  /\ color_options m' = color_options m
  /\ used_colors m' = used_colors m.
Proof.
  intros m' tagged.
  assert (Htag : file_name <> tagged).
  { unfold tagged. intros Heq. apply (f_equal length) in Heq.
    rewrite length_app in Heq. vm_compute (length NOT_FOUND) in Heq. lia. }
  unfold m', update_file_list. destruct found; simpl negb; cbv iota.
  - fold tagged.
    destruct (bool_decide_reflect (tagged ∈ dict_keys (all_full_filepaths m)))
      as [Hin|Hout]; simpl.
    + split; [|repeat split; reflexivity].
      split; [apply DictFacts.dict_get_set_eq|]. split.
      * rewrite DictFacts.dict_get_set_ne by exact Htag.
        rewrite ContainerFacts.dict_get_del.
        destruct (decide (tagged = tagged)); [reflexivity|contradiction].
      * intros k Hk Hkt. rewrite DictFacts.dict_get_set_ne by congruence.
        rewrite ContainerFacts.dict_get_del.
        destruct (decide (tagged = k)); [congruence|reflexivity].
    + split; [|repeat split; reflexivity].
      split; [apply DictFacts.dict_get_set_eq|]. split.
      * rewrite DictFacts.dict_get_set_ne by exact Htag.
        destruct (dict_get (all_full_filepaths m) tagged) as [p|] eqn:Hget;
          [|reflexivity].
        exfalso. apply Hout. apply ContainerFacts.dict_keys_get. eexists. exact Hget.
      * intros k Hk _. apply DictFacts.dict_get_set_ne. congruence.
  - simpl. fold tagged. split; [|repeat split; reflexivity].
    split; [apply DictFacts.dict_get_set_eq|].
    intros k Hk. apply DictFacts.dict_get_set_ne. congruence.
Qed.

(** *** Dropping and adding runs *)

Lemma remove_runs_others (file : pystr) m (kept rest : list (RunData Format Data)) :
  (forall r, r ∈ rest -> filename r <> file) ->
  remove_runs file m kept rest = (m, kept ++ rest).
Proof.
  revert kept. induction rest as [|run rest IH]; intros kept Hrest.
  - simpl. rewrite app_nil_r. reflexivity.
  - simpl. destruct (decide (filename run = file)) as [Hfile|_].
    + exfalso. apply (Hrest run); [left | exact Hfile].
    + rewrite IH, <- app_assoc; [reflexivity|].
      intros r Hr. apply Hrest. right. exact Hr.
Qed.

(** With no file twice in the list, the loop takes out the run of the
    file, if there is one, and no other; the palette is the only other
    thing it changes. *)
Lemma remove_runs_spec (file : pystr) m (kept rest : list (RunData Format Data)) :
  NoDup (map filename rest) ->
  let out := remove_runs file m kept rest in
  out.2 = kept ++ filter (fun r => filename r <> file) rest
  /\ run_list out.1 = run_list m
  /\ current_formats out.1 = current_formats m
  /\ all_full_filepaths out.1 = all_full_filepaths m.
Proof.
  revert kept. induction rest as [|run rest IH]; intros kept Hnd.
  - simpl. rewrite app_nil_r. repeat split; reflexivity.
  - simpl in Hnd. apply NoDup_cons in Hnd. destruct Hnd as [Hfresh Hnd].
    cbn [remove_runs]. rewrite filter_cons.
    destruct (decide (filename run = file)) as [Hfile|Hfile].
    + destruct (decide (filename run <> file)) as [Hne|_]; [contradiction|].
      assert (Hothers : forall r, r ∈ rest -> filename r <> file).
      { intros r Hr Heq. apply Hfresh. apply list_elem_of_fmap. exists r.
        split; [congruence | exact Hr]. }
      assert (Hfilter : filter (fun r => filename r <> file) rest = rest).
      { clear -Hothers. induction rest as [|r rest IH]; [reflexivity|].
        rewrite filter_cons. destruct (decide (filename r <> file)) as [_|Hno].
        - f_equal. apply IH. intros r' Hr'. apply Hothers. right. exact Hr'.
        - exfalso. apply Hno. apply Hothers. left. }
      rewrite Hfilter. destruct rest as [|next rest'].
      * simpl. rewrite app_nil_r. repeat split; reflexivity.
      * rewrite remove_runs_others
          by (intros r Hr; apply Hothers; right; exact Hr).
        simpl. rewrite <- app_assoc. repeat split; reflexivity.
    + destruct (decide (filename run <> file)) as [_|Hno]; [|contradiction].
      destruct (IH (kept ++ [run]) Hnd) as (Hruns & Hrest).
      cbv zeta in Hruns. cbv zeta. rewrite Hruns, <- app_assoc.
      split; [reflexivity | exact Hrest].
Qed.

Lemma drop_file_spec (formats : dict pystr Format) m (file : pystr) :
  consistent m ->
  let m' := drop_file formats m file in
  consistent m'
  /\ (forall r, r ∈ run_list m' <->
        r ∈ run_list m /\ (filename r = file -> file ∈ dict_keys formats))
  /\ (forall f, f ∈ dict_keys (current_formats m') <->
        f ∈ dict_keys (current_formats m) /\ (f = file -> file ∈ dict_keys formats)).
Proof.
  intros [Hnd Hcur]. unfold drop_file.
  destruct (bool_decide_reflect (file ∉ dict_keys formats)) as [Hout|Hin].
  - pose proof (remove_runs_spec file m [] (run_list m) Hnd) as Hspec.
    cbv zeta in Hspec.
    destruct (remove_runs file m [] (run_list m)) as [m1 runs].
    simpl in Hspec. destruct Hspec as (-> & Hl & Hf & Hp). cbv zeta. simpl.
    assert (Hkeys : forall f, f ∈ dict_keys (dict_del (current_formats m1) file) <->
                      f ∈ dict_keys (current_formats m) /\ f <> file).
    { intros f. rewrite !ContainerFacts.dict_keys_get, ContainerFacts.dict_get_del, Hf.
      destruct (decide (file = f)) as [->|Hne].
      - split; [intros [x Hx]; discriminate | intros [_ Hno]; contradiction].
      - split; [intros Hs; split; [exact Hs | congruence] | intros [Hs _]; exact Hs]. }
    split; [split|split].
    + clear -Hnd. induction (run_list m) as [|r l IH]; [constructor|].
      simpl in Hnd. apply NoDup_cons in Hnd. destruct Hnd as [Hr Hl].
      rewrite filter_cons. destruct (decide _); [|apply IH; exact Hl].
      simpl. apply NoDup_cons. split; [|apply IH; exact Hl].
      intros Hin. apply Hr. apply list_elem_of_fmap in Hin.
      destruct Hin as (r' & Heq & Hr'). apply list_elem_of_filter in Hr'.
      apply list_elem_of_fmap. exists r'. split; [exact Heq | apply Hr'].
    + intros r Hr. apply list_elem_of_filter in Hr. destruct Hr as [Hne Hr].
      apply Hkeys. split; [apply Hcur; exact Hr | exact Hne].
    + intros r. rewrite list_elem_of_filter. split.
      * intros [Hne Hr]. split; [exact Hr | intros Heq; contradiction].
      * intros [Hr Himp]. split; [|exact Hr]. intros Heq. exact (Hout (Himp Heq)).
    + intros f. rewrite Hkeys. split.
      * intros [Hf' Hne]. split; [exact Hf' | intros Heq; contradiction].
      * intros [Hf' Himp]. split; [exact Hf'|]. intros Heq. exact (Hout (Himp Heq)).
  - assert (Hfile : file ∈ dict_keys formats)
      by (destruct (decide (file ∈ dict_keys formats)); [assumption|contradiction]).
    cbv zeta. split; [split; assumption|]. split.
    + intros r. split; [intros Hr; split; [exact Hr | intros _; exact Hfile]|].
      intros [Hr _]. exact Hr.
    + intros f. split; [intros Hf; split; [exact Hf | intros _; exact Hfile]|].
      intros [Hf _]. exact Hf.
Qed.

Lemma drop_files_spec (formats : dict pystr Format) (files : list pystr) m :
  consistent m ->
  let m' := fold_left (drop_file formats) files m in
  consistent m'
  /\ (forall r, r ∈ run_list m' <->
        r ∈ run_list m /\ (filename r ∈ files -> filename r ∈ dict_keys formats))
  /\ (forall f, f ∈ dict_keys (current_formats m') <->
        f ∈ dict_keys (current_formats m) /\ (f ∈ files -> f ∈ dict_keys formats)).
Proof.
  revert m. induction files as [|file files IH]; intros m Hm.
  - simpl. split; [exact Hm|]. split.
    + intros r. split; [intros Hr; split; [exact Hr|] | intros [Hr _]; exact Hr].
      intros Hin. apply elem_of_nil in Hin. contradiction.
    + intros f. split; [intros Hf; split; [exact Hf|] | intros [Hf _]; exact Hf].
      intros Hin. apply elem_of_nil in Hin. contradiction.
  - cbn [fold_left].
    destruct (drop_file_spec formats m file Hm) as (Hm1 & Hr1 & Hf1).
    cbv zeta in Hm1, Hr1, Hf1.
    destruct (IH _ Hm1) as (Hm2 & Hr2 & Hf2). cbv zeta in Hm2, Hr2, Hf2. cbv zeta.
    split; [exact Hm2|]. split.
    + intros r. rewrite Hr2, Hr1, elem_of_cons. split.
      * intros [[Hr Hfile] Hfiles]. split; [exact Hr|].
        intros [Heq|Hin]; [rewrite Heq; apply Hfile; exact Heq | apply Hfiles; exact Hin].
      * intros [Hr Himp]. split; [split; [exact Hr|]|].
        -- intros Heq. rewrite <- Heq. apply Himp. left. exact Heq.
        -- intros Hin. apply Himp. right. exact Hin.
    + intros f. rewrite Hf2, Hf1, elem_of_cons. split.
      * intros [[Hf Hfile] Hfiles]. split; [exact Hf|].
        intros [Heq|Hin]; [rewrite Heq; apply Hfile; exact Heq | apply Hfiles; exact Hin].
      * intros [Hf Himp]. split; [split; [exact Hf|]|].
        -- intros Heq. rewrite <- Heq. apply Himp. left. exact Heq.
        -- intros Hin. apply Himp. right. exact Hin.
Qed.

Lemma add_file_spec (load : pystr -> Format -> result Data)
    (formats : dict pystr Format) m m' (file : pystr) :
  consistent m ->
  add_file load formats m file = Ok m' ->
  consistent m'
  /\ (forall f, f ∈ dict_keys (current_formats m') <->
        f ∈ dict_keys (current_formats m) \/ f = file)
  /\ (forall r, r ∈ run_list m -> r ∈ run_list m')
  /\ (forall r, r ∈ run_list m' -> r ∈ run_list m \/ made_for formats file r)
  /\ (file ∉ dict_keys (current_formats m) ->
      exists r, r ∈ run_list m' /\ made_for formats file r).
Proof.
  intros [Hnd Hcur] Hadd. unfold add_file in Hadd.
  destruct (bool_decide_reflect (file ∉ dict_keys (current_formats m))) as [Hnew|Hold].
  - destruct (dict_get formats file) as [format|] eqn:Hformat;
      cbn [or_raise mbind result_mbind bind] in Hadd; [|discriminate].
    destruct (color_options m !! 0%nat) as [c|] eqn:Hc;
      cbn [or_raise mbind result_mbind bind] in Hadd; [|discriminate].
    destruct (load file format) as [data|];
      cbn [or_raise mbind result_mbind bind] in Hadd; [|discriminate].
    simpl in Hadd. rewrite Hc in Hadd.
    cbn [or_raise mbind result_mbind bind] in Hadd. injection Hadd as <-.
    unfold consistent. simpl.
    set (run := {| filename := file; f_formats := format; visibility := true;
                   color := c; run_data := data |}).
    assert (Hmade : made_for formats file run) by (repeat split; exact Hformat).
    assert (Hkeys : forall f, f ∈ dict_keys (dict_set (current_formats m) file format) <->
                      f ∈ dict_keys (current_formats m) \/ f = file).
    { intros f. rewrite !ContainerFacts.dict_keys_get, DictFacts.dict_get_set.
      destruct (decide (file = f)) as [->|Hne].
      - split; [intros _; right; reflexivity | intros _; eexists; reflexivity].
      - split; [intros Hs; left; exact Hs | intros [Hs|Heq]; [exact Hs | congruence]]. }
    split; [split|split; [|split; [|split]]].
    + rewrite map_app. apply NoDup_app. split; [exact Hnd|]. split.
      * intros f Hf Hf'. apply list_elem_of_singleton in Hf'. subst f.
        apply list_elem_of_fmap in Hf. destruct Hf as (r & Heq & Hr).
        apply Hnew. simpl in Heq. rewrite Heq. apply Hcur. exact Hr.
      * apply NoDup_singleton.
    + intros r Hr. apply Hkeys. apply elem_of_app in Hr. destruct Hr as [Hr|Hr].
      * left. apply Hcur. exact Hr.
      * apply list_elem_of_singleton in Hr. subst r. right. reflexivity.
    + exact Hkeys.
    + intros r Hr. apply elem_of_app. left. exact Hr.
    + intros r Hr. apply elem_of_app in Hr. destruct Hr as [Hr|Hr]; [left; exact Hr|].
      apply list_elem_of_singleton in Hr. subst r. right. exact Hmade.
    + intros _. exists run. split; [|exact Hmade].
      apply elem_of_app. right. apply list_elem_of_singleton. reflexivity.
  - injection Hadd as <-.
    assert (Hfile : file ∈ dict_keys (current_formats m))
      by (destruct (decide (file ∈ dict_keys (current_formats m)));
          [assumption|contradiction]).
    split; [split; assumption|]. split; [|split; [|split]].
    + intros f. split; [intros Hf; left; exact Hf|].
      intros [Hf| ->]; [exact Hf | exact Hfile].
    + intros r Hr. exact Hr.
    + intros r Hr. left. exact Hr.
    + intros Hno. contradiction.
Qed.

Lemma add_files_spec (load : pystr -> Format -> result Data)
    (formats : dict pystr Format) (files : list pystr) m m' :
  consistent m ->
  for_each (add_file load formats) files m = Ok m' ->
  consistent m'
  /\ (forall f, f ∈ dict_keys (current_formats m') <->
        f ∈ dict_keys (current_formats m) \/ f ∈ files)
  /\ (forall r, r ∈ run_list m -> r ∈ run_list m')
  /\ (forall r, r ∈ run_list m' ->
        r ∈ run_list m
        \/ exists f, f ∈ files /\ (f ∉ dict_keys (current_formats m))
                     /\ made_for formats f r)
  /\ (forall f, f ∈ files -> f ∉ dict_keys (current_formats m) ->
        exists r, r ∈ run_list m' /\ made_for formats f r).
Proof.
  revert m. induction files as [|file files IH]; intros m Hm Hrun.
  - simpl in Hrun. injection Hrun as <-. split; [exact Hm|]. split; [|split; [|split]].
    + intros f. split; [intros Hf; left; exact Hf|].
      intros [Hf|Hf]; [exact Hf | apply elem_of_nil in Hf; contradiction].
    + intros r Hr. exact Hr.
    + intros r Hr. left. exact Hr.
    + intros f Hf. apply elem_of_nil in Hf. contradiction.
  - cbn [for_each] in Hrun.
    destruct (add_file load formats m file) as [m1|] eqn:Hadd; [|discriminate].
    cbn [bind] in Hrun.
    destruct (add_file_spec load formats m m1 file Hm Hadd)
      as (Hm1 & Hk1 & Hkeep1 & Hnew1 & Hmade1).
    destruct (IH m1 Hm1 Hrun) as (Hm2 & Hk2 & Hkeep2 & Hnew2 & Hmade2).
    split; [exact Hm2|]. split; [|split; [|split]].
    + intros f. rewrite Hk2, Hk1, elem_of_cons. tauto.
    + intros r Hr. apply Hkeep2, Hkeep1, Hr.
    + intros r Hr. destruct (Hnew2 r Hr) as [Hr1|(f & Hf & Hfresh & Hmade)].
      * destruct (Hnew1 r Hr1) as [Hr0|Hmade]; [left; exact Hr0|].
        destruct (decide (file ∈ dict_keys (current_formats m))) as [Hold|Hfresh].
        -- left. (* the file was current: nothing was added *)
           unfold add_file in Hadd.
           rewrite bool_decide_eq_false_2 in Hadd by (intros Hno; exact (Hno Hold)).
           injection Hadd as <-. exact Hr1.
        -- right. exists file. split; [left|]. split; assumption.
      * right. exists f. split; [right; exact Hf|]. split; [|exact Hmade].
        intros Hin. apply Hfresh. apply Hk1. left. exact Hin.
    + intros f Hf Hfresh. apply elem_of_cons in Hf.
      destruct (decide (f = file)) as [->|Hne].
      * destruct (Hmade1 Hfresh) as (r & Hr & Hmade). exists r.
        split; [apply Hkeep2; exact Hr | exact Hmade].
      * destruct Hf as [Heq|Hf]; [contradiction|].
        apply Hmade2; [exact Hf|]. intros Hin. apply Hk1 in Hin.
        destruct Hin as [Hin|Heq]; [exact (Hfresh Hin) | contradiction].
Qed.

(** When no file occurs twice among the runs and the file of every run is
    current, [update_runs] brings the model in step with the formats it is
    given: if it returns, the current files are those of the formats, every
    run is of one of them, no file has two runs, the runs of files that
    stay are the runs they were, and every file that is new has a run made
    for it, visible and with the format of the file. *)
Theorem update_runs_synchronises (load : pystr -> Format -> result Data)
    m m' (formats : dict pystr Format) :
  consistent m ->
  update_runs load m formats = Ok m' ->
  consistent m'
  /\ (forall f, f ∈ dict_keys (current_formats m') <-> f ∈ dict_keys formats)
  /\ (forall r, r ∈ run_list m' -> filename r ∈ dict_keys formats)
  /\ (forall r, r ∈ run_list m -> filename r ∈ dict_keys formats -> r ∈ run_list m')
  /\ (forall r, r ∈ run_list m' -> r ∈ run_list m \/ made_for formats (filename r) r)
  /\ (forall f, f ∈ dict_keys formats -> f ∉ dict_keys (current_formats m) ->
        exists r, r ∈ run_list m' /\ made_for formats f r).
Proof.
  intros Hm Hrun. unfold update_runs in Hrun.
  destruct (drop_files_spec formats (dict_keys (current_formats m)) m Hm)
    as (Hm1 & Hr1 & Hk1).
  cbv zeta in Hm1, Hr1, Hk1.
  set (m1 := fold_left (drop_file formats) (dict_keys (current_formats m)) m) in *.
  destruct (add_files_spec load formats (dict_keys formats) m1 m' Hm1 Hrun)
    as (Hm2 & Hk2 & Hkeep & Hnew & Hmade).
  assert (Hkeys : forall f, f ∈ dict_keys (current_formats m') <-> f ∈ dict_keys formats).
  { intros f. rewrite Hk2, Hk1. tauto. }
  split; [exact Hm2|]. split; [exact Hkeys|]. split; [|split; [|split]].
  - intros r Hr. apply Hkeys. apply Hm2. exact Hr.
  - intros r Hr Hf. apply Hkeep. apply Hr1. split; [exact Hr | intros _; exact Hf].
  - intros r Hr. destruct (Hnew r Hr) as [Hr0|(f & _ & _ & Hmade')].
    + left. apply Hr1 in Hr0. apply Hr0.
    + right. destruct Hmade' as (Hfile & Hrest). rewrite Hfile.
      split; [exact Hfile | exact Hrest].
  - intros f Hf Hfresh. apply Hmade; [exact Hf|].
    intros Hin. apply Hk1 in Hin. apply Hfresh. apply Hin.
Qed.

(** *** Colours for new runs *)

Lemma add_file_new (load : pystr -> Format -> result Data)
    (formats : dict pystr Format) m (file : pystr) (format : Format) :
  file ∉ dict_keys (current_formats m) ->
  dict_get formats file = Some format ->
  (forall f fmt, exists d, load f fmt = Ok d) ->
  match color_options m with
  | [] => add_file load formats m file = Raise IndexError
  | c :: options =>
      exists m1, add_file load formats m file = Ok m1
                 /\ color_options m1 = options
                 /\ forall f, f ∈ dict_keys (current_formats m1) <->
                      f ∈ dict_keys (current_formats m) \/ f = file
  end.
Proof.
  intros Hnew Hformat Hload. unfold add_file.
  rewrite (bool_decide_eq_true_2 _ Hnew), Hformat.
  cbn [or_raise mbind result_mbind bind].
  destruct (color_options m) as [|c options] eqn:Hoptions; [reflexivity|].
  cbn [lookup list_lookup or_raise mbind result_mbind bind].
  destruct (Hload file format) as [data ->].
  cbn [or_raise mbind result_mbind bind]. simpl. rewrite Hoptions.
  cbn [lookup list_lookup or_raise mbind result_mbind bind].
  eexists. split; [reflexivity|]. simpl. rewrite Hoptions.
  rewrite bool_decide_eq_true_2 by left. simpl.
  destruct (decide (c = c)) as [_|Hne]; [|contradiction].
  split; [reflexivity|].
  intros f. rewrite !ContainerFacts.dict_keys_get, DictFacts.dict_get_set.
  destruct (decide (file = f)) as [->|Hne].
  - split; [intros _; right; reflexivity | intros _; eexists; reflexivity].
  - split; [intros Hs; left; exact Hs | intros [Hs|Heq]; [exact Hs | congruence]].
Qed.

Lemma add_files_colours (load : pystr -> Format -> result Data)
    (formats : dict pystr Format) (files : list pystr) m :
  NoDup files ->
  (forall f, f ∈ files -> f ∉ dict_keys (current_formats m)) ->
  (forall f, f ∈ files -> f ∈ dict_keys formats) ->
  (forall f fmt, exists d, load f fmt = Ok d) ->
  ((length files <= length (color_options m))%nat ->
   exists m', for_each (add_file load formats) files m = Ok m'
              /\ color_options m' = drop (length files) (color_options m))
  /\ ((length (color_options m) < length files)%nat ->
      for_each (add_file load formats) files m = Raise IndexError).
Proof.
  revert m. induction files as [|file files IH]; intros m Hnd Hfresh Hknown Hload.
  - simpl. split; [|lia]. intros _. exists m. split; reflexivity.
  - apply NoDup_cons in Hnd. destruct Hnd as [Hfile Hnd].
    assert (Hformat : is_Some (dict_get formats file))
      by (apply ContainerFacts.dict_keys_get; apply Hknown; left).
    destruct Hformat as [format Hformat].
    pose proof (add_file_new load formats m file format
                  (Hfresh file ltac:(left)) Hformat Hload) as Hadd.
    cbn [for_each length].
    destruct (color_options m) as [|c options] eqn:Hoptions.
    + rewrite Hadd. simpl. split; [lia | reflexivity].
    + destruct Hadd as (m1 & -> & Hopts1 & Hkeys1). cbn [bind].
      destruct (IH m1 Hnd) as [IHok IHraise]; [| |exact Hload|].
      * intros f Hf Hin. apply Hkeys1 in Hin. destruct Hin as [Hin| ->].
        -- apply (Hfresh f); [right; exact Hf | exact Hin].
        -- exact (Hfile Hf).
      * intros f Hf. apply Hknown. right. exact Hf.
      * rewrite Hopts1 in IHok, IHraise. cbn [length drop]. split.
        -- intros Hle. apply IHok. lia.
        -- intros Hlt. apply IHraise. lia.
Qed.

(** A model without a current file gives every file of the formats a
    colour of its own, the available colours in their order: with files
    that can all be read, [update_runs] returns when there are at least as
    many colours available as files, and uses up that many; with fewer
    colours it raises [IndexError]. *)
Theorem update_runs_needs_colours (load : pystr -> Format -> result Data)
    m (formats : dict pystr Format) :
  current_formats m = [] ->
  NoDup (dict_keys formats) ->
  (forall f fmt, exists d, load f fmt = Ok d) ->
  ((length formats <= length (color_options m))%nat ->
   exists m', update_runs load m formats = Ok m'
              /\ color_options m' = drop (length formats) (color_options m))
  /\ ((length (color_options m) < length formats)%nat ->
      update_runs load m formats = Raise IndexError).
Proof.
  intros Hcur Hnd Hload. unfold update_runs. rewrite Hcur. cbn [dict_keys map fold_left].
  destruct (add_files_colours load formats (dict_keys formats) m Hnd) as [Hok Hraise];
    [| |exact Hload|].
  - intros f _. rewrite Hcur. apply not_elem_of_nil.
  - intros f Hf. exact Hf.
  - assert (Hlen : length (dict_keys formats) = length formats) by apply length_map.
    rewrite Hlen in Hok, Hraise. split; assumption.
Qed.

End Model.

Lemma example_model_palette :
  NoDup (color_options example_model ++ used_colors example_model).
Proof. apply (bool_decide_unpack _). vm_compute. exact I. Qed.

Lemma example_model_consistent : consistent example_model.
Proof.
  split.
  - apply (bool_decide_unpack _). vm_compute. exact I.
  - intros r Hr. apply list_elem_of_singleton in Hr. subst r. left.
Qed.

(** The run of [a.dat] made red. *)
Lemma update_run_color_recolours_witness :
  let m' := update_run_color example_model (u "a.dat") (Some (u "red")) in
  run_list m' = [set_color example_run (Some (u "red"))]
  /\ NoDup (color_options m' ++ used_colors m').
Proof.
  destruct (update_run_color_recolours example_model (u "a.dat") (Some (u "red")))
    as (Hruns & _ & _ & Hnd).
  split; [exact Hruns | exact (Hnd example_model_palette)].
Defined.

(** Red for blue, and blue chosen again. *)
Lemma update_run_color_swaps_witness :
  (Some (u "red") ∈ used_colors (update_run_color example_model (u "a.dat") (Some (u "red")))
   /\ Some (u "blue")
        ∈ color_options (update_run_color example_model (u "a.dat") (Some (u "red"))))
  /\ Some (u "blue")
       ∈ color_options (update_run_color example_model (u "a.dat") (Some (u "blue"))).
Proof.
  assert (Hothers : forall r : RunData unit unit, r ∈ [] ++ [] -> filename r <> u "a.dat").
  { intros r Hr. apply elem_of_nil in Hr. contradiction. }
  assert (Hblue : color example_run ∈ used_colors example_model) by left.
  split.
  - destruct (update_run_color_swaps example_model (u "a.dat") (Some (u "red"))
                [] [] example_run eq_refl Hothers eq_refl example_model_palette Hblue)
      as [Hswap _].
    destruct Hswap as (Hred & _ & Hfree & _); [left|].
    split; [exact Hred | exact Hfree].
  - destruct (update_run_color_swaps example_model (u "a.dat") (Some (u "blue"))
                [] [] example_run eq_refl Hothers eq_refl example_model_palette Hblue)
      as [_ Hsame].
    apply Hsame. reflexivity.
Defined.

(** [b.dat] asked for instead of [a.dat]. *)
Lemma update_runs_synchronises_witness :
  exists m' : BEAMSModel unit unit,
    update_runs Standin.read_nothing example_model [(u "b.dat", tt)] = Ok m'
    /\ (forall f, f ∈ dict_keys (current_formats m') <-> f ∈ [u "b.dat"])
    /\ exists r, r ∈ run_list m' /\ filename r = u "b.dat".
Proof.
  eexists. split; [vm_compute; reflexivity|].
  destruct (update_runs_synchronises Standin.read_nothing example_model _
              [(u "b.dat", tt)] example_model_consistent eq_refl)
    as (_ & Hkeys & _ & _ & _ & Hnew).
  split; [exact Hkeys|].
  destruct (Hnew (u "b.dat")) as (r & Hr & Hfile & _).
  - left.
  - intros Hin. apply list_elem_of_singleton in Hin. discriminate.
  - exists r. split; [exact Hr | exact Hfile].
Defined.

(** One file for a model without a colour left, and two files for a new
    model. *)
Lemma update_runs_needs_colours_witness :
  update_runs Standin.read_nothing colourless_model [(u "a.dat", tt)] = Raise IndexError
  /\ exists m' : BEAMSModel unit unit,
       update_runs Standin.read_nothing new_BEAMSModel [(u "a.dat", tt); (u "b.dat", tt)]
       = Ok m'
       /\ color_options m' = drop 2 initial_color_options.
Proof.
  assert (Hload : forall (f : pystr) (fmt : unit),
             exists d, Standin.read_nothing f fmt = Ok d)
    by (intros f fmt; exists tt; reflexivity).
  split.
  - destruct (update_runs_needs_colours Standin.read_nothing colourless_model
                [(u "a.dat", tt)] eq_refl) as [_ Hraise].
    + apply NoDup_singleton.
    + exact Hload.
    + apply Hraise. simpl. lia.
  - destruct (update_runs_needs_colours Standin.read_nothing new_BEAMSModel
                [(u "a.dat", tt); (u "b.dat", tt)] eq_refl) as [Hok _].
    + apply (bool_decide_unpack _). vm_compute. exact I.
    + exact Hload.
    + apply Hok. simpl. lia.
Defined.

End ModelFacts.

(** ** The data access objects *)

Module DataAccessFacts.
Import Container DataAccess.
Import Terms Examples.

Section Runs.
Context {K Run Fit File : Type} `{EqDecision K}.
Implicit Types db : Database K Run Fit File.
Variable id : Run -> K.

Lemma add_runs_tables db (l : list Run) :
  fit_table (RunDAO.add_runs id db l) = fit_table db
  /\ file_table (RunDAO.add_runs id db l) = file_table db
  /\ runs (RunDAO.add_runs id db l) = runs db
  /\ fits (RunDAO.add_runs id db l) = fits db
  /\ files (RunDAO.add_runs id db l) = files db.
Proof.
  revert db. induction l as [|run l IH]; intros db; [repeat split; reflexivity|].
  unfold RunDAO.add_runs in *. cbn [fold_left].
  destruct (IH (with_run_table db (dict_set (run_table db) (id run) run)))
    as (H1 & H2 & H3 & H4 & H5).
  rewrite H1, H2, H3, H4, H5. repeat split; reflexivity.
Qed.

Lemma add_runs_frame db (l : list Run) (k : K) :
  k ∉ map id l ->
  dict_get (run_table (RunDAO.add_runs id db l)) k = dict_get (run_table db) k.
Proof.
  revert db. induction l as [|run l IH]; intros db Hk; [reflexivity|].
  unfold RunDAO.add_runs in *. cbn [fold_left]. rewrite IH.
  - simpl. apply DictFacts.dict_get_set_ne. intros Heq. apply Hk. simpl. rewrite <- Heq. left.
  - intros Hin. apply Hk. right. exact Hin.
Qed.

Lemma add_runs_stored db (l : list Run) (run : Run) :
  NoDup (map id l) -> run ∈ l ->
  dict_get (run_table (RunDAO.add_runs id db l)) (id run) = Some run.
Proof.
  revert db. induction l as [|x l IH]; intros db Hnd Hin.
  - apply elem_of_nil in Hin. contradiction.
  - simpl in Hnd. apply NoDup_cons in Hnd. destruct Hnd as [Hx Hnd].
    apply elem_of_cons in Hin. destruct Hin as [->|Hin].
    + change (RunDAO.add_runs id db (x :: l))
        with (RunDAO.add_runs id (with_run_table db (dict_set (run_table db) (id x) x)) l).
      rewrite add_runs_frame by exact Hx. simpl. apply DictFacts.dict_get_set_eq.
    + apply (IH (with_run_table db (dict_set (run_table db) (id x) x)) Hnd Hin).
Qed.

Lemma get_runs_by_ids_stored db (l : list Run) :
  (forall run, run ∈ l -> dict_get (run_table db) (id run) = Some run) ->
  RunDAO.get_runs_by_ids db (map id l) = Returned l.
Proof.
  induction l as [|x l IH]; intros Hl; [reflexivity|].
  simpl. rewrite (Hl x) by left. rewrite IH; [reflexivity|].
  intros run Hrun. apply Hl. right. exact Hrun.
Qed.

(** Runs added under distinct ids are returned by [get_runs_by_ids] for
    their ids, in the order asked for; [add_runs] leaves the runs under
    other ids and everything else of the database; and [clear] removes no
    run: after it, both queries answer as before. *)
Theorem run_dao_round_trip db (new_runs : list Run) :
  NoDup (map id new_runs) ->
  let db' := RunDAO.add_runs id db new_runs in
  RunDAO.get_runs_by_ids db' (map id new_runs) = Returned new_runs
  /\ (forall k, k ∉ map id new_runs ->
        dict_get (run_table db') k = dict_get (run_table db) k)
  /\ fits db' = fits db /\ files db' = files db
  /\ RunDAO.get_runs (RunDAO.clear db') = RunDAO.get_runs db'
  /\ forall ids, RunDAO.get_runs_by_ids (RunDAO.clear db') ids
                 = RunDAO.get_runs_by_ids db' ids.
Proof.
  intros Hnd db'. split; [|split; [|split; [|split; [|split]]]].
  - apply get_runs_by_ids_stored. intros run Hrun. apply add_runs_stored; assumption.
  - intros k Hk. apply add_runs_frame. exact Hk.
  - apply add_runs_tables.
  - apply add_runs_tables.
  - reflexivity.
  - intros ids. induction ids as [|rid ids IH]; [reflexivity|].
    simpl. simpl in IH. rewrite IH. reflexivity.
Qed.

(** [remove_runs_by_ids] returns exactly when the ids are distinct and all
    stored, and has then removed them and nothing else; otherwise it
    raises [KeyError]; in both cases the runs under other ids stay. *)
Theorem remove_runs_by_ids_removes db (ids : list K) :
  let out := RunDAO.remove_runs_by_ids db ids in
  (out.2 = None <->
   NoDup ids /\ forall k, k ∈ ids -> k ∈ dict_keys (run_table db))
  /\ (out.2 = None \/ out.2 = Some (Builtin KeyError))
  /\ (out.2 = None -> forall k, k ∈ ids -> dict_get (run_table out.1) k = None)
  /\ forall k, k ∉ ids -> dict_get (run_table out.1) k = dict_get (run_table db) k.
Proof.
  revert db. induction ids as [|rid ids IH]; intros db.
  - simpl. split; [|split; [|split]].
    + split; [intros _; split; [constructor|] | reflexivity].
      intros k Hk. apply elem_of_nil in Hk. contradiction.
    + left. reflexivity.
    + intros _ k Hk. apply elem_of_nil in Hk. contradiction.
    + reflexivity.
  - cbn [RunDAO.remove_runs_by_ids].
    destruct (dict_get (run_table db) rid) as [run|] eqn:Hrid.
    + destruct (IH (with_run_table db (dict_del (run_table db) rid)))
        as (Hiff & Hexn & Hgone & Hframe).
      cbv zeta in Hiff, Hexn, Hgone, Hframe. cbv zeta.
      set (out := RunDAO.remove_runs_by_ids
                    (with_run_table db (dict_del (run_table db) rid)) ids) in *.
      simpl in Hiff, Hframe.
      assert (Hkeys : forall k, k ∈ dict_keys (dict_del (run_table db) rid) <->
                        k ∈ dict_keys (run_table db) /\ k <> rid).
      { intros k. rewrite !ContainerFacts.dict_keys_get, ContainerFacts.dict_get_del.
        destruct (decide (rid = k)) as [->|Hne].
        - split; [intros [x Hx]; discriminate | intros [_ Hno]; contradiction].
        - split; [intros Hs; split; [exact Hs | congruence] | intros [Hs _]; exact Hs]. }
      split; [|split; [|split]].
      * rewrite Hiff. split.
        -- intros [Hnd Hall]. split.
           ++ constructor; [|exact Hnd]. intros Hin. apply Hall, Hkeys in Hin.
              destruct Hin as [_ Hne]. contradiction.
           ++ intros k Hk. apply elem_of_cons in Hk. destruct Hk as [->|Hk].
              ** apply ContainerFacts.dict_keys_get. eexists. exact Hrid.
              ** apply Hall, Hkeys in Hk. apply Hk.
        -- intros [Hnd Hall]. apply NoDup_cons in Hnd. destruct Hnd as [Hrid' Hnd].
           split; [exact Hnd|]. intros k Hk. apply Hkeys. split.
           ++ apply Hall. right. exact Hk.
           ++ intros ->. exact (Hrid' Hk).
      * exact Hexn.
      * intros Hok k Hk. apply elem_of_cons in Hk.
        destruct (decide (k ∈ ids)) as [Hin|Hout]; [apply Hgone; assumption|].
        destruct Hk as [->|Hk]; [|contradiction].
        rewrite Hframe by exact Hout. rewrite ContainerFacts.dict_get_del.
        destruct (decide (rid = rid)); [reflexivity|contradiction].
      * intros k Hk. rewrite Hframe by (intros Hin; apply Hk; right; exact Hin).
        rewrite ContainerFacts.dict_get_del.
        destruct (decide (rid = k)) as [->|_]; [|reflexivity].
        exfalso. apply Hk. left.
    + simpl. split; [|split; [|split]].
      * split; [discriminate|]. intros [_ Hall].
        assert (Hin : rid ∈ dict_keys (run_table db)) by (apply Hall; left).
        apply ContainerFacts.dict_keys_get in Hin. rewrite Hrid in Hin.
        destruct Hin as [x Hx]. discriminate.
      * right. reflexivity.
      * discriminate.
      * reflexivity.
Qed.

End Runs.

Section Fits.
Context {K Run Fit File : Type} `{EqDecision K}.
Implicit Types db : Database K Run Fit File.
Variable id : Fit -> K.

Lemma add_fits_spec db (t : dict K Fit) (l : list Fit) :
  fits db = Some t ->
  exists t' : dict K Fit,
    FitDAO.add_fits id db l = (with_fits db t', None)
    /\ (forall k, k ∉ map id l -> dict_get t' k = dict_get t k)
    /\ (NoDup (map id l) -> forall fit, fit ∈ l -> dict_get t' (id fit) = Some fit).
Proof.
  revert db t. induction l as [|x l IH]; intros db t Hfits.
  - exists t. simpl. split; [|split; [reflexivity|]].
    + f_equal. destruct db. simpl in *. subst. reflexivity.
    + intros _ fit Hfit. apply elem_of_nil in Hfit. contradiction.
  - cbn [FitDAO.add_fits]. rewrite Hfits.
    destruct (IH (with_fits db (dict_set t (id x) x)) (dict_set t (id x) x) eq_refl)
      as (t' & Hrun & Hframe & Hstored).
    exists t'. split; [rewrite Hrun; reflexivity|]. split.
    + intros k Hk. rewrite Hframe by (intros Hin; apply Hk; right; exact Hin).
      apply DictFacts.dict_get_set_ne. intros Heq. apply Hk. simpl. rewrite <- Heq. left.
    + intros Hnd fit Hfit. simpl in Hnd. apply NoDup_cons in Hnd.
      destruct Hnd as [Hx Hnd]. apply elem_of_cons in Hfit. destruct Hfit as [->|Hfit].
      * rewrite Hframe by exact Hx. apply DictFacts.dict_get_set_eq.
      * apply Hstored; assumption.
Qed.

Lemma get_fits_by_ids_stored db (t : dict K Fit) (l : list Fit) :
  fits db = Some t ->
  (forall fit, fit ∈ l -> dict_get t (id fit) = Some fit) ->
  FitDAO.get_fits_by_ids db (map id l) = Returned l.
Proof.
  intros Hfits. induction l as [|x l IH]; intros Hl; [reflexivity|].
  simpl. rewrite Hfits, (Hl x) by left. rewrite IH; [reflexivity|].
  intros fit Hfit. apply Hl. right. exact Hfit.
Qed.

(** Before a [clear] the fit table does not exist for [FitDAO]: every
    method that touches it raises [AttributeError] and changes nothing
    (adding no fit, or asking for no id, touches nothing); after [clear]
    there is no fit, and fits added under distinct ids are returned for
    their ids, the runs being left alone. *)
Theorem fit_dao_needs_clear db (new_fits : list Fit) :
  fits db = None ->
  FitDAO.get_fits db = Raised AttributeError
  /\ (new_fits <> [] ->
      FitDAO.get_fits_by_ids db (map id new_fits) = Raised AttributeError
      /\ FitDAO.add_fits id db new_fits = (db, Some AttributeError)
      /\ FitDAO.remove_runs_by_ids db (map id new_fits) = (db, Some AttributeError))
  /\ FitDAO.add_fits id db [] = (db, None)
  /\ FitDAO.get_fits (FitDAO.clear db) = Returned []
  /\ (NoDup (map id new_fits) ->
      exists db', FitDAO.add_fits id (FitDAO.clear db) new_fits = (db', None)
                  /\ FitDAO.get_fits_by_ids db' (map id new_fits) = Returned new_fits
                  /\ run_table db' = run_table db).
Proof.
  intros Hfits. split; [|split; [|split; [|split]]].
  - unfold FitDAO.get_fits. rewrite Hfits. reflexivity.
  - intros Hne. destruct new_fits as [|x l]; [contradiction|].
    simpl. rewrite Hfits. repeat split; reflexivity.
  - reflexivity.
  - reflexivity.
  - intros Hnd.
    destruct (add_fits_spec (FitDAO.clear db) [] new_fits eq_refl)
      as (t' & Hrun & _ & Hstored).
    eexists. split; [exact Hrun|]. split; [|reflexivity].
    apply (get_fits_by_ids_stored _ t'); [reflexivity|].
    intros fit Hfit. apply Hstored; assumption.
Qed.

End Fits.

Section Files.
Context {K Run Fit File : Type} `{EqDecision K}.
Implicit Types db : Database K Run Fit File.
Variables (id : File -> K) (file_path : File -> K).


End Files.

(** Two runs added to an empty database. *)
Lemma run_dao_round_trip_witness :
  RunDAO.get_runs_by_ids (RunDAO.add_runs fst empty_database two_runs) [u "r1"; u "r2"]
  = Returned two_runs.
Proof.
  destruct (run_dao_round_trip fst empty_database two_runs) as (Hget & _).
  - apply (bool_decide_unpack _). vm_compute. exact I.
  - exact Hget.
Defined.

(** The first of them removed again. *)
Lemma remove_runs_by_ids_removes_witness :
  let out := RunDAO.remove_runs_by_ids
               (RunDAO.add_runs fst empty_database two_runs) [u "r1"] in
  out.2 = None /\ dict_get (run_table out.1) (u "r1") = None.
Proof.
  destruct (remove_runs_by_ids_removes
              (RunDAO.add_runs fst empty_database two_runs) [u "r1"])
    as (Hiff & _ & Hgone & _).
  assert (Hok : (RunDAO.remove_runs_by_ids
                   (RunDAO.add_runs fst empty_database two_runs) [u "r1"]).2 = None).
  { apply Hiff. split; [apply NoDup_singleton|].
    intros k Hk. apply list_elem_of_singleton in Hk. subst k. left. }
  split; [exact Hok|]. apply (Hgone Hok). left.
Defined.

(** Fits on a database that was never cleared. *)
Lemma fit_dao_needs_clear_witness :
  FitDAO.get_fits empty_database = Raised AttributeError
  /\ FitDAO.add_fits fst empty_database two_runs = (empty_database, Some AttributeError).
Proof.
  destruct (fit_dao_needs_clear fst empty_database two_runs eq_refl)
    as (Hget & Hadd & _).
  split; [exact Hget|]. apply Hadd. discriminate.
Defined.


End DataAccessFacts.

(** ** The group size of rebinning *)

Module RebinRoundingFacts.
Import BeamsModel.
Import Terms Examples.

(** C5, at a target width of three source widths. The quotient of the
    two widths is 3, but [bin_data] divides both widths by 1000 first and
    takes the floor of the quotient of the results, which is
    2.9999999999999996 in binary64: it groups the samples in pairs. For
    widths 100 and 300 over the window [0, 1) the three output bins hold
    the means of the first three pairs, 1.5, 3.5 and 5.5, where the
    means of the triples are 2, 5 and 8, and the uncertainties are those
    of pairs; the times of the bins are still three source widths apart.
    The same for the widths 0.390625 and 1.171875. *)
Theorem bin_data_pairs_for_triples :
  py_int_floor (300 / 100) = Ok 3
  /\ bin_layout 100 300 0 1 = Ok (0, 2, 3)
  /\ bin_data (H := Reference.numpy) bins_of_100 twelve_samples unit_uncertainties
       300 0 1 false
     = Ok ([1.5; 3.5; 5.5]%float,
           [0 + 0 * (300 / 1000); 0 + 1 * (300 / 1000); 0 + 2 * (300 / 1000)]%float,
           [PrimFloat.sqrt 2 / 2; PrimFloat.sqrt 2 / 2; PrimFloat.sqrt 2 / 2]%float)
  /\ map (fun j => series_mean (H := Reference.numpy) (group twelve_samples 0 3 j))
         [0; 1; 2]%nat
     = [2; 5; 8]%float
  /\ py_int_floor (1.171875 / 0.390625) = Ok 3
  /\ bin_layout 0.390625 1.171875 0 0.00390625 = Ok (0, 2, 3)
  /\ exists binned_time binned_uncertainty : list float,
       bin_data (H := Reference.numpy) bins_of_0_390625 twelve_samples
         unit_uncertainties 1.171875 0 0.00390625 true
       = Ok ([1.5; 3.5; 5.5]%float, binned_time, binned_uncertainty).
Proof.
  repeat (split; [vm_compute; reflexivity|]).
  eexists _, _. vm_compute. reflexivity.
Qed.

End RebinRoundingFacts.

(** ** Zero residuals without degrees of freedom *)

Module UncertaintyEdgeFacts.
Import Fit.
Import Terms Examples.

(** C8 as stated fails on zero-residual fits: for a fit with as many
    parameters as data points r_exp is 0, and for data that are all zero
    the weighted sum of the squared data is 0; in both cases the
    chi-square is 0/0 and [get_std_unc] returns NaN for it and for the
    uncertainty of the parameter. *)
Lemma get_std_unc_zero_residual_nan :
  Forall (fun r => PrimFloat.is_zero r = true) (opt_fun exact_fit)
  /\ Forall (fun r => PrimFloat.is_zero r = true) (opt_fun perfect_fit)
  /\ (exists (sigma chisq : float),
        get_std_unc (H := Reference.numpy) (H0 := Standin.linalg)
          exact_fit [2]%float None 0 = Ok ([sigma], chisq)
        /\ PrimFloat.is_nan chisq = true /\ PrimFloat.is_nan sigma = true)
  /\ (exists (sigma chisq : float),
        get_std_unc (H := Reference.numpy) (H0 := Standin.linalg)
          perfect_fit [0; 0; 0]%float None 0 = Ok ([sigma], chisq)
        /\ PrimFloat.is_nan chisq = true /\ PrimFloat.is_nan sigma = true).
Proof.
  split; [repeat constructor|]. split; [repeat constructor|].
  split; eexists _, _; (split; [vm_compute; reflexivity|]); split; reflexivity.
Qed.

End UncertaintyEdgeFacts.
